(** * UTXO key manager and processor-transaction model

    A shallow embedding of
    - [src/common/utxobased/keymanager/keymanager.ts] and
    - [src/common/utxobased/db/Models/ProcessorTransaction.ts].

    JavaScript functions that may throw return a [result]; the message of the
    thrown [Error] is kept.  Functions of the libraries the sources import
    (bip32, bip39, bitcoinjs-lib, altcoin-js, bn.js) and of the modules of the
    repository that the two files import are fields of the interfaces
    [Collaborators] and [Imports]: the definitions below are the code of the
    two files, stated over any implementation of those interfaces.  Numbers
    are integers. *)

From Stdlib Require Import ZArith NArith List String Ascii Bool Lia DecimalString.
From Stdlib.Strings Require Import Byte.
Import ListNotations.
Open Scope string_scope.
Open Scope Z_scope.

Set Implicit Arguments.

(** ** Results of calls that may throw *)

Inductive result (A : Type) : Type :=
| Ok (a : A)
| Throw (msg : string).

Arguments Ok {A} a.
Arguments Throw {A} msg.

Definition bind {A B : Type} (r : result A) (k : A -> result B) : result B :=
  match r with
  | Ok a => k a
  | Throw m => Throw m
  end.

Notation "x <- r ;; k" := (bind r (fun x => k))
  (at level 61, r at next level, right associativity).
Notation "' p <- r ;; k" := (bind r (fun x => let p := x in k))
  (at level 61, p pattern, r at next level, right associativity).

Definition isOk {A : Type} (r : result A) : bool :=
  match r with Ok _ => true | Throw _ => false end.

Definition isThrow {A : Type} (r : result A) : bool := negb (isOk r).

(** [try { r } catch (e) {}] around a computation whose value is kept when it
    does not throw. *)
Definition tryCatch {A : Type} (r : result A) : option A :=
  match r with Ok a => Some a | Throw _ => None end.

(** ** Buffers and their hexadecimal text *)

Definition Buffer := list byte.

Definition hexDigit (n : N) : ascii :=
  match n with
  | 0 => "0" | 1 => "1" | 2 => "2" | 3 => "3" | 4 => "4" | 5 => "5"
  | 6 => "6" | 7 => "7" | 8 => "8" | 9 => "9" | 10 => "a" | 11 => "b"
  | 12 => "c" | 13 => "d" | 14 => "e" | _ => "f"
  end%N%char.

Definition hexValue (c : ascii) : option N :=
  let n := N_of_ascii c in
  if ((48 <=? n) && (n <=? 57))%N then Some (n - 48)%N
  else if ((97 <=? n) && (n <=? 102))%N then Some (n - 87)%N
  else if ((65 <=? n) && (n <=? 70))%N then Some (n - 55)%N
  else None.

(** [buf.toString('hex')] *)
Fixpoint toHex (b : Buffer) : string :=
  match b with
  | [] => EmptyString
  | x :: rest =>
      String (hexDigit (Byte.to_N x / 16)) (String (hexDigit (Byte.to_N x mod 16)) (toHex rest))
  end.

(** [Buffer.from(s, 'hex')]: pairs of hexadecimal digits are decoded until the
    first pair that is not one; a trailing single character is dropped. *)
Fixpoint fromHex (s : string) : Buffer :=
  match s with
  | String a (String b rest) =>
      match hexValue a, hexValue b with
      | Some h, Some l =>
          match Byte.of_N (16 * h + l) with
          | Some x => x :: fromHex rest
          | None => []
          end
      | _, _ => []
      end
  | _ => []
  end.

(** * keymanager.ts *)

(** ** Enumerations *)

Module NetworkEnum.
Inductive t : Set := Mainnet | Testnet.
End NetworkEnum.

Module BIP43PurposeTypeEnum.
Inductive t : Set := Legacy | Segwit | WrappedSegwit.
End BIP43PurposeTypeEnum.

Module AddressTypeEnum.
Inductive t : Set :=
| p2pkh | p2sh | p2wpkhp2sh | p2wpkh | p2wsh | p2wshp2sh | cashaddrP2PKH | cashaddrP2SH.
End AddressTypeEnum.

Module TransactionInputTypeEnum.
Inductive t : Set := Legacy | Segwit.
End TransactionInputTypeEnum.

(** The literal type [0 | 1] of [bip44ChangeIndex]. *)
Module ZeroOrOne.
Inductive t : Set := zero | one.
Definition toZ (c : t) : Z := match c with zero => 0 | one => 1 end.
End ZeroOrOne.

(** Modelled from the spec: [cashaddrTypeEnum] and [cashaddrPrefixEnum] of
    bitcoincashUtils/cashAddress.ts, which is not among the sources; the type
    tag is pubkeyhash or scripthash and the prefix is the main or the test
    network's (4.2 of the specification). *)
Module cashaddrTypeEnum.
Inductive t : Set := pubkeyhash | scripthash.
End cashaddrTypeEnum.

Module cashaddrPrefixEnum.
Inductive t : Set := mainnet | testnet.
End cashaddrPrefixEnum.

(** ** Interfaces *)

(** Modelled from the spec: the [CoinPrefixes] interface of coin.ts, which is
    not among the sources.  The fields are the ones keymanager.ts reads; the
    witness and wrapped-witness version bytes are optional (3 of the
    specification, CoinNetworkParams). *)
Module CoinPrefixes.
Record t : Set := mk {
  messagePrefix : string;
  wif : Z;
  legacyXPub : Z;
  legacyXPriv : Z;
  wrappedSegwitXPub : option Z;
  wrappedSegwitXPriv : option Z;
  segwitXPub : option Z;
  segwitXPriv : option Z;
  pubkeyHash : Z;
  scriptHash : Z;
  bech32 : option string
}.
End CoinPrefixes.

(** Modelled from the spec: the [Coin] interface of coin.ts, which is not among
    the sources; the fields are the ones keymanager.ts reads. *)
Module Coin.
Record t : Set := mk {
  name : string;
  segwit : bool;
  mainnetConstants : CoinPrefixes.t;
  testnetConstants : CoinPrefixes.t
}.
End Coin.

Module Bip32.
Record t : Set := mk { public : Z; private : Z }.
End Bip32.

Module BitcoinJSNetwork.
Record t : Set := mk {
  wif : Z;
  bip32 : Bip32.t;
  messagePrefix : string;
  bech32 : string;
  pubKeyHash : Z;
  scriptHash : Z
}.
End BitcoinJSNetwork.

Module MnemonicToXPrivArgs.
Record t : Set := mk {
  mnemonic : string;
  path : string;
  network : NetworkEnum.t;
  type : BIP43PurposeTypeEnum.t;
  coin : string
}.
End MnemonicToXPrivArgs.

Module XPrivToXPubArgs.
Record t : Set := mk {
  xpriv : string;
  network : NetworkEnum.t;
  type : BIP43PurposeTypeEnum.t;
  coin : string
}.
End XPrivToXPubArgs.

Module XPrivToPrivateKeyArgs.
Record t : Set := mk {
  xpriv : string;
  network : NetworkEnum.t;
  type : BIP43PurposeTypeEnum.t;
  bip44ChangeIndex : ZeroOrOne.t;
  bip44AddressIndex : Z;
  coin : string
}.
End XPrivToPrivateKeyArgs.

Module XPubToPubkeyArgs.
Record t : Set := mk {
  xpub : string;
  network : NetworkEnum.t;
  type : BIP43PurposeTypeEnum.t;
  bip44ChangeIndex : ZeroOrOne.t;
  bip44AddressIndex : Z;
  coin : string
}.
End XPubToPubkeyArgs.

Module AddressToScriptPubkeyArgs.
Record t : Set := mk {
  address : string;
  network : NetworkEnum.t;
  addressType : option AddressTypeEnum.t;
  coin : string
}.
End AddressToScriptPubkeyArgs.

Module ScriptPubkeyToAddressArgs.
Record t : Set := mk {
  scriptPubkey : string;
  addressType : AddressTypeEnum.t;
  network : NetworkEnum.t;
  coin : string
}.
End ScriptPubkeyToAddressArgs.

Module ScriptPubkeyToScriptHashArgs.
Record t : Set := mk {
  scriptPubkey : string;
  addressType : AddressTypeEnum.t;
  network : NetworkEnum.t;
  coin : string
}.
End ScriptPubkeyToScriptHashArgs.

Module ScriptHashToScriptPubkeyArgs.
Record t : Set := mk {
  scriptHash : string;
  addressType : AddressTypeEnum.t;
  network : NetworkEnum.t;
  coin : string
}.
End ScriptHashToScriptPubkeyArgs.

Module TxInput.
Record t : Set := mk {
  type : TransactionInputTypeEnum.t;
  prevTxid : string;
  index : Z;
  prevTx : option string;            (* required for legacy transactions *)
  prevScriptPubkey : option string;  (* required for segwit transactions *)
  redeemScript : option string;      (* required for p2sh transaction such as wrapped segwit *)
  value : option Z                   (* required for segwit transactions *)
}.
End TxInput.

Module TxOutput.
Record t : Set := mk { scriptPubkey : string; amount : Z }.
End TxOutput.

Module CreateTxArgs.
Record t : Set := mk {
  network : NetworkEnum.t;
  inputs : list TxInput.t;
  outputs : list TxOutput.t;
  rbf : bool
}.
End CreateTxArgs.

Module SignTxArgs.
Record t : Set := mk { privateKeys : list string; tx : string }.
End SignTxArgs.

(** ** Data of the libraries *)

(** bitcoinjs-lib's [Payment], as far as keymanager.ts builds and reads it. *)
Module Payment.
Record t : Set := mk {
  network : option BitcoinJSNetwork.t;
  address : option string;
  hash : option Buffer;
  output : option Buffer
}.
Definition ofAddress (a : string) (n : BitcoinJSNetwork.t) : t := mk (Some n) (Some a) None None.
Definition ofHash (h : Buffer) (n : BitcoinJSNetwork.t) : t := mk (Some n) None (Some h) None.
Definition ofOutput (o : Buffer) (n : BitcoinJSNetwork.t) : t := mk (Some n) None None (Some o).
End Payment.

Definition PaymentCreator : Set := Payment.t -> result Payment.t.

(** Modelled from the spec: the value [cashAddressToHash] of
    bitcoincashUtils/cashAddress.ts returns, which is not among the sources;
    keymanager.ts reads its [type] and its [scriptHash] (a Buffer). *)
Module CashAddressInfo.
Record t : Set := mk { scriptHash : Buffer; type : cashaddrTypeEnum.t }.
End CashAddressInfo.

(** bitcoinjs-lib's [Psbt]: an ordered list of inputs and an ordered list of
    outputs.  An input carries what [addInput] was given, the partial
    signatures [signInput] attached and the final scripts of [finalizeInput]. *)
Module WitnessUtxo.
Record t : Set := mk { script : Buffer; value : Z }.
End WitnessUtxo.

Module PartialSig.
Record t : Set := mk { pubkey : Buffer; signature : Buffer }.
End PartialSig.

Module PsbtInput.
Record t : Set := mk {
  hash : string;
  index : Z;
  sequence : Z;
  nonWitnessUtxo : option Buffer;
  witnessUtxo : option WitnessUtxo.t;
  redeemScript : option Buffer;
  partialSig : list PartialSig.t;
  finalScriptSig : option Buffer;
  finalScriptWitness : option Buffer
}.
Definition withPartialSig (i : t) (sigs : list PartialSig.t) : t :=
  mk (hash i) (index i) (sequence i) (nonWitnessUtxo i) (witnessUtxo i) (redeemScript i)
     sigs (finalScriptSig i) (finalScriptWitness i).
End PsbtInput.

Module PsbtOutput.
Record t : Set := mk { script : Buffer; value : Z }.
End PsbtOutput.

Module Psbt.
Record t : Set := mk { inputs : list PsbtInput.t; outputs : list PsbtOutput.t }.
Definition empty : t := mk [] [].
End Psbt.

(** ** What keymanager.ts imports

    [getCoinFromString] (coinmapper.ts) and the two functions of cashAddress.ts
    are modules of the repository that are not among the sources; the other
    fields are functions of bip39, bip32 and bitcoinjs-lib.  A field that
    returns a [result] may throw. *)
Class Collaborators : Type := {
  (* coinmapper.ts *)
  getCoinFromString : string -> result Coin.t;
  (* bitcoincashUtils/cashAddress.ts *)
  cashAddressToHash : string -> result CashAddressInfo.t;
  hashToCashAddress : string -> cashaddrTypeEnum.t -> cashaddrPrefixEnum.t -> result string;
  (* bip39 *)
  mnemonicToSeedSync : string -> Buffer;
  (* bip32 *)
  BIP32Interface : Type;
  fromSeed : Buffer -> result BIP32Interface;
  fromBase58 : string -> BitcoinJSNetwork.t -> result BIP32Interface;
  setNetwork : BIP32Interface -> BitcoinJSNetwork.t -> BIP32Interface;
  derive : BIP32Interface -> Z -> result BIP32Interface;
  derivePath : BIP32Interface -> string -> result BIP32Interface;
  neutered : BIP32Interface -> BIP32Interface;
  toBase58 : BIP32Interface -> string;
  publicKey : BIP32Interface -> Buffer;
  privateKey : BIP32Interface -> option Buffer;
  (* bitcoin.payments *)
  payments_p2pkh : PaymentCreator;
  payments_p2sh : PaymentCreator;
  payments_p2wpkh : PaymentCreator;
  payments_p2wsh : PaymentCreator;
  (* bitcoin.Psbt: the checks addInput and addOutput make on what they are given *)
  checkInput : Psbt.t -> PsbtInput.t -> result unit;
  checkOutput : Psbt.t -> PsbtOutput.t -> result unit;
  toBase64 : Psbt.t -> string;
  fromBase64 : string -> result Psbt.t;
  (* bitcoin.ECPair *)
  ECPairInterface : Type;
  fromPrivateKey : Buffer -> result ECPairInterface;
  (* the signature signInput computes for an input with a key pair; it throws
     when the key pair cannot sign for the input *)
  signatureFor : Psbt.t -> nat -> ECPairInterface -> result PartialSig.t;
  (* the check validateSignaturesOfInput makes on one signature of an input:
     it decodes the signature and looks for its public key in the script of
     the input, which both can throw, and answers whether the signature
     verifies *)
  signatureValid : Psbt.t -> nat -> PartialSig.t -> result bool;
  (* the final scripts finalizeInput builds for an input that has signatures *)
  finalScripts : nat -> PsbtInput.t -> result PsbtInput.t;
  (* extractTransaction().toHex() *)
  extractTransactionHex : Psbt.t -> result string
}.

Section Keymanager.
Context {C : Collaborators}.

(** ** bitcoinjs-lib's Psbt methods

    [addInput] and [addOutput] append to the lists after the library's checks;
    [signInput] attaches one signature to the input at the given index;
    [validateSignaturesOfInput] checks the signatures of that input one after
    the other and answers whether all are valid; it throws when there is none
    and when the check of one throws; [finalizeAllInputs] finalizes the
    inputs in order and throws at the first one without a signature. *)

Definition natToString (n : nat) : string := NilEmpty.string_of_uint (Nat.to_uint n).

Definition addInput (psbt : Psbt.t) (inputData : PsbtInput.t) : result Psbt.t :=
  _ <- checkInput psbt inputData ;;
  Ok (Psbt.mk (Psbt.inputs psbt ++ [inputData]) (Psbt.outputs psbt)).

Definition addOutput (psbt : Psbt.t) (outputData : PsbtOutput.t) : result Psbt.t :=
  _ <- checkOutput psbt outputData ;;
  Ok (Psbt.mk (Psbt.inputs psbt) (Psbt.outputs psbt ++ [outputData])).

Fixpoint replaceAt {A : Type} (l : list A) (i : nat) (x : A) : list A :=
  match l, i with
  | [], _ => []
  | _ :: rest, O => x :: rest
  | y :: rest, S j => y :: replaceAt rest j x
  end.

Definition signInput (psbt : Psbt.t) (inputIndex : nat) (keyPair : ECPairInterface)
  : result Psbt.t :=
  match nth_error (Psbt.inputs psbt) inputIndex with
  | None => Throw ("No input #" ++ natToString inputIndex)
  | Some input =>
      sig <- signatureFor psbt inputIndex keyPair ;;
      Ok (Psbt.mk
            (replaceAt (Psbt.inputs psbt) inputIndex
               (PsbtInput.withPartialSig input (PsbtInput.partialSig input ++ [sig])))
            (Psbt.outputs psbt))
  end.

(** The loop of [validateSignaturesOfInput] over the signatures of an input:
    the answers in order, up to the first check that throws. *)
Fixpoint validateEach (psbt : Psbt.t) (inputIndex : nat) (sigs : list PartialSig.t)
  : result (list bool) :=
  match sigs with
  | [] => Ok []
  | pSig :: rest =>
      res <- signatureValid psbt inputIndex pSig ;;
      results <- validateEach psbt inputIndex rest ;;
      Ok (res :: results)
  end.

Definition validateSignaturesOfInput (psbt : Psbt.t) (inputIndex : nat) : result bool :=
  match nth_error (Psbt.inputs psbt) inputIndex with
  | None => Throw "No signatures to validate"
  | Some input =>
      match PsbtInput.partialSig input with
      | [] => Throw "No signatures to validate"
      | sigs =>
          results <- validateEach psbt inputIndex sigs ;;
          Ok (forallb (fun res => res) results)
      end
  end.

Definition finalizeInput (inputIndex : nat) (input : PsbtInput.t) : result PsbtInput.t :=
  match PsbtInput.partialSig input with
  | [] => Throw ("Can not finalize input #" ++ natToString inputIndex)
  | _ => finalScripts inputIndex input
  end.

Fixpoint finalizeFrom (inputIndex : nat) (inputs : list PsbtInput.t)
  : result (list PsbtInput.t) :=
  match inputs with
  | [] => Ok []
  | input :: rest =>
      input' <- finalizeInput inputIndex input ;;
      rest' <- finalizeFrom (S inputIndex) rest ;;
      Ok (input' :: rest')
  end.

Definition finalizeAllInputs (psbt : Psbt.t) : result Psbt.t :=
  match Psbt.inputs psbt with
  | [] => Throw "No input #0"
  | inputs =>
      inputs' <- finalizeFrom 0 inputs ;;
      Ok (Psbt.mk inputs' (Psbt.outputs psbt))
  end.

(** ** Networks *)

Definition bip32NetworkFromCoinPrefix
  (sigType : BIP43PurposeTypeEnum.t) (coinPrefixes : CoinPrefixes.t) (segwit : bool)
  : result BitcoinJSNetwork.t :=
  xKeyPrefixes <-
    match sigType with
    | BIP43PurposeTypeEnum.Segwit =>
        match CoinPrefixes.segwitXPub coinPrefixes, CoinPrefixes.segwitXPriv coinPrefixes with
        | Some xpub, Some xpriv => Ok (Bip32.mk xpub xpriv)
        | _, _ => Throw "segwit xpub prefix is undefined"
        end
    | BIP43PurposeTypeEnum.WrappedSegwit =>
        match CoinPrefixes.wrappedSegwitXPub coinPrefixes,
              CoinPrefixes.wrappedSegwitXPriv coinPrefixes with
        | Some xpub, Some xpriv => Ok (Bip32.mk xpub xpriv)
        | _, _ => Throw "wrapped segwit xpub prefix is undefined"
        end
    | BIP43PurposeTypeEnum.Legacy =>
        Ok (Bip32.mk (CoinPrefixes.legacyXPub coinPrefixes) (CoinPrefixes.legacyXPriv coinPrefixes))
    end ;;
  let bech32 : string :=
    match CoinPrefixes.bech32 coinPrefixes with Some b => b | None => "bc" end in
  Ok {| BitcoinJSNetwork.messagePrefix := CoinPrefixes.messagePrefix coinPrefixes;
        BitcoinJSNetwork.wif := CoinPrefixes.wif coinPrefixes;
        BitcoinJSNetwork.bip32 := xKeyPrefixes;
        BitcoinJSNetwork.bech32 := bech32;
        BitcoinJSNetwork.pubKeyHash := CoinPrefixes.pubkeyHash coinPrefixes;
        BitcoinJSNetwork.scriptHash := CoinPrefixes.scriptHash coinPrefixes |}.

(** The prefixes [bip32NetworkFromCoin] hands on for a network type. *)
Definition constantsOf (networkType : NetworkEnum.t) (coin : Coin.t) : CoinPrefixes.t :=
  match networkType with
  | NetworkEnum.Testnet => Coin.testnetConstants coin
  | NetworkEnum.Mainnet => Coin.mainnetConstants coin
  end.

(** [sigType] defaults to [Legacy] in the source; a caller that leaves it out
    passes [Legacy] here. *)
Definition bip32NetworkFromCoin
  (networkType : NetworkEnum.t) (coinString : string) (sigType : BIP43PurposeTypeEnum.t)
  : result BitcoinJSNetwork.t :=
  coin <- getCoinFromString coinString ;;
  match networkType with
  | NetworkEnum.Testnet =>
      bip32NetworkFromCoinPrefix sigType (Coin.testnetConstants coin) (Coin.segwit coin)
  | NetworkEnum.Mainnet =>
      bip32NetworkFromCoinPrefix sigType (Coin.mainnetConstants coin) (Coin.segwit coin)
  end.

Definition guessAddressTypeFromAddress
  (address : string) (network : BitcoinJSNetwork.t) (addressType : option AddressTypeEnum.t)
  : result AddressTypeEnum.t :=
  match addressType with
  | Some t => Ok t
  | None =>
      match payments_p2pkh (Payment.ofAddress address network) with
      | Ok _ => Ok AddressTypeEnum.p2pkh
      | Throw _ =>
      match payments_p2sh (Payment.ofAddress address network) with
      | Ok _ => Ok AddressTypeEnum.p2sh
      | Throw _ =>
      match payments_p2wsh (Payment.ofAddress address network) with
      | Ok _ => Ok AddressTypeEnum.p2wsh
      | Throw _ =>
      match payments_p2wpkh (Payment.ofAddress address network) with
      | Ok _ => Ok AddressTypeEnum.p2wpkh
      | Throw _ =>
      match cashAddressToHash address with
      | Ok info =>
          match CashAddressInfo.type info with
          | cashaddrTypeEnum.pubkeyhash => Ok AddressTypeEnum.cashaddrP2PKH
          | _ => Ok AddressTypeEnum.cashaddrP2SH
          end
      | Throw _ => Throw ("Could not determine address type of " ++ address)
      end end end end end
  end.

(** ** Extended keys *)

Definition mnemonicToXPriv (mnemonicToXPrivArgs : MnemonicToXPrivArgs.t) : result string :=
  let seed := mnemonicToSeedSync (MnemonicToXPrivArgs.mnemonic mnemonicToXPrivArgs) in
  root <- fromSeed seed ;;
  network <- bip32NetworkFromCoin
               (MnemonicToXPrivArgs.network mnemonicToXPrivArgs)
               (MnemonicToXPrivArgs.coin mnemonicToXPrivArgs)
               (MnemonicToXPrivArgs.type mnemonicToXPrivArgs) ;;
  let root := setNetwork root network in
  child <- derivePath root (MnemonicToXPrivArgs.path mnemonicToXPrivArgs) ;;
  Ok (toBase58 child).

Definition xprivToXPub (xprivToXPubArgs : XPrivToXPubArgs.t) : result string :=
  network <- bip32NetworkFromCoin
               (XPrivToXPubArgs.network xprivToXPubArgs)
               (XPrivToXPubArgs.coin xprivToXPubArgs)
               (XPrivToXPubArgs.type xprivToXPubArgs) ;;
  node <- fromBase58 (XPrivToXPubArgs.xpriv xprivToXPubArgs) network ;;
  Ok (toBase58 (neutered node)).

Definition xpubToPubkey (xpubToPubkeyArgs : XPubToPubkeyArgs.t) : result string :=
  network <- bip32NetworkFromCoin
               (XPubToPubkeyArgs.network xpubToPubkeyArgs)
               (XPubToPubkeyArgs.coin xpubToPubkeyArgs)
               (XPubToPubkeyArgs.type xpubToPubkeyArgs) ;;
  node <- fromBase58 (XPubToPubkeyArgs.xpub xpubToPubkeyArgs) network ;;
  change <- derive node (ZeroOrOne.toZ (XPubToPubkeyArgs.bip44ChangeIndex xpubToPubkeyArgs)) ;;
  leaf <- derive change (XPubToPubkeyArgs.bip44AddressIndex xpubToPubkeyArgs) ;;
  let pubkey : Buffer := publicKey leaf in
  Ok (toHex pubkey).

Definition xprivToPrivateKey (xprivToPrivateKeyArgs : XPrivToPrivateKeyArgs.t) : result string :=
  network <- bip32NetworkFromCoin
               (XPrivToPrivateKeyArgs.network xprivToPrivateKeyArgs)
               (XPrivToPrivateKeyArgs.coin xprivToPrivateKeyArgs)
               (XPrivToPrivateKeyArgs.type xprivToPrivateKeyArgs) ;;
  node <- fromBase58 (XPrivToPrivateKeyArgs.xpriv xprivToPrivateKeyArgs) network ;;
  change <- derive node 0 ;;
  leaf <- derive change 0 ;;
  match privateKey leaf with
  | None => Throw "Failed to generate private key from xpriv"
  | Some privateKey => Ok (toHex privateKey)
  end.

(** ** Addresses, locking scripts and hashes *)

Definition scriptHashToScriptPubkey
  (scriptHashToScriptPubkeyArgs : ScriptHashToScriptPubkeyArgs.t) : result string :=
  network <- bip32NetworkFromCoin
               (ScriptHashToScriptPubkeyArgs.network scriptHashToScriptPubkeyArgs)
               (ScriptHashToScriptPubkeyArgs.coin scriptHashToScriptPubkeyArgs)
               BIP43PurposeTypeEnum.Legacy ;;
  payment <-
    match ScriptHashToScriptPubkeyArgs.addressType scriptHashToScriptPubkeyArgs with
    | AddressTypeEnum.p2pkh => Ok payments_p2pkh
    | AddressTypeEnum.p2sh | AddressTypeEnum.p2wpkhp2sh => Ok payments_p2sh
    | AddressTypeEnum.p2wpkh => Ok payments_p2wpkh
    | AddressTypeEnum.p2wsh => Ok payments_p2wsh
    | _ => Throw "invalid address type in address to script pubkey"
    end ;;
  p <- payment (Payment.ofHash
                  (fromHex (ScriptHashToScriptPubkeyArgs.scriptHash scriptHashToScriptPubkeyArgs))
                  network) ;;
  match Payment.output p with
  | None => Throw "failed converting scriptPubkey to address"
  | Some scriptPubkey => Ok (toHex scriptPubkey)
  end.

Definition scriptPubkeyToScriptHash
  (scriptPubkeytoScriptHashArgs : ScriptPubkeyToScriptHashArgs.t) : result string :=
  network <- bip32NetworkFromCoin
               (ScriptPubkeyToScriptHashArgs.network scriptPubkeytoScriptHashArgs)
               (ScriptPubkeyToScriptHashArgs.coin scriptPubkeytoScriptHashArgs)
               BIP43PurposeTypeEnum.Legacy ;;
  payment <-
    match ScriptPubkeyToScriptHashArgs.addressType scriptPubkeytoScriptHashArgs with
    | AddressTypeEnum.p2pkh | AddressTypeEnum.cashaddrP2PKH => Ok payments_p2pkh
    | AddressTypeEnum.p2sh | AddressTypeEnum.cashaddrP2SH | AddressTypeEnum.p2wpkhp2sh =>
        Ok payments_p2sh
    | AddressTypeEnum.p2wpkh => Ok payments_p2wpkh
    | AddressTypeEnum.p2wsh => Ok payments_p2wsh
    | _ => Throw "invalid address type in address to script pubkey"
    end ;;
  p <- payment (Payment.ofOutput
                  (fromHex (ScriptPubkeyToScriptHashArgs.scriptPubkey scriptPubkeytoScriptHashArgs))
                  network) ;;
  match Payment.hash p with
  | None => Throw "failed converting scriptPubkey to address"
  | Some scriptHash => Ok (toHex scriptHash)
  end.

Definition addressToScriptPubkey
  (addressToScriptPubkeyArgs : AddressToScriptPubkeyArgs.t) : result string :=
  network <- bip32NetworkFromCoin
               (AddressToScriptPubkeyArgs.network addressToScriptPubkeyArgs)
               (AddressToScriptPubkeyArgs.coin addressToScriptPubkeyArgs)
               BIP43PurposeTypeEnum.Legacy ;;
  addressType <- guessAddressTypeFromAddress
                   (AddressToScriptPubkeyArgs.address addressToScriptPubkeyArgs)
                   network
                   (AddressToScriptPubkeyArgs.addressType addressToScriptPubkeyArgs) ;;
  let withPayment (payment : PaymentCreator) : result string :=
    p <- payment (Payment.ofAddress
                    (AddressToScriptPubkeyArgs.address addressToScriptPubkeyArgs) network) ;;
    match Payment.output p with
    | None => Throw "failed converting address to scriptPubkey"
    | Some scriptPubkey => Ok (toHex scriptPubkey)
    end in
  match addressType with
  | AddressTypeEnum.p2pkh => withPayment payments_p2pkh
  | AddressTypeEnum.p2sh | AddressTypeEnum.p2wpkhp2sh => withPayment payments_p2sh
  | AddressTypeEnum.p2wpkh => withPayment payments_p2wpkh
  | AddressTypeEnum.p2wsh => withPayment payments_p2wsh
  | AddressTypeEnum.cashaddrP2PKH =>
      info <- cashAddressToHash (AddressToScriptPubkeyArgs.address addressToScriptPubkeyArgs) ;;
      scriptHashToScriptPubkey
        {| ScriptHashToScriptPubkeyArgs.scriptHash := toHex (CashAddressInfo.scriptHash info);
           ScriptHashToScriptPubkeyArgs.network :=
             AddressToScriptPubkeyArgs.network addressToScriptPubkeyArgs;
           ScriptHashToScriptPubkeyArgs.addressType := AddressTypeEnum.p2pkh;
           ScriptHashToScriptPubkeyArgs.coin :=
             AddressToScriptPubkeyArgs.coin addressToScriptPubkeyArgs |}
  | AddressTypeEnum.cashaddrP2SH =>
      info <- cashAddressToHash (AddressToScriptPubkeyArgs.address addressToScriptPubkeyArgs) ;;
      scriptHashToScriptPubkey
        {| ScriptHashToScriptPubkeyArgs.scriptHash := toHex (CashAddressInfo.scriptHash info);
           ScriptHashToScriptPubkeyArgs.network :=
             AddressToScriptPubkeyArgs.network addressToScriptPubkeyArgs;
           ScriptHashToScriptPubkeyArgs.addressType := AddressTypeEnum.p2sh;
           ScriptHashToScriptPubkeyArgs.coin :=
             AddressToScriptPubkeyArgs.coin addressToScriptPubkeyArgs |}
  | _ => Throw "invalid address type in address to script pubkey"
  end.

Definition scriptPubkeyToAddress
  (scriptPubkeyToAddressArgs : ScriptPubkeyToAddressArgs.t) : result string :=
  network <- bip32NetworkFromCoin
               (ScriptPubkeyToAddressArgs.network scriptPubkeyToAddressArgs)
               (ScriptPubkeyToAddressArgs.coin scriptPubkeyToAddressArgs)
               BIP43PurposeTypeEnum.Legacy ;;
  let withPayment (payment : PaymentCreator) : result string :=
    p <- payment (Payment.ofOutput
                    (fromHex (ScriptPubkeyToAddressArgs.scriptPubkey scriptPubkeyToAddressArgs))
                    network) ;;
    match Payment.address p with
    | None => Throw "failed converting scriptPubkey to address"
    | Some address => Ok address
    end in
  let withCashAddress (hashType : AddressTypeEnum.t) (type : cashaddrTypeEnum.t) : result string :=
    let hashOf :=
      scriptPubkeyToScriptHash
        {| ScriptPubkeyToScriptHashArgs.scriptPubkey :=
             ScriptPubkeyToAddressArgs.scriptPubkey scriptPubkeyToAddressArgs;
           ScriptPubkeyToScriptHashArgs.network :=
             ScriptPubkeyToAddressArgs.network scriptPubkeyToAddressArgs;
           ScriptPubkeyToScriptHashArgs.addressType := hashType;
           ScriptPubkeyToScriptHashArgs.coin :=
             ScriptPubkeyToAddressArgs.coin scriptPubkeyToAddressArgs |} in
    match ScriptPubkeyToAddressArgs.network scriptPubkeyToAddressArgs with
    | NetworkEnum.Testnet =>
        h <- hashOf ;; hashToCashAddress h type cashaddrPrefixEnum.testnet
    | NetworkEnum.Mainnet =>
        h <- hashOf ;; hashToCashAddress h type cashaddrPrefixEnum.mainnet
    end in
  match ScriptPubkeyToAddressArgs.addressType scriptPubkeyToAddressArgs with
  | AddressTypeEnum.p2pkh => withPayment payments_p2pkh
  | AddressTypeEnum.p2sh | AddressTypeEnum.p2wpkhp2sh => withPayment payments_p2sh
  | AddressTypeEnum.p2wpkh => withPayment payments_p2wpkh
  | AddressTypeEnum.p2wsh => withPayment payments_p2wsh
  | AddressTypeEnum.cashaddrP2PKH =>
      withCashAddress AddressTypeEnum.p2pkh cashaddrTypeEnum.pubkeyhash
  | AddressTypeEnum.cashaddrP2SH =>
      withCashAddress AddressTypeEnum.p2sh cashaddrTypeEnum.scripthash
  | _ => Throw "invalid address type in address to script pubkey"
  end.

(** ** Transactions *)

(** A loop over an array whose body may throw. *)
Fixpoint forEach {A S : Type} (body : S -> A -> result S) (l : list A) (s : S) : result S :=
  match l with
  | [] => Ok s
  | x :: rest => s' <- body s x ;; forEach body rest s'
  end.

(** The value of [sequence] after the first three statements of [createTx]. *)
Definition sequenceOf (rbf : bool) : Z :=
  let sequence := 0xffffffff in
  if rbf then sequence - 2 else sequence.

(** The body of the first loop of [createTx]. *)
Definition createTxInput (sequence : Z) (psbt : Psbt.t) (input : TxInput.t) : result Psbt.t :=
  match TxInput.type input with
  | TransactionInputTypeEnum.Legacy =>
      match TxInput.prevTx input with
      | None => Throw "legacy inputs require the full previous transaction to be passed"
      | Some prevTx =>
          addInput psbt
            {| PsbtInput.hash := TxInput.prevTxid input;
               PsbtInput.index := TxInput.index input;
               PsbtInput.sequence := sequence;
               PsbtInput.nonWitnessUtxo := Some (fromHex prevTx);
               PsbtInput.witnessUtxo := None;
               PsbtInput.redeemScript := None;
               PsbtInput.partialSig := [];
               PsbtInput.finalScriptSig := None;
               PsbtInput.finalScriptWitness := None |}
      end
  | _ =>
      match TxInput.prevScriptPubkey input, TxInput.value input with
      | Some prevScriptPubkey, Some value =>
          match TxInput.redeemScript input with
          | None =>
              addInput psbt
                {| PsbtInput.hash := TxInput.prevTxid input;
                   PsbtInput.index := TxInput.index input;
                   PsbtInput.sequence := sequence;
                   PsbtInput.nonWitnessUtxo := None;
                   PsbtInput.witnessUtxo :=
                     Some (WitnessUtxo.mk (fromHex prevScriptPubkey) value);
                   PsbtInput.redeemScript := None;
                   PsbtInput.partialSig := [];
                   PsbtInput.finalScriptSig := None;
                   PsbtInput.finalScriptWitness := None |}
          | Some redeemScript =>
              addInput psbt
                {| PsbtInput.hash := TxInput.prevTxid input;
                   PsbtInput.index := TxInput.index input;
                   PsbtInput.sequence := sequence;
                   PsbtInput.nonWitnessUtxo := None;
                   PsbtInput.witnessUtxo :=
                     Some (WitnessUtxo.mk (fromHex prevScriptPubkey) value);
                   PsbtInput.redeemScript := Some (fromHex redeemScript);
                   PsbtInput.partialSig := [];
                   PsbtInput.finalScriptSig := None;
                   PsbtInput.finalScriptWitness := None |}
          end
      | _, _ => Throw "segwit inputs require a script pubkey and value to be passed"
      end
  end.

(** The body of the second loop of [createTx]. *)
Definition createTxOutput (psbt : Psbt.t) (output : TxOutput.t) : result Psbt.t :=
  addOutput psbt
    {| PsbtOutput.script := fromHex (TxOutput.scriptPubkey output);
       PsbtOutput.value := TxOutput.amount output |}.

(** [createTx] up to its last statement: the Psbt that is then serialized. *)
Definition createTxPsbt (createTxArgs : CreateTxArgs.t) : result Psbt.t :=
  let psbt := Psbt.empty in
  let sequence := sequenceOf (CreateTxArgs.rbf createTxArgs) in
  psbt <- forEach (createTxInput sequence) (CreateTxArgs.inputs createTxArgs) psbt ;;
  forEach createTxOutput (CreateTxArgs.outputs createTxArgs) psbt.

Definition createTx (createTxArgs : CreateTxArgs.t) : result string :=
  psbt <- createTxPsbt createTxArgs ;;
  Ok (toBase64 psbt).

(** The loop of [signTx], from index [i] on. *)
Fixpoint signFrom (i : nat) (privateKeys : list string) (psbt : Psbt.t) : result Psbt.t :=
  match privateKeys with
  | [] => Ok psbt
  | key :: rest =>
      keyPair <- fromPrivateKey (fromHex key) ;;
      psbt <- signInput psbt i keyPair ;;
      _ <- validateSignaturesOfInput psbt i ;;
      signFrom (S i) rest psbt
  end.

Definition signTx (signTxArgs : SignTxArgs.t) : result string :=
  psbt <- fromBase64 (SignTxArgs.tx signTxArgs) ;;
  psbt <- signFrom 0 (SignTxArgs.privateKeys signTxArgs) psbt ;;
  psbt <- finalizeAllInputs psbt ;;
  extractTransactionHex psbt.

End Keymanager.

(** * ProcessorTransaction.ts *)

Module AddressPath.
(** Modelled from the spec: the [AddressPath] of db/types.ts, which is not among
    the sources: the derivation path of an address with the format it was
    derived under (6 of the specification). *)
Record t : Set := mk { format : string; changeIndex : Z; addressIndex : Z }.
Definition withFormat (p : t) (f : string) : t := mk f (changeIndex p) (addressIndex p).
End AddressPath.

Module IAddress.
(** Modelled from the spec: the [IAddress] of db/types.ts, which is not among the
    sources; [toEdgeTransaction] reads its optional [path]. *)
Record t : Set := mk { scriptPubkey : string; path : option AddressPath.t }.
Definition withPath (a : t) (p : AddressPath.t) : t := mk (scriptPubkey a) (Some p).
End IAddress.

Module ProcessorOutput.
Record t : Set := mk { amount : string; scriptPubkey : string; n : Z }.
End ProcessorOutput.

Module ProcessorInput.
Record t : Set := mk {
  amount : string; scriptPubkey : string; n : Z; txId : string; outputIndex : Z
}.
End ProcessorInput.

Module IProcessorTransaction.
(** Modelled from the spec: the [IProcessorTransaction] of db/types.ts, which is
    not among the sources; the fields are the ones [fromEdgeTransaction]
    writes. *)
Record t : Set := mk {
  txid : string;
  hex : string;
  blockHeight : Z;
  date : Z;
  fees : string;
  inputs : list ProcessorInput.t;
  outputs : list ProcessorOutput.t;
  ourIns : list string;
  ourOuts : list string;
  ourAmount : string
}.
End IProcessorTransaction.

Module FeeRateUsed.
Record t : Set := mk { satPerVByte : Z }.
End FeeRateUsed.

Module EdgeTransaction.
Record t : Set := mk {
  currencyCode : string;
  txid : string;
  blockHeight : Z;
  date : Z;
  nativeAmount : string;
  networkFee : string;
  signedTx : string;
  ourReceiveAddresses : list string;
  feeRateUsed : option FeeRateUsed.t
}.
End EdgeTransaction.

(** The address objects the processor has handed out.  A reference to one is
    its position; [toEdgeTransaction] writes to the object a reference points
    to, and a processor that hands the same object out again sees the write. *)
Definition Heap : Set := list IAddress.t.

Module Processor.
Record t : Type := mk {
  (* await processor.fetchAddress(scriptPubkey): a rejection, undefined, or a
     reference to an address object (a new one or one handed out before); what
     the processor has stored does not change while toEdgeTransaction runs *)
  fetchAddress : Heap -> string -> result (option nat * Heap)
}.
End Processor.

Module UTXOPluginWalletTools.
Record t : Type := mk {
  (* walletTools.scriptPubkeyToAddress({ scriptPubkey, format }).address *)
  scriptPubkeyToAddress : string -> string -> result string
}.
End UTXOPluginWalletTools.

Module PluginInfo.
Record t (ScriptTemplate : Type) : Type := mk {
  currencyCode : string;                      (* currencyInfo.currencyCode *)
  replayProtection : option ScriptTemplate    (* engineInfo.scriptTemplates?.replayProtection *)
}.
End PluginInfo.

Module ToEdgeTransactionArgs.
Record t (ScriptTemplate : Type) : Type := mk {
  tx : IProcessorTransaction.t;
  walletTools : UTXOPluginWalletTools.t;
  processor : Processor.t;
  pluginInfo : PluginInfo.t ScriptTemplate
}.
End ToEdgeTransactionArgs.

(** What ProcessorTransaction.ts imports: [isPathUsingDerivationLevelScriptHash]
    of the key manager (absent from the keymanager.ts among the sources),
    altcoin-js's [Transaction] and the parser of bn.js. *)
Class Imports : Type := {
  ScriptTemplate : Type;
  isPathUsingDerivationLevelScriptHash : ScriptTemplate -> AddressPath.t -> bool;
  Transaction : Type;
  Transaction_fromHex : string -> result Transaction;
  weight : Transaction -> Z;
  (* new BN(s, 10) *)
  BN_ofString : string -> result Z
}.

(** ** JavaScript's [parseInt] with no radix

    Leading white space, a sign, then digits (hexadecimal ones after [0x]);
    [None] stands for NaN. *)

Definition isWhiteSpace (c : ascii) : bool :=
  let n := N_of_ascii c in ((n =? 32) || ((9 <=? n) && (n <=? 13)))%N.

Fixpoint skipWhiteSpace (s : string) : string :=
  match s with
  | String c rest => if isWhiteSpace c then skipWhiteSpace rest else s
  | EmptyString => s
  end.

Definition digitValue (radix : Z) (c : ascii) : option Z :=
  match hexValue c with
  | Some d => if Z.of_N d <? radix then Some (Z.of_N d) else None
  | None => None
  end.

Fixpoint digitsValue (radix : Z) (s : string) (acc : option Z) : option Z :=
  match s with
  | String c rest =>
      match digitValue radix c with
      | Some d =>
          digitsValue radix rest (Some (radix * match acc with Some a => a | None => 0 end + d))
      | None => acc
      end
  | EmptyString => acc
  end.

Definition parseInt (s : string) : option Z :=
  let s := skipWhiteSpace s in
  let '(negative, s) :=
    match s with
    | String "-" rest => (true, rest)
    | String "+" rest => (false, rest)
    | _ => (false, s)
    end in
  let '(radix, s) :=
    match s with
    | String "0" (String "x" rest) => (16, rest)
    | String "0" (String "X" rest) => (16, rest)
    | _ => (10, s)
    end in
  option_map (fun n => if negative : bool then - n else n) (digitsValue radix s None).

(** [array[i]] for a number [i]: undefined outside the array. *)
Definition at_ {A : Type} (l : list A) (i : option Z) : option A :=
  match i with
  | Some n => if 0 <=? n then nth_error l (Z.to_nat n) else None
  | None => None
  end.

(** ** bn.js, as far as the fee rate needs it *)

(** [new BN(n, 10)] of a number. *)
Definition BN_ofNumber (n : Z) : result Z :=
  if Z.abs n <? 2 ^ 53 then Ok n else Throw "Assertion failed".

(** [a.div(b)]: the quotient rounded toward zero; a zero divisor fails the
    library's assertion. *)
Definition BN_div (a b : Z) : result Z :=
  if b =? 0 then Throw "Assertion failed" else Ok (Z.quot a b).

(** [a.toNumber()] *)
Definition BN_toNumber (a : Z) : result Z :=
  if Z.abs a <? 2 ^ 53 then Ok a else Throw "Number can only safely store up to 53 bits".

Section ProcessorTransaction.
Context {I : Imports}.

(** [altcoinTx.virtualSize()]: [Math.ceil(this.weight() / 4)]. *)
Definition virtualSize (t : Transaction) : Z := (weight t + 3) / 4.

(** The body of the [try] block of [toEdgeTransaction]: the value of
    [feeRate] when nothing in it throws. *)
Definition feeRateOf (tx : IProcessorTransaction.t) : result Z :=
  altcoinTx <- Transaction_fromHex (IProcessorTransaction.hex tx) ;;
  let vBytes := virtualSize altcoinTx in
  fees <- BN_ofString (IProcessorTransaction.fees tx) ;;
  divisor <- BN_ofNumber vBytes ;;
  quotient <- BN_div fees divisor ;;
  BN_toNumber quotient.

(** [feeRes] after the [try ... catch (e) {}]. *)
Definition feeResOf (tx : IProcessorTransaction.t) : option FeeRateUsed.t :=
  tryCatch (feeRate <- feeRateOf tx ;; Ok (FeeRateUsed.mk feeRate)).

(** The address object a reference points to, after the first [if] of the loop
    body: its path's format is overwritten with ['bip49'] when the replay
    protection template is there and the path uses it. *)
Definition markReplayProtection
  (scriptTemplate : option ScriptTemplate) (address : IAddress.t) : IAddress.t :=
  match scriptTemplate, IAddress.path address with
  | Some template, Some path =>
      if isPathUsingDerivationLevelScriptHash template path
      then IAddress.withPath address (AddressPath.withFormat path "bip49")
      else address
  | _, _ => address
  end.

(** The body of the loop over [tx.ourOuts]; the state is the heap of address
    objects and [ourReceiveAddresses]. *)
Definition receiveAddress (args : ToEdgeTransactionArgs.t ScriptTemplate)
  (state : Heap * list string) (out : string) : result (Heap * list string) :=
  let '(heap, ourReceiveAddresses) := state in
  let tx := ToEdgeTransactionArgs.tx args in
  match at_ (IProcessorTransaction.outputs tx) (parseInt out) with
  | None => Throw "Cannot destructure property 'scriptPubkey' of undefined"
  | Some output =>
      let scriptPubkey := ProcessorOutput.scriptPubkey output in
      fetched <- Processor.fetchAddress (ToEdgeTransactionArgs.processor args) heap scriptPubkey ;;
      let '(address, heap) := fetched in
      let scriptTemplate := PluginInfo.replayProtection (ToEdgeTransactionArgs.pluginInfo args) in
      match address with
      | None => Ok (heap, ourReceiveAddresses)
      | Some ref =>
          match nth_error heap ref with
          | None => Throw "reference to no object"
          | Some object =>
              let object := markReplayProtection scriptTemplate object in
              let heap := replaceAt heap ref object in
              match IAddress.path object with
              | None => Ok (heap, ourReceiveAddresses)
              | Some path =>
                  addrStr <- UTXOPluginWalletTools.scriptPubkeyToAddress
                               (ToEdgeTransactionArgs.walletTools args)
                               scriptPubkey (AddressPath.format path) ;;
                  Ok (heap, (ourReceiveAddresses ++ [addrStr])%list)
              end
          end
      end
  end.

(** [toEdgeTransaction], from the heap the processor starts with; a rejected
    promise is a [Throw]. *)
Definition toEdgeTransaction (args : ToEdgeTransactionArgs.t ScriptTemplate) (heap : Heap)
  : result (EdgeTransaction.t * Heap) :=
  let tx := ToEdgeTransactionArgs.tx args in
  looped <- forEach (receiveAddress args) (IProcessorTransaction.ourOuts tx) (heap, []) ;;
  let '(heap, ourReceiveAddresses) := looped in
  let feeRes := feeResOf tx in
  Ok ({| EdgeTransaction.currencyCode :=
           PluginInfo.currencyCode (ToEdgeTransactionArgs.pluginInfo args);
         EdgeTransaction.txid := IProcessorTransaction.txid tx;
         EdgeTransaction.blockHeight := IProcessorTransaction.blockHeight tx;
         EdgeTransaction.date := IProcessorTransaction.date tx;
         EdgeTransaction.nativeAmount := IProcessorTransaction.ourAmount tx;
         EdgeTransaction.networkFee := IProcessorTransaction.fees tx;
         EdgeTransaction.signedTx := IProcessorTransaction.hex tx;
         EdgeTransaction.ourReceiveAddresses := ourReceiveAddresses;
         EdgeTransaction.feeRateUsed := feeRes |}, heap).

End ProcessorTransaction.

(** * A small implementation of the interfaces

    Executable stand-ins for the imported functions, used to run the
    definitions above on concrete inputs.  Keys are symbolic (a node is a
    label with the indices derived so far), base58 and bech32 are replaced by
    hexadecimal text after the version byte or the prefix, and the script
    templates are the ones of 4.4 of the specification. *)

Module Fixture.

Definition bitcoinMainnet : CoinPrefixes.t :=
  {| CoinPrefixes.messagePrefix := "Bitcoin Signed Message:";
     CoinPrefixes.wif := 0x80;
     CoinPrefixes.legacyXPub := 0x0488b21e;
     CoinPrefixes.legacyXPriv := 0x0488ade4;
     CoinPrefixes.wrappedSegwitXPub := Some 0x049d7cb2;
     CoinPrefixes.wrappedSegwitXPriv := Some 0x049d7878;
     CoinPrefixes.segwitXPub := Some 0x04b24746;
     CoinPrefixes.segwitXPriv := Some 0x04b2430c;
     CoinPrefixes.pubkeyHash := 0x00;
     CoinPrefixes.scriptHash := 0x05;
     CoinPrefixes.bech32 := Some "bc" |}.

Definition bitcoinTestnet : CoinPrefixes.t :=
  {| CoinPrefixes.messagePrefix := "Bitcoin Signed Message:";
     CoinPrefixes.wif := 0xef;
     CoinPrefixes.legacyXPub := 0x043587cf;
     CoinPrefixes.legacyXPriv := 0x04358394;
     CoinPrefixes.wrappedSegwitXPub := Some 0x044a5262;
     CoinPrefixes.wrappedSegwitXPriv := Some 0x044a4e28;
     CoinPrefixes.segwitXPub := Some 0x045f1cf6;
     CoinPrefixes.segwitXPriv := Some 0x045f18bc;
     CoinPrefixes.pubkeyHash := 0x6f;
     CoinPrefixes.scriptHash := 0xc4;
     CoinPrefixes.bech32 := Some "tb" |}.

(** A coin with legacy version bytes only. *)
Definition cashMainnet : CoinPrefixes.t :=
  {| CoinPrefixes.messagePrefix := "Bitcoin Signed Message:";
     CoinPrefixes.wif := 0x80;
     CoinPrefixes.legacyXPub := 0x0488b21e;
     CoinPrefixes.legacyXPriv := 0x0488ade4;
     CoinPrefixes.wrappedSegwitXPub := None;
     CoinPrefixes.wrappedSegwitXPriv := None;
     CoinPrefixes.segwitXPub := None;
     CoinPrefixes.segwitXPriv := None;
     CoinPrefixes.pubkeyHash := 0x00;
     CoinPrefixes.scriptHash := 0x05;
     CoinPrefixes.bech32 := None |}.

Definition coinOfString (coinString : string) : result Coin.t :=
  if String.eqb coinString "bitcoin"
  then Ok (Coin.mk "bitcoin" true bitcoinMainnet bitcoinTestnet)
  else if String.eqb coinString "bitcoincash"
  then Ok (Coin.mk "bitcoincash" false cashMainnet cashMainnet)
  else Throw "coin not found".

(** *** Symbolic extended keys *)

Record Node : Set := mkNode { label : string; indices : list Z; hasPrivateKey : bool }.

Definition byteOfZ (z : Z) : byte :=
  match Byte.of_N (Z.to_N (z mod 256)) with Some b => b | None => x00 end.

Definition keyBytes (n : Node) : Buffer :=
  (list_byte_of_string (label n) ++ map byteOfZ (indices n))%list.

Definition nodeOfSeed (seed : Buffer) : result Node :=
  if (List.length seed <? 16)%nat then Throw "Seed should be at least 128 bits"
  else Ok (mkNode (toHex seed) [] true).

Definition nodeOfBase58 (s : string) (network : BitcoinJSNetwork.t) : result Node :=
  if String.prefix "xprv" s then Ok (mkNode (substring 4 (String.length s - 4) s) [] true)
  else if String.prefix "xpub" s then Ok (mkNode (substring 4 (String.length s - 4) s) [] false)
  else Throw "Invalid checksum".

Definition child (n : Node) (index : Z) : result Node :=
  if negb ((0 <=? index) && (index <? 2 ^ 32)) then Throw "Expected UInt32"
  else if (2 ^ 31 <=? index) && negb (hasPrivateKey n)
  then Throw "Missing private key for hardened child key"
  else Ok (mkNode (label n) (indices n ++ [index]) (hasPrivateKey n)).

Definition base58OfNode (n : Node) : string :=
  (if hasPrivateKey n then "xprv" else "xpub") ++ label n ++ toHex (map byteOfZ (indices n)).

(** *** Payments *)

Definition bufEqb (a b : Buffer) : bool := String.eqb (toHex a) (toHex b).

(** Hexadecimal text of a version byte and a hash of [size] bytes. *)
Definition decodeVersioned (version : Z) (size : nat) (address : string) : result Buffer :=
  match fromHex address with
  | v :: h =>
      if String.eqb (toHex (v :: h)) address && Byte.eqb v (byteOfZ version)
         && (List.length h =? size)%nat
      then Ok h else Throw "Invalid address"
  | [] => Throw "Invalid address"
  end.

(** Prefix, the separator [1], then hexadecimal text of a program of [size] bytes. *)
Definition decodeWitness (prefix : string) (size : nat) (address : string) : result Buffer :=
  let hrp := prefix ++ "1" in
  if String.prefix hrp address
  then
    let body := substring (String.length hrp) (String.length address - String.length hrp) address in
    let program := fromHex body in
    if String.eqb (toHex program) body && (List.length program =? size)%nat
    then Ok program else Throw "Invalid address"
  else Throw "Invalid prefix".

Definition templateOf (before : Buffer) (size : nat) (after : Buffer) (output : Buffer)
  : result Buffer :=
  let h := firstn size (skipn (List.length before) output) in
  if bufEqb output (before ++ h ++ after)%list && (List.length h =? size)%nat
  then Ok h else Throw "Output is invalid".

Definition payment (before : Buffer) (size : nat) (after : Buffer)
  (decode : BitcoinJSNetwork.t -> string -> result Buffer)
  (encode : BitcoinJSNetwork.t -> Buffer -> string) : PaymentCreator :=
  fun p =>
    match Payment.network p with
    | None => Throw "Not enough data"
    | Some network =>
        h <- match Payment.address p, Payment.hash p, Payment.output p with
             | Some a, _, _ => decode network a
             | None, Some h, _ =>
                 if (List.length h =? size)%nat then Ok h else Throw "Expected Buffer of the hash size"
             | None, None, Some o => templateOf before size after o
             | None, None, None => Throw "Not enough data"
             end ;;
        Ok (Payment.mk (Some network) (Some (encode network h)) (Some h)
              (Some (before ++ h ++ after)%list))
    end.

Definition p2pkh : PaymentCreator :=
  payment [x76; xa9; x14] 20 [x88; xac]
    (fun network => decodeVersioned (BitcoinJSNetwork.pubKeyHash network) 20)
    (fun network h => toHex (byteOfZ (BitcoinJSNetwork.pubKeyHash network) :: h)).

Definition p2sh : PaymentCreator :=
  payment [xa9; x14] 20 [x87]
    (fun network => decodeVersioned (BitcoinJSNetwork.scriptHash network) 20)
    (fun network h => toHex (byteOfZ (BitcoinJSNetwork.scriptHash network) :: h)).

Definition p2wpkh : PaymentCreator :=
  payment [x00; x14] 20 []
    (fun network => decodeWitness (BitcoinJSNetwork.bech32 network) 20)
    (fun network h => BitcoinJSNetwork.bech32 network ++ "1" ++ toHex h).

Definition p2wsh : PaymentCreator :=
  payment [x00; x20] 32 []
    (fun network => decodeWitness (BitcoinJSNetwork.bech32 network) 32)
    (fun network h => BitcoinJSNetwork.bech32 network ++ "1" ++ toHex h).

(** *** The checksummed codec: prefix, [:], [q] or [p] for the type tag, then
    hexadecimal text of the hash. *)

Definition cashTagged (body : string) : result CashAddressInfo.t :=
  match body with
  | String tag payload =>
      let h := fromHex payload in
      if String.eqb (toHex h) payload && (List.length h =? 20)%nat
      then if Ascii.eqb tag "q" then Ok (CashAddressInfo.mk h cashaddrTypeEnum.pubkeyhash)
           else if Ascii.eqb tag "p" then Ok (CashAddressInfo.mk h cashaddrTypeEnum.scripthash)
           else Throw "Invalid address type in version byte"
      else Throw "Invalid payload"
  | EmptyString => Throw "Invalid payload"
  end.

Definition cashDecode (address : string) : result CashAddressInfo.t :=
  if String.prefix "bitcoincash:" address
  then cashTagged (substring 12 (String.length address - 12) address)
  else if String.prefix "bchtest:" address
  then cashTagged (substring 8 (String.length address - 8) address)
  else Throw "Invalid prefix".

Definition cashEncode (h : string) (type : cashaddrTypeEnum.t) (prefix : cashaddrPrefixEnum.t)
  : result string :=
  Ok ((match prefix with
       | cashaddrPrefixEnum.mainnet => "bitcoincash"
       | cashaddrPrefixEnum.testnet => "bchtest"
       end) ++ ":" ++
      (match type with
       | cashaddrTypeEnum.pubkeyhash => "q"
       | cashaddrTypeEnum.scripthash => "p"
       end) ++ h).

(** *** Drafts, keys and signatures *)

Definition inputCheck (psbt : Psbt.t) (input : PsbtInput.t) : result unit :=
  if negb (String.length (PsbtInput.hash input) =? 64)%nat then Throw "Invalid hash"
  else if existsb (fun other =>
                     String.eqb (PsbtInput.hash other) (PsbtInput.hash input)
                     && (PsbtInput.index other =? PsbtInput.index input))
            (Psbt.inputs psbt)
  then Throw "Duplicate input detected."
  else Ok tt.

Definition outputCheck (psbt : Psbt.t) (output : PsbtOutput.t) : result unit :=
  if PsbtOutput.value output <? 0 then Throw "Invalid output value" else Ok tt.

Definition base64OfPsbt (psbt : Psbt.t) : string :=
  "psbt:" ++ natToString (List.length (Psbt.inputs psbt))
          ++ ":" ++ natToString (List.length (Psbt.outputs psbt)).

(** A key pair is its 32-byte private key; its public key is [02] followed by
    the private key, and the hash of the public key is its first 20 bytes. *)
Definition keyPairOf (privateKey : Buffer) : result Buffer :=
  if (List.length privateKey =? 32)%nat then Ok privateKey
  else Throw "Expected Buffer(Length: 32)".

Definition witnessScriptOf (privateKey : Buffer) : Buffer := ([x00; x14] ++ firstn 20 privateKey)%list.

Definition signatureOf (psbt : Psbt.t) (inputIndex : nat) (keyPair : Buffer)
  : result PartialSig.t :=
  match nth_error (Psbt.inputs psbt) inputIndex with
  | None => Throw "No input"
  | Some input =>
      match PsbtInput.witnessUtxo input with
      | None => Throw "Need a Utxo input item for signing"
      | Some utxo =>
          if bufEqb (WitnessUtxo.script utxo) (witnessScriptOf keyPair)
          then Ok (PartialSig.mk (x02 :: keyPair) (keyPair ++ [x01])%list)
          else Throw "Can not sign for this input with the key"
      end
  end.

(** The script of the input has to be the one of the public key of the
    signature; the signature is valid when it is the one [signatureOf] makes. *)
Definition signatureCheck (psbt : Psbt.t) (inputIndex : nat) (sig : PartialSig.t)
  : result bool :=
  match nth_error (Psbt.inputs psbt) inputIndex with
  | None => Throw "No input"
  | Some input =>
      match PsbtInput.witnessUtxo input with
      | None => Throw "Need a Utxo input item for signing"
      | Some utxo =>
          if bufEqb (WitnessUtxo.script utxo) (witnessScriptOf (tl (PartialSig.pubkey sig)))
          then Ok (bufEqb (PartialSig.signature sig) (tl (PartialSig.pubkey sig) ++ [x01])%list)
          else Throw "Can not verify with this input for the key"
      end
  end.

Definition finalOf (inputIndex : nat) (input : PsbtInput.t) : result PsbtInput.t :=
  Ok (PsbtInput.mk (PsbtInput.hash input) (PsbtInput.index input) (PsbtInput.sequence input)
        (PsbtInput.nonWitnessUtxo input) (PsbtInput.witnessUtxo input)
        (PsbtInput.redeemScript input) [] None
        (Some (flat_map (fun sig => PartialSig.signature sig ++ PartialSig.pubkey sig)%list
                 (PsbtInput.partialSig input)))).

Definition hexOfFinal (psbt : Psbt.t) : result string :=
  Ok (toHex (flat_map (fun input =>
                         match PsbtInput.finalScriptWitness input with
                         | Some w => w
                         | None => []
                         end) (Psbt.inputs psbt))).

Definition key0 : Buffer := repeat x11 32.
Definition key1 : Buffer := repeat x22 32.

Definition witnessInput (txid : string) (privateKey : Buffer) (sigs : list PartialSig.t)
  : PsbtInput.t :=
  PsbtInput.mk txid 0 0xffffffff None (Some (WitnessUtxo.mk (witnessScriptOf privateKey) 5000))
    None sigs None None.

Definition txidA : string := "aaaaaaaaaaaaaaaaaaaaaaaaaaaaaaaaaaaaaaaaaaaaaaaaaaaaaaaaaaaaaaaa".
Definition txidB : string := "bbbbbbbbbbbbbbbbbbbbbbbbbbbbbbbbbbbbbbbbbbbbbbbbbbbbbbbbbbbbbbbb".

Definition payTo : PsbtOutput.t := PsbtOutput.mk (witnessScriptOf key0) 9000.

(** Two witness inputs for [key0] and [key1], none signed. *)
Definition unsignedDraft : Psbt.t :=
  Psbt.mk [witnessInput txidA key0 []; witnessInput txidB key1 []] [payTo].

(** The same draft after another party signed its second input. *)
Definition halfSignedDraft : Psbt.t :=
  Psbt.mk [witnessInput txidA key0 [];
           witnessInput txidB key1 [PartialSig.mk (x02 :: key1) (key1 ++ [x01])%list]] [payTo].

Definition psbtOfBase64 (s : string) : result Psbt.t :=
  if String.eqb s "unsigned" then Ok unsignedDraft
  else if String.eqb s "half-signed" then Ok halfSignedDraft
  else Throw "Format Error: Invalid Magic Number".

Definition collaborators : Collaborators :=
  {| getCoinFromString := coinOfString;
     cashAddressToHash := cashDecode;
     hashToCashAddress := cashEncode;
     mnemonicToSeedSync := list_byte_of_string;
     BIP32Interface := Node;
     fromSeed := nodeOfSeed;
     fromBase58 := nodeOfBase58;
     setNetwork := fun node _ => node;
     derive := child;
     derivePath := fun node path => Ok (mkNode (label node ++ "/" ++ path) (indices node) (hasPrivateKey node));
     neutered := fun node => mkNode (label node) (indices node) false;
     toBase58 := base58OfNode;
     publicKey := fun node => x02 :: keyBytes node;
     privateKey := fun node => if hasPrivateKey node then Some (keyBytes node) else None;
     payments_p2pkh := p2pkh;
     payments_p2sh := p2sh;
     payments_p2wpkh := p2wpkh;
     payments_p2wsh := p2wsh;
     checkInput := inputCheck;
     checkOutput := outputCheck;
     toBase64 := base64OfPsbt;
     fromBase64 := psbtOfBase64;
     ECPairInterface := Buffer;
     fromPrivateKey := keyPairOf;
     signatureFor := signatureOf;
     signatureValid := signatureCheck;
     finalScripts := finalOf;
     extractTransactionHex := hexOfFinal |}.

(** *** The imports of ProcessorTransaction.ts *)

Fixpoint allDigits (s : string) : bool :=
  match s with
  | EmptyString => true
  | String c rest =>
      match digitValue 10 c with Some _ => allDigits rest | None => false end
  end.

Definition decimal (s : string) : result Z :=
  let '(negative, body) :=
    match s with String "-" rest => (true, rest) | _ => (false, s) end in
  if allDigits body
  then match digitsValue 10 body None with
       | Some n => Ok (if negative : bool then - n else n)
       | None => Throw "Invalid character"
       end
  else Throw "Invalid character".

(** A parsed transaction is its bytes; without witness data its weight is four
    times its size.  A script template is the change index its addresses are
    derived under. *)
Definition imports : Imports :=
  {| ScriptTemplate := Z;
     isPathUsingDerivationLevelScriptHash := fun template path =>
       AddressPath.changeIndex path =? template;
     Transaction := Buffer;
     Transaction_fromHex := fun hex =>
       let bytes := fromHex hex in
       if String.eqb (toHex bytes) hex && (10 <=? List.length bytes)%nat
       then Ok bytes else Throw "Transaction has unexpected data";
     weight := fun bytes => 4 * Z.of_nat (List.length bytes);
     BN_ofString := decimal |}.

Fixpoint positionOf (scriptPubkey : string) (heap : Heap) (from : nat) : option nat :=
  match heap with
  | [] => None
  | object :: rest =>
      if String.eqb (IAddress.scriptPubkey object) scriptPubkey then Some from
      else positionOf scriptPubkey rest (S from)
  end.

(** A processor that keeps its address objects in memory and hands the same
    object out at every fetch. *)
Definition cachingProcessor : Processor.t :=
  Processor.mk (fun heap scriptPubkey => Ok (positionOf scriptPubkey heap 0%nat, heap)).

Definition walletTools : UTXOPluginWalletTools.t :=
  UTXOPluginWalletTools.mk (fun scriptPubkey format => Ok (format ++ ":" ++ scriptPubkey)).

End Fixture.

(** * keymanager.ts: keys, scripts from public keys, script hashes *)

Module PubkeyToScriptPubkeyArgs.
Record t : Set := mk { pubkey : string; addressType : AddressTypeEnum.t }.
End PubkeyToScriptPubkeyArgs.

Module PubkeyToScriptPubkeyReturn.
Record t : Set := mk { scriptPubkey : string; redeemScript : option string }.
End PubkeyToScriptPubkeyReturn.

Module WIFToPrivateKeyArgs.
Record t : Set := mk { wifKey : string; network : NetworkEnum.t; coin : string }.
End WIFToPrivateKeyArgs.

Module PrivateKeyToWIFArgs.
Record t : Set := mk { privateKey : string; network : NetworkEnum.t; coin : string }.
End PrivateKeyToWIFArgs.

(** bitcoinjs-lib's [Payment], as far as [pubkeyToScriptPubkey] reads it: the
    locking script and the payment it redeems. *)
Module PubkeyPayment.
#[warnings="-register-all"]
Inductive t : Set := mk (output : option Buffer) (redeem : option t).
Definition output (p : t) : option Buffer := match p with mk o _ => o end.
Definition redeem (p : t) : option t := match p with mk _ r => r end.
End PubkeyPayment.

(** What the rest of keymanager.ts calls of bitcoinjs-lib, over the key pairs
    of [Collaborators]. *)
Class KeyCollaborators (C : Collaborators) : Type := {
  (* bitcoin.payments.p2pkh({ pubkey }) *)
  p2pkhOfPubkey : Buffer -> result PubkeyPayment.t;
  (* bitcoin.payments.p2wpkh({ pubkey }) *)
  p2wpkhOfPubkey : Buffer -> result PubkeyPayment.t;
  (* bitcoin.payments.p2sh({ redeem }) *)
  p2shOfRedeem : PubkeyPayment.t -> result PubkeyPayment.t;
  (* bitcoin.ECPair.fromPrivateKey(buffer, { network }) *)
  fromPrivateKeyOn : Buffer -> BitcoinJSNetwork.t -> result ECPairInterface;
  (* ecPair.toWIF() *)
  toWIF : ECPairInterface -> result string;
  (* bitcoin.ECPair.fromWIF(wif, network) *)
  fromWIF : string -> BitcoinJSNetwork.t -> result ECPairInterface;
  (* ecPair.privateKey, ecPair.publicKey *)
  ECPair_privateKey : ECPairInterface -> option Buffer;
  ECPair_publicKey : ECPairInterface -> Buffer;
  (* bitcoin.crypto.sha256 *)
  sha256 : Buffer -> Buffer
}.

Section KeymanagerKeys.
Context {C : Collaborators} {K : KeyCollaborators C}.

Definition pubkeyToScriptPubkey (pubkeyToScriptPubkeyArgs : PubkeyToScriptPubkeyArgs.t)
  : result PubkeyToScriptPubkeyReturn.t :=
  let pubkey := fromHex (PubkeyToScriptPubkeyArgs.pubkey pubkeyToScriptPubkeyArgs) in
  match PubkeyToScriptPubkeyArgs.addressType pubkeyToScriptPubkeyArgs with
  | AddressTypeEnum.p2pkh | AddressTypeEnum.cashaddrP2PKH =>
      payment <- p2pkhOfPubkey pubkey ;;
      match PubkeyPayment.output payment with
      | None => Throw "failed converting pubkey to script pubkey"
      | Some output => Ok (PubkeyToScriptPubkeyReturn.mk (toHex output) None)
      end
  | AddressTypeEnum.p2wpkhp2sh =>
      redeem <- p2wpkhOfPubkey pubkey ;;
      payment <- p2shOfRedeem redeem ;;
      match PubkeyPayment.output payment, PubkeyPayment.redeem payment with
      | Some output, Some redeem =>
          match PubkeyPayment.output redeem with
          | Some redeemOutput =>
              Ok (PubkeyToScriptPubkeyReturn.mk (toHex output) (Some (toHex redeemOutput)))
          | None => Throw "failed converting pubkey to script pubkey"
          end
      | _, _ => Throw "failed converting pubkey to script pubkey"
      end
  | AddressTypeEnum.p2wpkh =>
      payment <- p2wpkhOfPubkey pubkey ;;
      match PubkeyPayment.output payment with
      | None => Throw "failed converting pubkey to script pubkey"
      | Some output => Ok (PubkeyToScriptPubkeyReturn.mk (toHex output) None)
      end
  | _ => Throw "invalid address type in pubkey to script pubkey"
  end.

Definition privateKeyToWIF (PrivateKeyToWIFArgs : PrivateKeyToWIFArgs.t) : result string :=
  network <- bip32NetworkFromCoin
               (PrivateKeyToWIFArgs.network PrivateKeyToWIFArgs)
               (PrivateKeyToWIFArgs.coin PrivateKeyToWIFArgs)
               BIP43PurposeTypeEnum.Legacy ;;
  ecPair <- fromPrivateKeyOn (fromHex (PrivateKeyToWIFArgs.privateKey PrivateKeyToWIFArgs)) network ;;
  toWIF ecPair.

Definition wifToPrivateKey (wifToPrivateKeyArgs : WIFToPrivateKeyArgs.t) : result string :=
  network <- bip32NetworkFromCoin
               (WIFToPrivateKeyArgs.network wifToPrivateKeyArgs)
               (WIFToPrivateKeyArgs.coin wifToPrivateKeyArgs)
               BIP43PurposeTypeEnum.Legacy ;;
  ecPair <- fromWIF (WIFToPrivateKeyArgs.wifKey wifToPrivateKeyArgs) network ;;
  match ECPair_privateKey ecPair with
  | None => Throw "Failed to convert WIF key to private key"
  | Some privateKey => Ok (toHex privateKey)
  end.

Definition privateKeyToPubkey (privateKey : string) : result string :=
  ecPair <- fromPrivateKey (fromHex privateKey) ;;
  Ok (toHex (ECPair_publicKey ecPair)).

(** Electrum uses the hash of the script pubkey to discover balances and
    transactions. *)
Definition scriptPubkeyToElectrumScriptHash (scriptPubkey : string) : string :=
  toHex (rev (sha256 (fromHex scriptPubkey))).

End KeymanagerKeys.

(** * ProcessorTransaction.ts: fromEdgeTransaction *)

(** Modelled from the spec: the [psbt] of [UtxoTxOtherParams] (engine/types.ts,
    not among the sources), as [fromEdgeTransaction] reads it: the inputs and
    outputs of the transaction with their values (whole numbers of the
    smallest unit), scripts and, for an input, the hash and index of the
    output it spends. *)
Module PsbtInputParams.
Record t : Set := mk { value : Z; scriptPubkey : Buffer; hash : Buffer; index : Z }.
End PsbtInputParams.

Module PsbtOutputParams.
Record t : Set := mk { value : Z; scriptPubkey : Buffer }.
End PsbtOutputParams.

Module PsbtParams.
Record t : Set := mk { inputs : list PsbtInputParams.t; outputs : list PsbtOutputParams.t }.
End PsbtParams.

Module UtxoTxOtherParams.
Record t : Set := mk { psbt : option PsbtParams.t }.
End UtxoTxOtherParams.

(** An [EdgeTransaction] as [fromEdgeTransaction] reads it: [otherParams] and
    [nativeAmount] may be null or undefined. *)
Module EdgeTransactionData.
Record t : Set := mk {
  txid : string;
  signedTx : string;
  blockHeight : Z;
  date : Z;
  networkFee : string;
  nativeAmount : option string;
  otherParams : option UtxoTxOtherParams.t
}.
End EdgeTransactionData.

(** [Number.prototype.toString] of a whole number.  A safe integer (below 2^53
    in size) is written with its decimal digits.  Any other whole number is a
    double that JavaScript writes with the shortest digits that read back as
    the same double, in exponent notation from 1e21 on; that text is left to
    [toStringOfLargeNumber]. *)
Class Numbers : Type := {
  toStringOfLargeNumber : Z -> string
}.

(** The decimal digits of an integer, with its sign when it is negative. *)
Definition decimalDigits (n : Z) : string := NilZero.string_of_int (Z.to_int n).

(** [n.toString()] of a whole number. *)
Definition numberToString {N : Numbers} (n : Z) : string :=
  if Z.abs n <? 2 ^ 53 then decimalDigits n else toStringOfLargeNumber n.

(** [array.map((x, n) => f(x, n))], from position [n]. *)
Fixpoint mapFrom {A B : Type} (f : A -> Z -> B) (n : Z) (l : list A) : list B :=
  match l with
  | [] => []
  | x :: rest => f x n :: mapFrom f (n + 1) rest
  end.

Definition fromEdgeTransaction {N : Numbers} (tx : EdgeTransactionData.t)
  : result IProcessorTransaction.t :=
  match EdgeTransactionData.otherParams tx with
  | None => Throw "Invalid transaction data"
  | Some otherParams =>
      match UtxoTxOtherParams.psbt otherParams with
      | None => Throw "Missing PSBT in edge transaction data"
      | Some psbt =>
          let inputs :=
            mapFrom (fun input n =>
                       {| ProcessorInput.amount := numberToString (PsbtInputParams.value input);
                          ProcessorInput.scriptPubkey := toHex (PsbtInputParams.scriptPubkey input);
                          ProcessorInput.n := n;
                          ProcessorInput.txId := toHex (rev (PsbtInputParams.hash input));
                          ProcessorInput.outputIndex := PsbtInputParams.index input |})
              0 (PsbtParams.inputs psbt) in
          let outputs :=
            mapFrom (fun output n =>
                       {| ProcessorOutput.amount := numberToString (PsbtOutputParams.value output);
                          ProcessorOutput.scriptPubkey :=
                            toHex (PsbtOutputParams.scriptPubkey output);
                          ProcessorOutput.n := n |})
              0 (PsbtParams.outputs psbt) in
          Ok {| IProcessorTransaction.txid := EdgeTransactionData.txid tx;
                IProcessorTransaction.hex := EdgeTransactionData.signedTx tx;
                IProcessorTransaction.blockHeight := EdgeTransactionData.blockHeight tx;
                IProcessorTransaction.date := EdgeTransactionData.date tx;
                IProcessorTransaction.fees := EdgeTransactionData.networkFee tx;
                IProcessorTransaction.inputs := inputs;
                IProcessorTransaction.outputs := outputs;
                IProcessorTransaction.ourIns := [];
                IProcessorTransaction.ourOuts := [];
                IProcessorTransaction.ourAmount :=
                  match EdgeTransactionData.nativeAmount tx with
                  | Some amount => amount
                  | None => "0"
                  end |}
      end
  end.

(** * More of the small implementation *)

Module FixtureKeys.

(** The hash of a public key is the first 20 bytes after its leading byte, the
    hash of a script its first 20 bytes, the digest of a message its first 32
    bytes, each filled up with zeros. *)
Definition filled (size : nat) (b : Buffer) : Buffer := firstn size (b ++ repeat x00 size).

Definition pubkeyPayment (before : Buffer) (after : Buffer) (pubkey : Buffer)
  : result PubkeyPayment.t :=
  if (List.length pubkey =? 33)%nat
  then Ok (PubkeyPayment.mk (Some (before ++ filled 20 (tl pubkey) ++ after)%list) None)
  else Throw "Expected property pubkey of type ?isPoint".

(** A key pair of [Fixture] is its private key; its text is [wif] and the
    key in hexadecimal text. *)
Definition KeyPair : Type := @ECPairInterface Fixture.collaborators.

Definition keyPairOn (privateKey : Buffer) (network : BitcoinJSNetwork.t) : result KeyPair :=
  Fixture.keyPairOf privateKey.

Definition wifOf (keyPair : KeyPair) : result string := Ok ("wif" ++ toHex keyPair).

Definition keyPairOfWif (wif : string) (network : BitcoinJSNetwork.t) : result KeyPair :=
  if String.prefix "wif" wif
  then Fixture.keyPairOf (fromHex (substring 3 (String.length wif - 3) wif))
  else Throw "Invalid checksum".

Definition privateKeyOf (keyPair : KeyPair) : option Buffer := Some keyPair.

Definition publicKeyOf (keyPair : KeyPair) : Buffer := x02 :: keyPair.

Definition wrapped (redeem : PubkeyPayment.t) : result PubkeyPayment.t :=
  match PubkeyPayment.output redeem with
  | Some script =>
      Ok (PubkeyPayment.mk (Some ([xa9; x14] ++ filled 20 script ++ [x87])%list) (Some redeem))
  | None => Throw "Not enough data"
  end.

Definition keys : KeyCollaborators Fixture.collaborators :=
  Build_KeyCollaborators Fixture.collaborators
    (pubkeyPayment [x76; xa9; x14] [x88; xac])
    (pubkeyPayment [x00; x14] [])
    wrapped keyPairOn wifOf keyPairOfWif privateKeyOf publicKeyOf
    (filled 32).

(** [Fixture.collaborators] with a codec that reads back the one draft it is
    made for. *)
Definition withDraft (draft : Psbt.t) : Collaborators :=
  {| getCoinFromString := Fixture.coinOfString;
     cashAddressToHash := Fixture.cashDecode;
     hashToCashAddress := Fixture.cashEncode;
     mnemonicToSeedSync := list_byte_of_string;
     BIP32Interface := Fixture.Node;
     fromSeed := Fixture.nodeOfSeed;
     fromBase58 := Fixture.nodeOfBase58;
     setNetwork := fun node _ => node;
     derive := Fixture.child;
     derivePath := fun node path =>
       Ok (Fixture.mkNode (Fixture.label node ++ "/" ++ path) (Fixture.indices node)
             (Fixture.hasPrivateKey node));
     neutered := fun node =>
       Fixture.mkNode (Fixture.label node) (Fixture.indices node) false;
     toBase58 := Fixture.base58OfNode;
     publicKey := fun node => x02 :: Fixture.keyBytes node;
     privateKey := fun node =>
       if Fixture.hasPrivateKey node then Some (Fixture.keyBytes node) else None;
     payments_p2pkh := Fixture.p2pkh;
     payments_p2sh := Fixture.p2sh;
     payments_p2wpkh := Fixture.p2wpkh;
     payments_p2wsh := Fixture.p2wsh;
     checkInput := Fixture.inputCheck;
     checkOutput := Fixture.outputCheck;
     toBase64 := Fixture.base64OfPsbt;
     fromBase64 := fun s =>
       if String.eqb s (Fixture.base64OfPsbt draft) then Ok draft
       else Throw "Format Error: Invalid Magic Number";
     ECPairInterface := Buffer;
     fromPrivateKey := Fixture.keyPairOf;
     signatureFor := Fixture.signatureOf;
     signatureValid := Fixture.signatureCheck;
     finalScripts := Fixture.finalOf;
     extractTransactionHex := Fixture.hexOfFinal |}.

End FixtureKeys.

(** * Definitions the properties are stated with *)

Unset Implicit Arguments.

(** ** createTx *)

(** What [createTx] hands to [addInput] for an input. *)
Definition psbtInputOf (sequence : Z) (input : TxInput.t) : PsbtInput.t :=
  match TxInput.type input with
  | TransactionInputTypeEnum.Legacy =>
      PsbtInput.mk (TxInput.prevTxid input) (TxInput.index input) sequence
        (option_map fromHex (TxInput.prevTx input)) None None [] None None
  | TransactionInputTypeEnum.Segwit =>
      PsbtInput.mk (TxInput.prevTxid input) (TxInput.index input) sequence None
        (match TxInput.prevScriptPubkey input, TxInput.value input with
         | Some script, Some value => Some (WitnessUtxo.mk (fromHex script) value)
         | _, _ => None
         end)
        (option_map fromHex (TxInput.redeemScript input)) [] None None
  end.

(** What [createTx] hands to [addOutput] for an output. *)
Definition psbtOutputOf (output : TxOutput.t) : PsbtOutput.t :=
  PsbtOutput.mk (fromHex (TxOutput.scriptPubkey output)) (TxOutput.amount output).

(** The message [createTx] throws for an input that lacks data of its kind:
    [prevTx] for a legacy input, [prevScriptPubkey] or [value] for a segwit
    one.  [redeemScript] is never asked for. *)
Definition missingInputData (input : TxInput.t) : option string :=
  match TxInput.type input with
  | TransactionInputTypeEnum.Legacy =>
      match TxInput.prevTx input with
      | None => Some "legacy inputs require the full previous transaction to be passed"
      | Some _ => None
      end
  | TransactionInputTypeEnum.Segwit =>
      match TxInput.prevScriptPubkey input, TxInput.value input with
      | Some _, Some _ => None
      | _, _ => Some "segwit inputs require a script pubkey and value to be passed"
      end
  end.

(** The locking script [HASH160 <20 bytes> EQUAL] of a script-hash output
    (4.4 of the specification), in hexadecimal text. *)
Definition isScriptHashScript (scriptPubkey : string) : bool :=
  match fromHex scriptPubkey with
  | xa9 :: x14 :: rest =>
      (List.length rest =? 21)%nat
      && match skipn 20 rest with [x87] => true | _ => false end
  | _ => false
  end.


(** The draft [createTx] builds from arguments whose inputs have their data:
    inputs and outputs in the order of the arguments. *)
Definition draftOf (args : CreateTxArgs.t) : Psbt.t :=
  Psbt.mk (map (psbtInputOf (sequenceOf (CreateTxArgs.rbf args))) (CreateTxArgs.inputs args))
          (map psbtOutputOf (CreateTxArgs.outputs args)).

Section LibraryChecks.
Context {C : Collaborators}.

(** The checks of [addInput] and [addOutput] on a draft, made in the order
    its inputs and outputs are added. *)
Definition libraryChecks (draft : Psbt.t) : result unit :=
  psbt <- forEach addInput (Psbt.inputs draft) Psbt.empty ;;
  _ <- forEach addOutput (Psbt.outputs draft) psbt ;;
  Ok tt.

End LibraryChecks.

Module Examples.

(** A witness-pubkeyhash input for [Fixture.key0]. *)
Definition witnessInput : TxInput.t :=
  TxInput.mk TransactionInputTypeEnum.Segwit Fixture.txidA 0 None
    (Some "00141111111111111111111111111111111111111111") None (Some 5000).

(** A legacy input with its previous transaction. *)
Definition legacyInput : TxInput.t :=
  TxInput.mk TransactionInputTypeEnum.Legacy Fixture.txidB 1
    (Some "0100000001aabbccdd") None None None.

(** A segwit input that spends a script-hash output (a wrapped witness
    program) and comes without its redeem script. *)
Definition wrappedInputWithoutRedeemScript : TxInput.t :=
  TxInput.mk TransactionInputTypeEnum.Segwit Fixture.txidA 0 None
    (Some "a914000102030405060708090a0b0c0d0e0f1011121387") None (Some 5000).

(** A witness input without its value. *)
Definition witnessInputWithoutValue : TxInput.t :=
  TxInput.mk TransactionInputTypeEnum.Segwit Fixture.txidB 0 None
    (Some "00141111111111111111111111111111111111111111") None None.

Definition payment : TxOutput.t :=
  TxOutput.mk "00142222222222222222222222222222222222222222" 4800.

End Examples.

(** ** Version bytes *)

(** The version-byte pair a coin's prefixes register for a purpose, if any. *)
Definition versionBytesOf (sigType : BIP43PurposeTypeEnum.t) (coinPrefixes : CoinPrefixes.t)
  : option Bip32.t :=
  match sigType with
  | BIP43PurposeTypeEnum.Legacy =>
      Some (Bip32.mk (CoinPrefixes.legacyXPub coinPrefixes) (CoinPrefixes.legacyXPriv coinPrefixes))
  | BIP43PurposeTypeEnum.Segwit =>
      match CoinPrefixes.segwitXPub coinPrefixes, CoinPrefixes.segwitXPriv coinPrefixes with
      | Some xpub, Some xpriv => Some (Bip32.mk xpub xpriv)
      | _, _ => None
      end
  | BIP43PurposeTypeEnum.WrappedSegwit =>
      match CoinPrefixes.wrappedSegwitXPub coinPrefixes,
            CoinPrefixes.wrappedSegwitXPriv coinPrefixes with
      | Some xpub, Some xpriv => Some (Bip32.mk xpub xpriv)
      | _, _ => None
      end
  end.

(** A coin's prefixes lack the version bytes of a purpose: the public or the
    private one is not there. *)
Definition lacksVersionBytes (sigType : BIP43PurposeTypeEnum.t) (coinPrefixes : CoinPrefixes.t)
  : Prop :=
  match sigType with
  | BIP43PurposeTypeEnum.Segwit =>
      CoinPrefixes.segwitXPub coinPrefixes = None \/ CoinPrefixes.segwitXPriv coinPrefixes = None
  | BIP43PurposeTypeEnum.WrappedSegwit =>
      CoinPrefixes.wrappedSegwitXPub coinPrefixes = None
      \/ CoinPrefixes.wrappedSegwitXPriv coinPrefixes = None
  | BIP43PurposeTypeEnum.Legacy => False
  end.

(** A coin's prefixes register a pair of version bytes for a purpose. *)
Definition registersVersionBytes (sigType : BIP43PurposeTypeEnum.t)
  (coinPrefixes : CoinPrefixes.t) (bytes : Bip32.t) : Prop :=
  match sigType with
  | BIP43PurposeTypeEnum.Segwit =>
      CoinPrefixes.segwitXPub coinPrefixes = Some (Bip32.public bytes)
      /\ CoinPrefixes.segwitXPriv coinPrefixes = Some (Bip32.private bytes)
  | BIP43PurposeTypeEnum.WrappedSegwit =>
      CoinPrefixes.wrappedSegwitXPub coinPrefixes = Some (Bip32.public bytes)
      /\ CoinPrefixes.wrappedSegwitXPriv coinPrefixes = Some (Bip32.private bytes)
  | BIP43PurposeTypeEnum.Legacy =>
      CoinPrefixes.legacyXPub coinPrefixes = Bip32.public bytes
      /\ CoinPrefixes.legacyXPriv coinPrefixes = Bip32.private bytes
  end.

(** The error for a purpose the coin has no version bytes for. *)
Definition unsupportedPurpose (sigType : BIP43PurposeTypeEnum.t) : string :=
  match sigType with
  | BIP43PurposeTypeEnum.WrappedSegwit => "wrapped segwit xpub prefix is undefined"
  | _ => "segwit xpub prefix is undefined"
  end.

(** ** Guessing the address type *)

Definition Decoder : Set := string -> BitcoinJSNetwork.t -> option AddressTypeEnum.t.

(** The first decoder of a list that accepts the address decides its type. *)
Fixpoint firstDecoding (decoders : list Decoder) (address : string) (network : BitcoinJSNetwork.t)
  : option AddressTypeEnum.t :=
  match decoders with
  | [] => None
  | decoder :: rest =>
      match decoder address network with
      | Some t => Some t
      | None => firstDecoding rest address network
      end
  end.

Section Decoders.
Context {C : Collaborators}.

Definition decodesWith (payment : PaymentCreator) (t : AddressTypeEnum.t) : Decoder :=
  fun address network =>
    if isOk (payment (Payment.ofAddress address network)) then Some t else None.

Definition altEncoded : Decoder :=
  fun address _ =>
    match cashAddressToHash address with
    | Ok info =>
        Some (match CashAddressInfo.type info with
              | cashaddrTypeEnum.pubkeyhash => AddressTypeEnum.cashaddrP2PKH
              | cashaddrTypeEnum.scripthash => AddressTypeEnum.cashaddrP2SH
              end)
    | Throw _ => None
    end.

(** The type an alt-encoded address is guessed as, and the type its hash is
    converted as. *)
Definition cashTypeOf (info : CashAddressInfo.t) : AddressTypeEnum.t :=
  match CashAddressInfo.type info with
  | cashaddrTypeEnum.pubkeyhash => AddressTypeEnum.cashaddrP2PKH
  | cashaddrTypeEnum.scripthash => AddressTypeEnum.cashaddrP2SH
  end.

Definition plainTypeOf (info : CashAddressInfo.t) : AddressTypeEnum.t :=
  match CashAddressInfo.type info with
  | cashaddrTypeEnum.pubkeyhash => AddressTypeEnum.p2pkh
  | cashaddrTypeEnum.scripthash => AddressTypeEnum.p2sh
  end.

(** Pubkeyhash, scripthash, witness-scripthash, witness-pubkeyhash,
    alt-encoded (4.4 of the specification). *)
Definition decodersInPriorityOrder : list Decoder :=
  [ decodesWith payments_p2pkh AddressTypeEnum.p2pkh;
    decodesWith payments_p2sh AddressTypeEnum.p2sh;
    decodesWith payments_p2wsh AddressTypeEnum.p2wsh;
    decodesWith payments_p2wpkh AddressTypeEnum.p2wpkh;
    altEncoded ].

End Decoders.

(** ** Signing in the order of the inputs *)

Section SigningInOrder.
Context {C : Collaborators}.


End SigningInOrder.

(** ** Addresses and locking scripts *)

(** The prefix [scriptPubkeyToAddress] passes to the checksummed codec. *)
Definition prefixOf (networkType : NetworkEnum.t) : cashaddrPrefixEnum.t :=
  match networkType with
  | NetworkEnum.Testnet => cashaddrPrefixEnum.testnet
  | NetworkEnum.Mainnet => cashaddrPrefixEnum.mainnet
  end.

Section ValidAddresses.
Context {C : Collaborators}.

(** The library decodes the address to a locking script and encodes that
    script to the same text. *)
Definition reencodes (payment : PaymentCreator) (address : string) (network : BitcoinJSNetwork.t)
  : Prop :=
  exists p o p',
    payment (Payment.ofAddress address network) = Ok p
    /\ Payment.output p = Some o
    /\ payment (Payment.ofOutput o network) = Ok p'
    /\ Payment.address p' = Some address.

(** The codec decodes the address to a hash with the given type tag, the
    library has a locking script for the hash, and the codec encodes hash and
    tag, under the prefix of the network type, to the same text. *)
Definition recodes (payment : PaymentCreator) (tag : cashaddrTypeEnum.t)
  (address : string) (network : BitcoinJSNetwork.t) (networkType : NetworkEnum.t) : Prop :=
  exists info p o,
    cashAddressToHash address = Ok info
    /\ CashAddressInfo.type info = tag
    /\ payment (Payment.ofHash (CashAddressInfo.scriptHash info) network) = Ok p
    /\ Payment.output p = Some o
    /\ hashToCashAddress (toHex (CashAddressInfo.scriptHash info)) tag (prefixOf networkType)
       = Ok address.

(** A valid address of a type, for a network: text the decoder of the type
    accepts and that is the text the encoder of the type writes. *)
Definition validAddress (t : AddressTypeEnum.t) (address : string)
  (network : BitcoinJSNetwork.t) (networkType : NetworkEnum.t) : Prop :=
  match t with
  | AddressTypeEnum.p2pkh => reencodes payments_p2pkh address network
  | AddressTypeEnum.p2sh | AddressTypeEnum.p2wpkhp2sh | AddressTypeEnum.p2wshp2sh =>
      reencodes payments_p2sh address network
  | AddressTypeEnum.p2wpkh => reencodes payments_p2wpkh address network
  | AddressTypeEnum.p2wsh => reencodes payments_p2wsh address network
  | AddressTypeEnum.cashaddrP2PKH =>
      recodes payments_p2pkh cashaddrTypeEnum.pubkeyhash address network networkType
  | AddressTypeEnum.cashaddrP2SH =>
      recodes payments_p2sh cashaddrTypeEnum.scripthash address network networkType
  end.

(** The library reads from a locking script it built from a hash that hash. *)
Definition hashOutputInverse (payment : PaymentCreator) : Prop :=
  forall h network p o,
    payment (Payment.ofHash h network) = Ok p ->
    Payment.output p = Some o ->
    exists p', payment (Payment.ofOutput o network) = Ok p' /\ Payment.hash p' = Some h.

End ValidAddresses.

(** ** Receive addresses and the fee rate *)

Section Display.
Context {I : Imports}.

(** The format an address of ours is shown in: the script-hash-wrapped
    witness format for a path that uses the replay protection template, the
    format recorded on the path otherwise (6 of the specification). *)
Definition displayFormat (scriptTemplate : option ScriptTemplate) (path : AddressPath.t)
  : string :=
  match scriptTemplate with
  | Some template =>
      if isPathUsingDerivationLevelScriptHash template path then "bip49"
      else AddressPath.format path
  | None => AddressPath.format path
  end.

(** The receive addresses of a list of outputs of ours, output by output, from
    a heap of address objects to the heap the loop leaves: an output whose
    script the processor does not know, or knows without a path, gives no
    address; an output known with a path gives the address the wallet tools
    render for its script in the display format of the path, and its address
    object is left with that format. *)
Inductive ReceiveAddresses (args : ToEdgeTransactionArgs.t ScriptTemplate)
  : Heap -> list string -> Heap -> list string -> Prop :=
| receive_done (heap : Heap) :
    ReceiveAddresses args heap [] heap []
| receive_unknown (heap heap1 heap' : Heap) (out : string) (outs : list string)
    (output : ProcessorOutput.t) (addresses : list string) :
    at_ (IProcessorTransaction.outputs (ToEdgeTransactionArgs.tx args)) (parseInt out)
    = Some output ->
    Processor.fetchAddress (ToEdgeTransactionArgs.processor args) heap
      (ProcessorOutput.scriptPubkey output) = Ok (None, heap1) ->
    ReceiveAddresses args heap1 outs heap' addresses ->
    ReceiveAddresses args heap (out :: outs) heap' addresses
| receive_pathless (heap heap1 heap' : Heap) (out : string) (outs : list string)
    (output : ProcessorOutput.t) (ref : nat) (object : IAddress.t) (addresses : list string) :
    at_ (IProcessorTransaction.outputs (ToEdgeTransactionArgs.tx args)) (parseInt out)
    = Some output ->
    Processor.fetchAddress (ToEdgeTransactionArgs.processor args) heap
      (ProcessorOutput.scriptPubkey output) = Ok (Some ref, heap1) ->
    nth_error heap1 ref = Some object ->
    IAddress.path object = None ->
    ReceiveAddresses args heap1 outs heap' addresses ->
    ReceiveAddresses args heap (out :: outs) heap' addresses
| receive_shown (heap heap1 heap' : Heap) (out : string) (outs : list string)
    (output : ProcessorOutput.t) (ref : nat) (object : IAddress.t) (path : AddressPath.t)
    (address : string) (addresses : list string) :
    let format :=
      displayFormat (PluginInfo.replayProtection (ToEdgeTransactionArgs.pluginInfo args)) path in
    at_ (IProcessorTransaction.outputs (ToEdgeTransactionArgs.tx args)) (parseInt out)
    = Some output ->
    Processor.fetchAddress (ToEdgeTransactionArgs.processor args) heap
      (ProcessorOutput.scriptPubkey output) = Ok (Some ref, heap1) ->
    nth_error heap1 ref = Some object ->
    IAddress.path object = Some path ->
    UTXOPluginWalletTools.scriptPubkeyToAddress (ToEdgeTransactionArgs.walletTools args)
      (ProcessorOutput.scriptPubkey output) format = Ok address ->
    ReceiveAddresses args
      (replaceAt heap1 ref (IAddress.withPath object (AddressPath.withFormat path format)))
      outs heap' addresses ->
    ReceiveAddresses args heap (out :: outs) heap' (address :: addresses).

End Display.

Module ExampleWallet.

Definition legacySpk : string := "76a914000102030405060708090a0b0c0d0e0f1011121388ac".
Definition replaySpk : string := "a914000102030405060708090a0b0c0d0e0f1011121387".

(** Two address objects on the bip44 chain of a coin whose replay protection
    template is used at change index 2. *)
Definition heap : Heap :=
  [ IAddress.mk legacySpk (Some (AddressPath.mk "bip44" 0 7));
    IAddress.mk replaySpk (Some (AddressPath.mk "bip44" 2 3)) ].

Definition pluginInfo : PluginInfo.t Z := PluginInfo.mk "BCH" (Some 2).

(** A transaction of 82 bytes without witness data (weight 328, virtual size
    82): one input with an empty script, one witness-pubkeyhash output of
    4800. *)
Definition hex : string :=
  "01000000" ++ "01"
  ++ "aaaaaaaaaaaaaaaaaaaaaaaaaaaaaaaaaaaaaaaaaaaaaaaaaaaaaaaaaaaaaaaa" ++ "00000000"
  ++ "00" ++ "ffffffff"
  ++ "01" ++ "c012000000000000" ++ "16" ++ "00142222222222222222222222222222222222222222"
  ++ "00000000".

Definition stored (fees : string) (hex : string) : IProcessorTransaction.t :=
  IProcessorTransaction.mk "txid" hex 650000 1600000000 fees []
    [ ProcessorOutput.mk "5000" replaySpk 0;
      ProcessorOutput.mk "700" "6a" 1;
      ProcessorOutput.mk "4000" legacySpk 2 ]
    [] ["0"; "2"] "9000".

Definition args (fees : string) (hex : string) : ToEdgeTransactionArgs.t Z :=
  ToEdgeTransactionArgs.mk (stored fees hex) Fixture.walletTools Fixture.cachingProcessor
    pluginInfo.

End ExampleWallet.

(** ** Script hashes, keys and stored transactions *)

Section HashPayments.
Context {C : Collaborators}.

(** The payment creator [scriptHashToScriptPubkey] builds a script with and
    [scriptPubkeyToScriptHash] reads it with, for the types both accept. *)
Definition hashPayment (t : AddressTypeEnum.t) : option PaymentCreator :=
  match t with
  | AddressTypeEnum.p2pkh => Some payments_p2pkh
  | AddressTypeEnum.p2sh | AddressTypeEnum.p2wpkhp2sh => Some payments_p2sh
  | AddressTypeEnum.p2wpkh => Some payments_p2wpkh
  | AddressTypeEnum.p2wsh => Some payments_p2wsh
  | _ => None
  end.

End HashPayments.

(** Two inputs of a draft that differ in their signatures at most. *)
Definition sameButSignatures (a b : PsbtInput.t) : Prop :=
  PsbtInput.hash a = PsbtInput.hash b
  /\ PsbtInput.index a = PsbtInput.index b
  /\ PsbtInput.sequence a = PsbtInput.sequence b
  /\ PsbtInput.nonWitnessUtxo a = PsbtInput.nonWitnessUtxo b
  /\ PsbtInput.witnessUtxo a = PsbtInput.witnessUtxo b
  /\ PsbtInput.redeemScript a = PsbtInput.redeemScript b
  /\ PsbtInput.finalScriptSig a = PsbtInput.finalScriptSig b
  /\ PsbtInput.finalScriptWitness a = PsbtInput.finalScriptWitness b.

(** An input as [createTx] leaves it: no signature, no final script, and the
    previous transaction (legacy) or the spent output (segwit), not both; a
    redeem script only beside a spent output. *)
Definition freshInput (input : PsbtInput.t) : Prop :=
  PsbtInput.partialSig input = []
  /\ PsbtInput.finalScriptSig input = None
  /\ PsbtInput.finalScriptWitness input = None
  /\ ((exists prevTx,
         PsbtInput.nonWitnessUtxo input = Some prevTx
         /\ PsbtInput.witnessUtxo input = None
         /\ PsbtInput.redeemScript input = None)
      \/ (exists utxo,
            PsbtInput.witnessUtxo input = Some utxo
            /\ PsbtInput.nonWitnessUtxo input = None)).

(** An address object as [toEdgeTransaction] may leave it: as it was, or with
    the format of its path overwritten with ['bip49']. *)
Definition sameButFormat (before after : IAddress.t) : Prop :=
  after = before
  \/ exists path,
       IAddress.path before = Some path
       /\ after = IAddress.withPath before (AddressPath.withFormat path "bip49").

(** A processor whose [fetchAddress] hands out references to the address
    objects there are, without making or changing one. *)
Definition readOnly (processor : Processor.t) : Prop :=
  forall heap scriptPubkey ref heap',
    Processor.fetchAddress processor heap scriptPubkey = Ok (ref, heap') -> heap' = heap.

Module MoreExamples.

Definition twoInputs (rbf : bool) : CreateTxArgs.t :=
  CreateTxArgs.mk NetworkEnum.Mainnet
    [Examples.witnessInput;
     TxInput.mk TransactionInputTypeEnum.Segwit Fixture.txidB 0 None
       (Some "00142222222222222222222222222222222222222222") None (Some 5000)]
    [Examples.payment] rbf.

(** An edge transaction with its psbt: one input that spends output 1 of the
    transaction with hash 01 02 .. 20 (in the byte order of the wire), two
    outputs. *)
Definition edgeTransaction : EdgeTransactionData.t :=
  EdgeTransactionData.mk "txid" ExampleWallet.hex 0 1600000000 "8200" (Some "-13000")
    (Some (UtxoTxOtherParams.mk
             (Some (PsbtParams.mk
                      [PsbtInputParams.mk 18000 (Fixture.witnessScriptOf Fixture.key0)
                         (fromHex "0102030405060708090a0b0c0d0e0f101112131415161718191a1b1c1d1e1f20")
                         1]
                      [PsbtOutputParams.mk 4800 (Fixture.witnessScriptOf Fixture.key1);
                       PsbtOutputParams.mk 5000 (Fixture.witnessScriptOf Fixture.key0)])))).

End MoreExamples.

(** * Hexadecimal text *)

Lemma hex_byte_roundtrip (x : byte) :
  fromHex (String (hexDigit (Byte.to_N x / 16)) (String (hexDigit (Byte.to_N x mod 16)) EmptyString)) = [x].
Proof. destruct x; reflexivity. Qed.

Lemma fromHex_cons (x : byte) (s : string) :
  fromHex (String (hexDigit (Byte.to_N x / 16)) (String (hexDigit (Byte.to_N x mod 16)) s))
  = x :: fromHex s.
Proof. destruct x; reflexivity. Qed.

Lemma fromHex_toHex (b : Buffer) : fromHex (toHex b) = b.
Proof.
  induction b as [|x rest IH]; [reflexivity|].
  cbn [toHex]. rewrite fromHex_cons. now rewrite IH.
Qed.


(** * Properties of keymanager.ts *)

Ltac bind_ok H := rewrite H; cbn [bind].

(** ** Leaf keys *)

Section LeafKeys.
Context {C : Collaborators}.

(** [xpubToPubkey] derives twice, at the change index and at the address index
    of its arguments, and returns the public key of the leaf. *)
Lemma xpubToPubkey_derives_at_indices (args : XPubToPubkeyArgs.t)
  (network : BitcoinJSNetwork.t) (node : BIP32Interface) :
  bip32NetworkFromCoin (XPubToPubkeyArgs.network args) (XPubToPubkeyArgs.coin args)
    (XPubToPubkeyArgs.type args) = Ok network ->
  fromBase58 (XPubToPubkeyArgs.xpub args) network = Ok node ->
  xpubToPubkey args =
    (change <- derive node (ZeroOrOne.toZ (XPubToPubkeyArgs.bip44ChangeIndex args)) ;;
     leaf <- derive change (XPubToPubkeyArgs.bip44AddressIndex args) ;;
     Ok (toHex (publicKey leaf))).
Proof.
  intros Hnet Hnode. unfold xpubToPubkey.
  bind_ok Hnet. bind_ok Hnode. reflexivity.
Qed.

(** [xprivToPrivateKey] derives twice at index 0. *)
Lemma xprivToPrivateKey_derives_at_zero (args : XPrivToPrivateKeyArgs.t)
  (network : BitcoinJSNetwork.t) (node : BIP32Interface) :
  bip32NetworkFromCoin (XPrivToPrivateKeyArgs.network args) (XPrivToPrivateKeyArgs.coin args)
    (XPrivToPrivateKeyArgs.type args) = Ok network ->
  fromBase58 (XPrivToPrivateKeyArgs.xpriv args) network = Ok node ->
  xprivToPrivateKey args =
    (change <- derive node 0 ;;
     leaf <- derive change 0 ;;
     match privateKey leaf with
     | None => Throw "Failed to generate private key from xpriv"
     | Some key => Ok (toHex key)
     end).
Proof.
  intros Hnet Hnode. unfold xprivToPrivateKey.
  bind_ok Hnet. bind_ok Hnode. reflexivity.
Qed.

End LeafKeys.

(** C1 (the part on [xprivToPrivateKey] fails on the code).  The result of
    [xprivToPrivateKey] does not depend on [bip44ChangeIndex] and
    [bip44AddressIndex]: asked for the key at change 0, address 1 of an
    account, it returns the key at change 0, address 0, which is not the
    private key of [node.derive(0).derive(1)]. *)
Theorem xprivToPrivateKey_ignores_its_indices :
  (forall (C : Collaborators) xpriv network type change index coin,
      xprivToPrivateKey (XPrivToPrivateKeyArgs.mk xpriv network type change index coin)
      = xprivToPrivateKey (XPrivToPrivateKeyArgs.mk xpriv network type ZeroOrOne.zero 0 coin))
  /\ xprivToPrivateKey (C := Fixture.collaborators)
       (XPrivToPrivateKeyArgs.mk "xprvAccount" NetworkEnum.Mainnet
          BIP43PurposeTypeEnum.Legacy ZeroOrOne.zero 1 "bitcoin")
     = Ok "4163636f756e740000"
  /\ (network <- bip32NetworkFromCoin (C := Fixture.collaborators)
                   NetworkEnum.Mainnet "bitcoin" BIP43PurposeTypeEnum.Legacy ;;
      node <- fromBase58 (Collaborators := Fixture.collaborators) "xprvAccount" network ;;
      change <- derive node 0 ;;
      leaf <- derive change 1 ;;
      Ok (option_map toHex (privateKey leaf)))
     = Ok (Some "4163636f756e740001")
  /\ xpubToPubkey (C := Fixture.collaborators)
       (XPubToPubkeyArgs.mk "xpubAccount" NetworkEnum.Mainnet
          BIP43PurposeTypeEnum.Legacy ZeroOrOne.zero 1 "bitcoin")
     = Ok "024163636f756e740001".
Proof.
  split; [|repeat split; vm_compute; reflexivity].
  intros. reflexivity.
Qed.

(** ** createTx *)

Section CreateTx.
Context {C : Collaborators}.

Lemma createTxInput_cases (sequence : Z) (psbt : Psbt.t) (input : TxInput.t) :
  createTxInput sequence psbt input =
    match missingInputData input with
    | Some msg => Throw msg
    | None => addInput psbt (psbtInputOf sequence input)
    end.
Proof.
  unfold createTxInput, missingInputData, psbtInputOf.
  destruct (TxInput.type input).
  - destruct (TxInput.prevTx input); reflexivity.
  - destruct (TxInput.prevScriptPubkey input), (TxInput.value input),
      (TxInput.redeemScript input); reflexivity.
Qed.

Lemma addInput_appends (psbt psbt' : Psbt.t) (input : PsbtInput.t) :
  addInput psbt input = Ok psbt' ->
  psbt' = Psbt.mk (Psbt.inputs psbt ++ [input]) (Psbt.outputs psbt).
Proof.
  unfold addInput. destruct (checkInput psbt input); cbn; congruence.
Qed.

Lemma addOutput_appends (psbt psbt' : Psbt.t) (output : PsbtOutput.t) :
  addOutput psbt output = Ok psbt' ->
  psbt' = Psbt.mk (Psbt.inputs psbt) (Psbt.outputs psbt ++ [output]).
Proof.
  unfold addOutput. destruct (checkOutput psbt output); cbn; congruence.
Qed.

Lemma forEach_app {A S : Type} (body : S -> A -> result S) (l1 l2 : list A) (s : S) :
  forEach body (l1 ++ l2) s = (s' <- forEach body l1 s ;; forEach body l2 s').
Proof.
  revert s. induction l1 as [|x l1 IH]; intros s; cbn; [reflexivity|].
  destruct (body s x); cbn; [apply IH | reflexivity].
Qed.

(** While every input has its data, the first loop of [createTx] is a
    sequence of [addInput] calls. *)
Lemma inputs_loop_complete (sequence : Z) (inputs : list TxInput.t) (psbt : Psbt.t) :
  Forall (fun input => missingInputData input = None) inputs ->
  forEach (createTxInput sequence) inputs psbt
  = forEach addInput (map (psbtInputOf sequence) inputs) psbt.
Proof.
  intros Hall. revert psbt.
  induction Hall as [|input rest Hin _ IH]; intros psbt; cbn; [reflexivity|].
  rewrite createTxInput_cases, Hin.
  destruct (addInput psbt (psbtInputOf sequence input)); cbn; [apply IH | reflexivity].
Qed.

Lemma inputs_loop_ok (sequence : Z) (inputs : list TxInput.t) (psbt psbt' : Psbt.t) :
  forEach (createTxInput sequence) inputs psbt = Ok psbt' ->
  psbt' = Psbt.mk (Psbt.inputs psbt ++ map (psbtInputOf sequence) inputs) (Psbt.outputs psbt)
  /\ Forall (fun input => missingInputData input = None) inputs.
Proof.
  revert psbt. induction inputs as [|input rest IH]; intros psbt; cbn.
  - intros [= <-]. rewrite app_nil_r. destruct psbt; auto.
  - rewrite createTxInput_cases.
    destruct (missingInputData input) eqn:Hmiss; [discriminate|].
    destruct (addInput psbt (psbtInputOf sequence input)) as [mid|] eqn:Hadd; cbn; [|discriminate].
    intros Hrest. apply addInput_appends in Hadd. subst mid.
    destruct (IH _ Hrest) as [-> Hall]. cbn.
    rewrite <- app_assoc. auto.
Qed.

Lemma addInput_loop_ok (inputs : list PsbtInput.t) (psbt psbt' : Psbt.t) :
  forEach addInput inputs psbt = Ok psbt' ->
  psbt' = Psbt.mk (Psbt.inputs psbt ++ inputs) (Psbt.outputs psbt).
Proof.
  revert psbt. induction inputs as [|input rest IH]; intros psbt; cbn.
  - intros [= <-]. rewrite app_nil_r. now destruct psbt.
  - destruct (addInput psbt input) as [mid|] eqn:Hadd; cbn; [|discriminate].
    intros Hrest. apply addInput_appends in Hadd. subst mid.
    rewrite (IH _ Hrest). cbn. now rewrite <- app_assoc.
Qed.

Lemma outputs_loop_ok (outputs : list TxOutput.t) (psbt psbt' : Psbt.t) :
  forEach createTxOutput outputs psbt = Ok psbt' ->
  psbt' = Psbt.mk (Psbt.inputs psbt) (Psbt.outputs psbt ++ map psbtOutputOf outputs).
Proof.
  revert psbt. induction outputs as [|output rest IH]; intros psbt; cbn.
  - intros [= <-]. rewrite app_nil_r. now destruct psbt.
  - unfold createTxOutput at 1.
    destruct (addOutput psbt _) as [mid|] eqn:Hadd; cbn; [|discriminate].
    intros Hrest. apply addOutput_appends in Hadd. subst mid.
    rewrite (IH _ Hrest). cbn. now rewrite <- app_assoc.
Qed.

(** A draft that [createTx] returns holds the inputs and the outputs of the
    arguments, in their order. *)
Lemma createTxPsbt_ok (args : CreateTxArgs.t) (psbt : Psbt.t) :
  createTxPsbt args = Ok psbt ->
  psbt = Psbt.mk (map (psbtInputOf (sequenceOf (CreateTxArgs.rbf args))) (CreateTxArgs.inputs args))
                 (map psbtOutputOf (CreateTxArgs.outputs args))
  /\ Forall (fun input => missingInputData input = None) (CreateTxArgs.inputs args).
Proof.
  unfold createTxPsbt.
  destruct (forEach (createTxInput _) _ Psbt.empty) as [mid|] eqn:Hin; cbn; [|discriminate].
  intros Hout. apply inputs_loop_ok in Hin as [-> Hall].
  apply outputs_loop_ok in Hout. subst psbt. cbn. auto.
Qed.

Lemma sequence_psbtInputOf (sequence : Z) (input : TxInput.t) :
  PsbtInput.sequence (psbtInputOf sequence input) = sequence.
Proof. unfold psbtInputOf. now destruct (TxInput.type input). Qed.

End CreateTx.

(** C2 (amended).  Every input of a draft that [createTx] returns carries the
    same sequence number: 0xffffffff when [rbf] is false and 0xfffffffd, the
    maximum less two, when [rbf] is true; the draft has one input per input
    of the arguments. *)
Theorem createTx_sequence_numbers (C : Collaborators) (args : CreateTxArgs.t) (psbt : Psbt.t) :
  createTxPsbt args = Ok psbt ->
  createTx args = Ok (toBase64 psbt)
  /\ List.length (Psbt.inputs psbt) = List.length (CreateTxArgs.inputs args)
  /\ Forall (fun input =>
               PsbtInput.sequence input
               = if CreateTxArgs.rbf args then 0xfffffffd else 0xffffffff)
       (Psbt.inputs psbt).
Proof.
  intros Hok. split; [unfold createTx; now rewrite Hok|].
  apply createTxPsbt_ok in Hok as [-> _]. cbn [Psbt.inputs].
  split; [apply length_map|].
  apply Forall_forall. intros input Hin.
  apply in_map_iff in Hin as (source & <- & _).
  rewrite sequence_psbtInputOf. now destruct (CreateTxArgs.rbf args).
Qed.

(** C2, on two inputs with [rbf] set. *)
Lemma createTx_sequence_numbers_witness :
  let args := CreateTxArgs.mk NetworkEnum.Mainnet
                [Examples.witnessInput; Examples.legacyInput] [Examples.payment] true in
  createTxPsbt (C := Fixture.collaborators) args = Ok (draftOf args)
  /\ createTx (C := Fixture.collaborators) args
     = Ok (toBase64 (Collaborators := Fixture.collaborators) (draftOf args))
  /\ List.length (Psbt.inputs (draftOf args)) = 2%nat
  /\ Forall (fun input => PsbtInput.sequence input = 0xfffffffd) (Psbt.inputs (draftOf args)).
Proof.
  cbv zeta. split; [vm_compute; reflexivity|].
  apply (createTx_sequence_numbers Fixture.collaborators
           (CreateTxArgs.mk NetworkEnum.Mainnet
              [Examples.witnessInput; Examples.legacyInput] [Examples.payment] true)).
  vm_compute; reflexivity.
Defined.

(** C2 as stated fails: with [rbf] set the sequence number is 0xfffffffd, whose
    lowest bit is still set; it is not 0xfffffffc. *)
Lemma createTx_rbf_sequence_keeps_low_bit :
  exists psbt,
    createTxPsbt (C := Fixture.collaborators)
      (CreateTxArgs.mk NetworkEnum.Mainnet [Examples.witnessInput] [Examples.payment] true)
    = Ok psbt
    /\ map PsbtInput.sequence (Psbt.inputs psbt) = [0xfffffffd]
    /\ Z.testbit 0xfffffffd 0 = true
    /\ 0xfffffffd <> 0xfffffffc.
Proof.
  eexists. split; [vm_compute; reflexivity|].
  split; [vm_compute; reflexivity|]. split; [reflexivity|discriminate].
Qed.

Section CreateTxChecks.
Context {C : Collaborators}.

Lemma outputs_loop_adds (outputs : list TxOutput.t) (psbt : Psbt.t) :
  forEach createTxOutput outputs psbt = forEach addOutput (map psbtOutputOf outputs) psbt.
Proof.
  revert psbt. induction outputs as [|output rest IH]; intros psbt; cbn; [reflexivity|].
  unfold createTxOutput at 1. fold (psbtOutputOf output).
  destruct (addOutput psbt (psbtOutputOf output)); cbn; [apply IH | reflexivity].
Qed.

Lemma addOutput_loop_ok (outputs : list PsbtOutput.t) (psbt psbt' : Psbt.t) :
  forEach addOutput outputs psbt = Ok psbt' ->
  psbt' = Psbt.mk (Psbt.inputs psbt) (Psbt.outputs psbt ++ outputs).
Proof.
  revert psbt. induction outputs as [|output rest IH]; intros psbt; cbn.
  - intros [= <-]. rewrite app_nil_r. now destruct psbt.
  - destruct (addOutput psbt output) as [mid|] eqn:Hadd; cbn; [|discriminate].
    intros Hrest. apply addOutput_appends in Hadd. subst mid.
    rewrite (IH _ Hrest). cbn. now rewrite <- app_assoc.
Qed.

(** With every input complete, [createTx] is the library's checks followed by
    the draft of the arguments. *)
Lemma createTxPsbt_complete (args : CreateTxArgs.t) :
  Forall (fun input => missingInputData input = None) (CreateTxArgs.inputs args) ->
  createTxPsbt args = (_ <- libraryChecks (draftOf args) ;; Ok (draftOf args)).
Proof.
  intros Hall. unfold createTxPsbt, libraryChecks, draftOf. cbn [Psbt.inputs Psbt.outputs].
  rewrite (inputs_loop_complete _ _ _ Hall).
  destruct (forEach addInput _ Psbt.empty) as [mid|] eqn:Hin; cbn; [|reflexivity].
  rewrite outputs_loop_adds.
  destruct (forEach addOutput _ mid) as [fin|] eqn:Hout; cbn; [|reflexivity].
  apply addInput_loop_ok in Hin. subst mid.
  apply addOutput_loop_ok in Hout. subst fin. reflexivity.
Qed.

(** At the first input that lacks data, [createTx] throws the message of that
    input, unless the library refused an input before it. *)
Lemma createTxPsbt_incomplete (args : CreateTxArgs.t)
  (pre post : list TxInput.t) (bad : TxInput.t) (msg : string) :
  CreateTxArgs.inputs args = (pre ++ bad :: post)%list ->
  Forall (fun input => missingInputData input = None) pre ->
  missingInputData bad = Some msg ->
  createTxPsbt args =
    (_ <- forEach addInput (map (psbtInputOf (sequenceOf (CreateTxArgs.rbf args))) pre) Psbt.empty ;;
     Throw msg).
Proof.
  intros Hsplit Hpre Hbad. unfold createTxPsbt. rewrite Hsplit, forEach_app.
  rewrite (inputs_loop_complete _ _ _ Hpre).
  destruct (forEach addInput _ Psbt.empty) as [mid|]; cbn; [|reflexivity].
  now rewrite createTxInput_cases, Hbad.
Qed.

End CreateTxChecks.

(** C3.  What [createTx] checks of an input, by its kind and in order.  At
    the first input that lacks data it throws, and returns no draft: the
    message for a legacy input without [prevTx], or the one message for a
    segwit input without [prevScriptPubkey] or without [value] (only a
    refusal by the library of an earlier input comes before it).  The check
    of [redeemScript] is not there: for [createTx] a segwit input without it
    lacks nothing, whatever output it spends, where [TxInput] calls the field
    required for wrapped segwit.  When no input lacks data the result is the
    draft with the inputs and outputs in the order of the arguments, once the
    library's own checks pass. *)
Theorem createTx_checks_required_fields (C : Collaborators) (args : CreateTxArgs.t) :
  (forall pre bad post msg,
      CreateTxArgs.inputs args = (pre ++ bad :: post)%list ->
      Forall (fun input => missingInputData input = None) pre ->
      missingInputData bad = Some msg ->
      createTx args =
        (_ <- forEach addInput
                (map (psbtInputOf (sequenceOf (CreateTxArgs.rbf args))) pre) Psbt.empty ;;
         Throw msg)
      /\ isOk (createTx args) = false)
  /\ (forall txid index prevTx script redeemScript value,
        missingInputData
          (TxInput.mk TransactionInputTypeEnum.Legacy txid index None script redeemScript value)
        = Some "legacy inputs require the full previous transaction to be passed"
        /\ missingInputData
             (TxInput.mk TransactionInputTypeEnum.Segwit txid index prevTx None redeemScript value)
           = Some "segwit inputs require a script pubkey and value to be passed"
        /\ missingInputData
             (TxInput.mk TransactionInputTypeEnum.Segwit txid index prevTx script redeemScript None)
           = Some "segwit inputs require a script pubkey and value to be passed")
  /\ (forall txid index prevTx script value,
        missingInputData
          (TxInput.mk TransactionInputTypeEnum.Segwit txid index prevTx (Some script) None
             (Some value))
        = None)
  /\ (Forall (fun input => missingInputData input = None) (CreateTxArgs.inputs args) ->
      createTx args = (_ <- libraryChecks (draftOf args) ;; Ok (toBase64 (draftOf args))))
  /\ (forall psbt, createTxPsbt args = Ok psbt -> psbt = draftOf args).
Proof.
  split; [|split; [|split; [|split]]].
  - intros pre bad post msg Hsplit Hpre Hbad. unfold createTx.
    rewrite (createTxPsbt_incomplete args pre post bad msg Hsplit Hpre Hbad).
    destruct (forEach addInput _ Psbt.empty); split; reflexivity.
  - intros txid index prevTx script redeemScript value. cbn.
    split; [reflexivity|]. split; [reflexivity|]. now destruct script.
  - reflexivity.
  - intros Hall. unfold createTx. rewrite (createTxPsbt_complete args Hall).
    now destruct (libraryChecks (draftOf args)).
  - intros psbt Hok. now apply createTxPsbt_ok in Hok as [-> _].
Qed.

(** C3, on a list whose second input lacks its value and on a complete list. *)
Lemma createTx_checks_required_fields_witness :
  createTx (C := Fixture.collaborators)
    (CreateTxArgs.mk NetworkEnum.Mainnet
       [Examples.witnessInput; Examples.witnessInputWithoutValue] [Examples.payment] false)
  = Throw "segwit inputs require a script pubkey and value to be passed"
  /\ createTx (C := Fixture.collaborators)
       (CreateTxArgs.mk NetworkEnum.Mainnet
          [Examples.witnessInput; Examples.legacyInput] [Examples.payment] false)
     = Ok "psbt:2:1".
Proof.
  split.
  - pose proof (createTx_checks_required_fields Fixture.collaborators
                  (CreateTxArgs.mk NetworkEnum.Mainnet
                     [Examples.witnessInput; Examples.witnessInputWithoutValue]
                     [Examples.payment] false)) as (Hbad & _).
    destruct (Hbad [Examples.witnessInput] Examples.witnessInputWithoutValue [] _
                eq_refl ltac:(repeat constructor) eq_refl) as [Heq _].
    exact Heq.
  - pose proof (createTx_checks_required_fields Fixture.collaborators
                  (CreateTxArgs.mk NetworkEnum.Mainnet
                     [Examples.witnessInput; Examples.legacyInput]
                     [Examples.payment] false)) as (_ & _ & _ & Hgood & _).
    apply Hgood. repeat constructor.
Defined.

(** C3, the input that shows the missing check: a segwit input that spends a
    script-hash output and has no redeem script is added to the draft as a
    plain witness input, and the draft is returned. *)
Lemma createTx_takes_wrapped_input_without_redeemScript :
  isScriptHashScript "a914000102030405060708090a0b0c0d0e0f1011121387" = true
  /\ TxInput.prevScriptPubkey Examples.wrappedInputWithoutRedeemScript
     = Some "a914000102030405060708090a0b0c0d0e0f1011121387"
  /\ TxInput.redeemScript Examples.wrappedInputWithoutRedeemScript = None
  /\ createTx (C := Fixture.collaborators)
       (CreateTxArgs.mk NetworkEnum.Mainnet
          [Examples.wrappedInputWithoutRedeemScript] [Examples.payment] false)
     = Ok "psbt:1:1"
  /\ option_map (fun psbt => map PsbtInput.redeemScript (Psbt.inputs psbt))
       (tryCatch (createTxPsbt (C := Fixture.collaborators)
                    (CreateTxArgs.mk NetworkEnum.Mainnet
                       [Examples.wrappedInputWithoutRedeemScript] [Examples.payment] false)))
     = Some [None].
Proof. repeat split; vm_compute; reflexivity. Qed.

(** ** Version bytes *)

Section VersionBytes.
Context {C : Collaborators}.

Lemma bip32NetworkFromCoinPrefix_cases
  (sigType : BIP43PurposeTypeEnum.t) (coinPrefixes : CoinPrefixes.t) (segwit : bool) :
  match versionBytesOf sigType coinPrefixes with
  | Some bytes =>
      exists network,
        bip32NetworkFromCoinPrefix sigType coinPrefixes segwit = Ok network
        /\ BitcoinJSNetwork.bip32 network = bytes
  | None => bip32NetworkFromCoinPrefix sigType coinPrefixes segwit = Throw (unsupportedPurpose sigType)
  end.
Proof.
  unfold versionBytesOf, bip32NetworkFromCoinPrefix.
  destruct sigType; cbn.
  - eexists; split; reflexivity.
  - destruct (CoinPrefixes.segwitXPub coinPrefixes), (CoinPrefixes.segwitXPriv coinPrefixes);
      cbn; try reflexivity.
    eexists; split; reflexivity.
  - destruct (CoinPrefixes.wrappedSegwitXPub coinPrefixes),
      (CoinPrefixes.wrappedSegwitXPriv coinPrefixes); cbn; try reflexivity.
    eexists; split; reflexivity.
Qed.

Lemma bip32NetworkFromCoin_constants
  (networkType : NetworkEnum.t) (coinString : string) (sigType : BIP43PurposeTypeEnum.t) :
  bip32NetworkFromCoin networkType coinString sigType =
    (coin <- getCoinFromString coinString ;;
     bip32NetworkFromCoinPrefix sigType (constantsOf networkType coin) (Coin.segwit coin)).
Proof. unfold bip32NetworkFromCoin. now destruct networkType. Qed.

Lemma lacksVersionBytes_none (sigType : BIP43PurposeTypeEnum.t) (coinPrefixes : CoinPrefixes.t) :
  lacksVersionBytes sigType coinPrefixes -> versionBytesOf sigType coinPrefixes = None.
Proof.
  destruct sigType; cbn; [tauto| |].
  - intros [-> | Hpriv]; [reflexivity|]. rewrite Hpriv.
    now destruct (CoinPrefixes.segwitXPub coinPrefixes).
  - intros [-> | Hpriv]; [reflexivity|]. rewrite Hpriv.
    now destruct (CoinPrefixes.wrappedSegwitXPub coinPrefixes).
Qed.

Lemma registersVersionBytes_some (sigType : BIP43PurposeTypeEnum.t)
  (coinPrefixes : CoinPrefixes.t) (bytes : Bip32.t) :
  registersVersionBytes sigType coinPrefixes bytes ->
  versionBytesOf sigType coinPrefixes = Some bytes.
Proof.
  destruct bytes as [public private].
  destruct sigType; cbn; intros [Hpub Hpriv]; now rewrite Hpub, Hpriv.
Qed.

End VersionBytes.

(** C4.  For a coin whose prefixes (of the network asked for) lack the version
    bytes of the segwit or wrapped-segwit purpose asked for, the network
    selection throws the error of that purpose and returns no network, and so
    does every operation that selects the network by a purpose:
    [xprivToXPub], [xpubToPubkey], [xprivToPrivateKey] and, once the seed has
    given a root, [mnemonicToXPriv], which returns no key in any case.  For a
    coin that registers a pair for the purpose, the bip32 pair of the
    selected network is that pair. *)
Theorem unsupported_purpose_is_refused (C : Collaborators)
  (networkType : NetworkEnum.t) (coinString : string) (coin : Coin.t)
  (sigType : BIP43PurposeTypeEnum.t) :
  getCoinFromString coinString = Ok coin ->
  (lacksVersionBytes sigType (constantsOf networkType coin) ->
   bip32NetworkFromCoin networkType coinString sigType = Throw (unsupportedPurpose sigType)
   /\ (forall xpriv,
         xprivToXPub (XPrivToXPubArgs.mk xpriv networkType sigType coinString)
         = Throw (unsupportedPurpose sigType))
   /\ (forall xpub change index,
         xpubToPubkey (XPubToPubkeyArgs.mk xpub networkType sigType change index coinString)
         = Throw (unsupportedPurpose sigType))
   /\ (forall xpriv change index,
         xprivToPrivateKey
           (XPrivToPrivateKeyArgs.mk xpriv networkType sigType change index coinString)
         = Throw (unsupportedPurpose sigType))
   /\ (forall mnemonic path,
         let args := MnemonicToXPrivArgs.mk mnemonic path networkType sigType coinString in
         isOk (mnemonicToXPriv args) = false
         /\ (isOk (fromSeed (mnemonicToSeedSync mnemonic)) = true ->
             mnemonicToXPriv args = Throw (unsupportedPurpose sigType))))
  /\ (forall bytes,
        registersVersionBytes sigType (constantsOf networkType coin) bytes ->
        exists network,
          bip32NetworkFromCoin networkType coinString sigType = Ok network
          /\ BitcoinJSNetwork.bip32 network = bytes).
Proof.
  intros Hcoin. split.
  - intros Hlacks.
    assert (Hthrow : bip32NetworkFromCoin networkType coinString sigType
                     = Throw (unsupportedPurpose sigType)).
    { rewrite bip32NetworkFromCoin_constants. bind_ok Hcoin.
      pose proof (bip32NetworkFromCoinPrefix_cases sigType (constantsOf networkType coin)
                    (Coin.segwit coin)) as Hcases.
      rewrite (lacksVersionBytes_none _ _ Hlacks) in Hcases.
      destruct sigType; [destruct Hlacks | exact Hcases | exact Hcases]. }
    split; [exact Hthrow|].
    split; [intros; unfold xprivToXPub; cbn; now rewrite Hthrow|].
    split; [intros; unfold xpubToPubkey; cbn; now rewrite Hthrow|].
    split; [intros; unfold xprivToPrivateKey; cbn; now rewrite Hthrow|].
    intros mnemonic path args. unfold mnemonicToXPriv, args; cbn.
    destruct (fromSeed (mnemonicToSeedSync mnemonic)); cbn; rewrite ?Hthrow; cbn.
    + split; reflexivity.
    + split; [reflexivity | discriminate].
  - intros bytes Hbytes.
    rewrite bip32NetworkFromCoin_constants. bind_ok Hcoin.
    pose proof (bip32NetworkFromCoinPrefix_cases sigType (constantsOf networkType coin)
                  (Coin.segwit coin)) as Hcases.
    now rewrite (registersVersionBytes_some _ _ _ Hbytes) in Hcases.
Qed.

(** C4, on a coin without witness version bytes and on one that has them. *)
Lemma unsupported_purpose_is_refused_witness :
  (xprivToXPub (C := Fixture.collaborators)
     (XPrivToXPubArgs.mk "xprvAccount" NetworkEnum.Mainnet BIP43PurposeTypeEnum.Segwit
        "bitcoincash")
   = Throw "segwit xpub prefix is undefined"
   /\ mnemonicToXPriv (C := Fixture.collaborators)
        (MnemonicToXPrivArgs.mk "abandon abandon about" "m/49'/145'/0'" NetworkEnum.Mainnet
           BIP43PurposeTypeEnum.Segwit "bitcoincash")
      = Throw "segwit xpub prefix is undefined")
  /\ exists network,
       bip32NetworkFromCoin (C := Fixture.collaborators) NetworkEnum.Testnet "bitcoin"
         BIP43PurposeTypeEnum.WrappedSegwit = Ok network
       /\ BitcoinJSNetwork.bip32 network = Bip32.mk 0x044a5262 0x044a4e28.
Proof.
  split.
  - destruct (proj1 (unsupported_purpose_is_refused Fixture.collaborators NetworkEnum.Mainnet
                       "bitcoincash" _ BIP43PurposeTypeEnum.Segwit eq_refl) (or_introl eq_refl))
      as (_ & Hxpub & _ & _ & Hmnemonic).
    split; [apply Hxpub|].
    apply (Hmnemonic "abandon abandon about" "m/49'/145'/0'"). reflexivity.
  - apply (proj2 (unsupported_purpose_is_refused Fixture.collaborators NetworkEnum.Testnet
                    "bitcoin" _ BIP43PurposeTypeEnum.WrappedSegwit eq_refl)).
    split; reflexivity.
Defined.

(** ** Guessing the address type *)

(** The type [firstDecoding] returns is the answer of a decoder of the list
    before which every decoder refused the address. *)
Lemma firstDecoding_first (decoders : list Decoder) (address : string)
  (network : BitcoinJSNetwork.t) (t : AddressTypeEnum.t) :
  firstDecoding decoders address network = Some t ->
  exists before decoder after,
    decoders = (before ++ decoder :: after)%list
    /\ decoder address network = Some t
    /\ Forall (fun earlier => earlier address network = None) before.
Proof.
  induction decoders as [|decoder rest IH]; cbn; [discriminate|].
  destruct (decoder address network) as [t'|] eqn:Hd.
  - intros [= ->]. exists [], decoder, rest. repeat split; auto.
  - intros Hrest. destruct (IH Hrest) as (before & d & after & -> & Hd' & Hall).
    exists (decoder :: before), d, after. repeat split; auto.
Qed.

Lemma firstDecoding_none (decoders : list Decoder) (address : string)
  (network : BitcoinJSNetwork.t) :
  firstDecoding decoders address network = None <->
  Forall (fun decoder => decoder address network = None) decoders.
Proof.
  induction decoders as [|decoder rest IH]; cbn.
  - split; auto.
  - destruct (decoder address network) eqn:Hd.
    + split; [discriminate|]. intros Hall. inversion Hall; congruence.
    + rewrite IH. split; [auto | intros Hall; now inversion Hall].
Qed.

Section Guess.
Context {C : Collaborators}.

Lemma guessAddressTypeFromAddress_given (address : string) (network : BitcoinJSNetwork.t)
  (t : AddressTypeEnum.t) :
  guessAddressTypeFromAddress address network (Some t) = Ok t.
Proof. reflexivity. Qed.

Lemma guessAddressTypeFromAddress_priority (address : string) (network : BitcoinJSNetwork.t) :
  guessAddressTypeFromAddress address network None =
    match firstDecoding decodersInPriorityOrder address network with
    | Some t => Ok t
    | None => Throw ("Could not determine address type of " ++ address)
    end.
Proof.
  unfold guessAddressTypeFromAddress, decodersInPriorityOrder, firstDecoding,
    decodesWith, altEncoded.
  destruct (payments_p2pkh _); cbn; [reflexivity|].
  destruct (payments_p2sh _); cbn; [reflexivity|].
  destruct (payments_p2wsh _); cbn; [reflexivity|].
  destruct (payments_p2wpkh _); cbn; [reflexivity|].
  destruct (cashAddressToHash address) as [info|]; [|reflexivity].
  now destruct (CashAddressInfo.type info).
Qed.

End Guess.

Section GuessCash.
Context {C : Collaborators}.

Lemma addressToScriptPubkey_guessed_first (address : string) (networkType : NetworkEnum.t)
  (coinString : string) (network : BitcoinJSNetwork.t) :
  bip32NetworkFromCoin networkType coinString BIP43PurposeTypeEnum.Legacy = Ok network ->
  addressToScriptPubkey (AddressToScriptPubkeyArgs.mk address networkType None coinString)
  = match firstDecoding decodersInPriorityOrder address network with
    | Some t =>
        addressToScriptPubkey
          (AddressToScriptPubkeyArgs.mk address networkType (Some t) coinString)
    | None => Throw ("Could not determine address type of " ++ address)
    end.
Proof.
  intros Hnet. unfold addressToScriptPubkey.
  cbn [AddressToScriptPubkeyArgs.address AddressToScriptPubkeyArgs.network
       AddressToScriptPubkeyArgs.addressType AddressToScriptPubkeyArgs.coin].
  bind_ok Hnet. rewrite guessAddressTypeFromAddress_priority.
  destruct (firstDecoding decodersInPriorityOrder address network) as [t|]; reflexivity.
Qed.

(** An address the codec of the alt-encoded form reads is guessed as such on
    every network on which the four decoders before it refuse it. *)
Lemma firstDecoding_cash (address : string) (network : BitcoinJSNetwork.t)
  (info : CashAddressInfo.t) :
  cashAddressToHash address = Ok info ->
  isOk (payments_p2pkh (Payment.ofAddress address network)) = false ->
  isOk (payments_p2sh (Payment.ofAddress address network)) = false ->
  isOk (payments_p2wsh (Payment.ofAddress address network)) = false ->
  isOk (payments_p2wpkh (Payment.ofAddress address network)) = false ->
  firstDecoding decodersInPriorityOrder address network = Some (cashTypeOf info).
Proof.
  intros Hcash H1 H2 H3 H4.
  unfold decodersInPriorityOrder, firstDecoding, decodesWith, altEncoded, cashTypeOf.
  now rewrite H1, H2, H3, H4, Hcash.
Qed.

Lemma addressToScriptPubkey_cash (address : string) (networkType : NetworkEnum.t)
  (coinString : string) (network : BitcoinJSNetwork.t) (info : CashAddressInfo.t) :
  bip32NetworkFromCoin networkType coinString BIP43PurposeTypeEnum.Legacy = Ok network ->
  cashAddressToHash address = Ok info ->
  addressToScriptPubkey
    (AddressToScriptPubkeyArgs.mk address networkType (Some (cashTypeOf info)) coinString)
  = scriptHashToScriptPubkey
      (ScriptHashToScriptPubkeyArgs.mk (toHex (CashAddressInfo.scriptHash info))
         (plainTypeOf info) networkType coinString).
Proof.
  intros Hnet Hcash. unfold addressToScriptPubkey, cashTypeOf, plainTypeOf.
  cbn [AddressToScriptPubkeyArgs.address AddressToScriptPubkeyArgs.network
       AddressToScriptPubkeyArgs.addressType AddressToScriptPubkeyArgs.coin].
  bind_ok Hnet. rewrite guessAddressTypeFromAddress_given. cbn [bind].
  destruct (CashAddressInfo.type info); now rewrite Hcash.
Qed.

End GuessCash.

(** C5.  With [addressType] left out, [addressToScriptPubkey] takes the type
    the first accepting decoder gives, the decoders being tried in the order
    pubkeyhash, scripthash, witness-scripthash, witness-pubkeyhash,
    alt-encoded, and converts the address as for that type; when no decoder
    accepts the address it throws that the type could not be determined.  The
    first four decoders are given the network of the coin.  The alt-encoded
    one is not: [cashAddressToHash] is given the address alone, so an address
    it reads is taken for every coin and network whose four decoders refuse
    it, whatever its prefix, and is converted from its hash. *)
Theorem alt_encoded_address_is_taken_on_any_network (C : Collaborators)
  (address : string) (networkType : NetworkEnum.t) (coinString : string)
  (network : BitcoinJSNetwork.t) :
  bip32NetworkFromCoin networkType coinString BIP43PurposeTypeEnum.Legacy = Ok network ->
  guessAddressTypeFromAddress address network None
  = match firstDecoding decodersInPriorityOrder address network with
    | Some t => Ok t
    | None => Throw ("Could not determine address type of " ++ address)
    end
  /\ addressToScriptPubkey (AddressToScriptPubkeyArgs.mk address networkType None coinString)
     = match firstDecoding decodersInPriorityOrder address network with
       | Some t =>
           addressToScriptPubkey
             (AddressToScriptPubkeyArgs.mk address networkType (Some t) coinString)
       | None => Throw ("Could not determine address type of " ++ address)
       end
  /\ (forall t,
        firstDecoding decodersInPriorityOrder address network = Some t ->
        exists before decoder after,
          decodersInPriorityOrder = (before ++ decoder :: after)%list
          /\ decoder address network = Some t
          /\ Forall (fun earlier => earlier address network = None) before)
  /\ (forall info,
        cashAddressToHash address = Ok info ->
        isOk (payments_p2pkh (Payment.ofAddress address network)) = false ->
        isOk (payments_p2sh (Payment.ofAddress address network)) = false ->
        isOk (payments_p2wsh (Payment.ofAddress address network)) = false ->
        isOk (payments_p2wpkh (Payment.ofAddress address network)) = false ->
        guessAddressTypeFromAddress address network None = Ok (cashTypeOf info)
        /\ addressToScriptPubkey
             (AddressToScriptPubkeyArgs.mk address networkType None coinString)
           = scriptHashToScriptPubkey
               (ScriptHashToScriptPubkeyArgs.mk (toHex (CashAddressInfo.scriptHash info))
                  (plainTypeOf info) networkType coinString)).
Proof.
  intros Hnet. split; [apply guessAddressTypeFromAddress_priority|].
  split; [exact (addressToScriptPubkey_guessed_first address networkType coinString network Hnet)|].
  split; [intros t; apply firstDecoding_first|].
  intros info Hcash H1 H2 H3 H4.
  pose proof (firstDecoding_cash address network info Hcash H1 H2 H3 H4) as Hfirst.
  split.
  - now rewrite guessAddressTypeFromAddress_priority, Hfirst.
  - rewrite (addressToScriptPubkey_guessed_first address networkType coinString network Hnet).
    rewrite Hfirst.
    exact (addressToScriptPubkey_cash address networkType coinString network info Hnet Hcash).
Qed.

(** C5, on the address [scriptPubkeyToAddress] writes for a pubkeyhash script
    on the test network of the coin with the alt-encoded form: it is taken on
    the main network of that coin, and on the main network of a coin that
    does not have the form. *)
Lemma alt_encoded_address_is_taken_on_any_network_witness :
  scriptPubkeyToAddress (C := Fixture.collaborators)
    (ScriptPubkeyToAddressArgs.mk "76a914000102030405060708090a0b0c0d0e0f1011121388ac"
       AddressTypeEnum.cashaddrP2PKH NetworkEnum.Testnet "bitcoincash")
  = Ok "bchtest:q000102030405060708090a0b0c0d0e0f10111213"
  /\ addressToScriptPubkey (C := Fixture.collaborators)
       (AddressToScriptPubkeyArgs.mk "bchtest:q000102030405060708090a0b0c0d0e0f10111213"
          NetworkEnum.Mainnet None "bitcoincash")
     = Ok "76a914000102030405060708090a0b0c0d0e0f1011121388ac"
  /\ addressToScriptPubkey (C := Fixture.collaborators)
       (AddressToScriptPubkeyArgs.mk "bchtest:q000102030405060708090a0b0c0d0e0f10111213"
          NetworkEnum.Mainnet None "bitcoin")
     = Ok "76a914000102030405060708090a0b0c0d0e0f1011121388ac"
  /\ addressToScriptPubkey (C := Fixture.collaborators)
       (AddressToScriptPubkeyArgs.mk "bc1000102030405060708090a0b0c0d0e0f10111213"
          NetworkEnum.Mainnet None "bitcoin")
     = Ok "0014000102030405060708090a0b0c0d0e0f10111213"
  /\ addressToScriptPubkey (C := Fixture.collaborators)
       (AddressToScriptPubkeyArgs.mk "not an address" NetworkEnum.Mainnet None "bitcoin")
     = Throw "Could not determine address type of not an address".
Proof.
  split; [vm_compute; reflexivity|]. split; [|split; [|split]].
  - destruct (alt_encoded_address_is_taken_on_any_network Fixture.collaborators
                "bchtest:q000102030405060708090a0b0c0d0e0f10111213"
                NetworkEnum.Mainnet "bitcoincash" _ eq_refl) as (_ & _ & _ & Hcash).
    destruct (Hcash _ eq_refl eq_refl eq_refl eq_refl eq_refl) as [_ Hscript].
    rewrite Hscript. vm_compute; reflexivity.
  - destruct (alt_encoded_address_is_taken_on_any_network Fixture.collaborators
                "bchtest:q000102030405060708090a0b0c0d0e0f10111213"
                NetworkEnum.Mainnet "bitcoin" _ eq_refl) as (_ & _ & _ & Hcash).
    destruct (Hcash _ eq_refl eq_refl eq_refl eq_refl eq_refl) as [_ Hscript].
    rewrite Hscript. vm_compute; reflexivity.
  - exact (proj1 (proj2 (alt_encoded_address_is_taken_on_any_network Fixture.collaborators
                           "bc1000102030405060708090a0b0c0d0e0f10111213"
                           NetworkEnum.Mainnet "bitcoin" _ eq_refl))).
  - exact (proj1 (proj2 (alt_encoded_address_is_taken_on_any_network Fixture.collaborators
                           "not an address" NetworkEnum.Mainnet "bitcoin" _ eq_refl))).
Defined.

(** ** Addresses and locking scripts *)

Section RoundTrip.
Context {C : Collaborators}.

Variables (networkType : NetworkEnum.t) (coinString : string) (network : BitcoinJSNetwork.t).
Hypothesis Hnetwork :
  bip32NetworkFromCoin networkType coinString BIP43PurposeTypeEnum.Legacy = Ok network.

Ltac run_network :=
  cbn [AddressToScriptPubkeyArgs.address AddressToScriptPubkeyArgs.network
       AddressToScriptPubkeyArgs.addressType AddressToScriptPubkeyArgs.coin
       ScriptPubkeyToAddressArgs.scriptPubkey ScriptPubkeyToAddressArgs.network
       ScriptPubkeyToAddressArgs.addressType ScriptPubkeyToAddressArgs.coin
       ScriptPubkeyToScriptHashArgs.scriptPubkey ScriptPubkeyToScriptHashArgs.network
       ScriptPubkeyToScriptHashArgs.addressType ScriptPubkeyToScriptHashArgs.coin
       ScriptHashToScriptPubkeyArgs.scriptHash ScriptHashToScriptPubkeyArgs.network
       ScriptHashToScriptPubkeyArgs.addressType ScriptHashToScriptPubkeyArgs.coin];
  rewrite ?Hnetwork; cbn [bind guessAddressTypeFromAddress].

(** Through one payment creator of the library. *)
Lemma roundtrip_reencodes (payment : PaymentCreator) (address : string) :
  reencodes payment address network ->
  exists o,
    (p <- payment (Payment.ofAddress address network) ;;
     match Payment.output p with
     | None => Throw "failed converting address to scriptPubkey"
     | Some scriptPubkey => Ok (toHex scriptPubkey)
     end) = Ok (toHex o)
    /\ (p <- payment (Payment.ofOutput (fromHex (toHex o)) network) ;;
        match Payment.address p with
        | None => Throw "failed converting scriptPubkey to address"
        | Some address => Ok address
        end) = Ok address.
Proof.
  intros (p & o & p' & Hp & Ho & Hp' & Ha). exists o.
  rewrite Hp; cbn [bind]. rewrite Ho. split; [reflexivity|].
  rewrite fromHex_toHex, Hp'; cbn [bind]. now rewrite Ha.
Qed.

(** Through the checksummed codec and the hash template of the library. *)
Lemma roundtrip_recodes (payment : PaymentCreator) (tag : cashaddrTypeEnum.t) (address : string) :
  hashOutputInverse payment ->
  recodes payment tag address network networkType ->
  exists o,
    (info <- cashAddressToHash address ;;
     p <- payment (Payment.ofHash (fromHex (toHex (CashAddressInfo.scriptHash info))) network) ;;
     match Payment.output p with
     | None => Throw "failed converting scriptPubkey to address"
     | Some scriptPubkey => Ok (toHex scriptPubkey)
     end) = Ok (toHex o)
    /\ (h <- (p <- payment (Payment.ofOutput (fromHex (toHex o)) network) ;;
              match Payment.hash p with
              | None => Throw "failed converting scriptPubkey to address"
              | Some scriptHash => Ok (toHex scriptHash)
              end) ;;
        hashToCashAddress h tag (prefixOf networkType)) = Ok address.
Proof.
  intros Hinv (info & p & o & Hinfo & Htag & Hp & Ho & Hcodec). exists o.
  rewrite Hinfo; cbn [bind]. rewrite fromHex_toHex, Hp; cbn [bind]. rewrite Ho.
  split; [reflexivity|].
  destruct (Hinv _ _ _ _ Hp Ho) as (p' & Hp' & Hh).
  rewrite fromHex_toHex, Hp'; cbn [bind]. rewrite Hh; cbn [bind]. exact Hcodec.
Qed.

Lemma roundtrip_valid (t : AddressTypeEnum.t) (address : string) :
  hashOutputInverse payments_p2pkh ->
  hashOutputInverse payments_p2sh ->
  t <> AddressTypeEnum.p2wshp2sh ->
  validAddress t address network networkType ->
  exists scriptPubkey,
    addressToScriptPubkey (AddressToScriptPubkeyArgs.mk address networkType (Some t) coinString)
    = Ok scriptPubkey
    /\ scriptPubkeyToAddress (ScriptPubkeyToAddressArgs.mk scriptPubkey t networkType coinString)
       = Ok address.
Proof.
  intros Hpkh Hsh Hnot Hvalid.
  unfold addressToScriptPubkey, scriptPubkeyToAddress, scriptHashToScriptPubkey,
    scriptPubkeyToScriptHash.
  destruct t; cbn [validAddress] in Hvalid; try congruence.
  1-5: destruct (roundtrip_reencodes _ _ Hvalid) as (o & Hto & Hfrom);
       exists (toHex o); run_network; rewrite Hto; split; [reflexivity | exact Hfrom].
  - destruct (roundtrip_recodes _ _ _ Hpkh Hvalid) as (o & Hto & Hfrom).
    exists (toHex o). run_network. split; [exact Hto|].
    destruct networkType; cbn [prefixOf] in Hfrom; run_network; exact Hfrom.
  - destruct (roundtrip_recodes _ _ _ Hsh Hvalid) as (o & Hto & Hfrom).
    exists (toHex o). run_network. split; [exact Hto|].
    destruct networkType; cbn [prefixOf] in Hfrom; run_network; exact Hfrom.
Qed.

End RoundTrip.

(** The payment creators of [Fixture] read back the hash a script was built
    from. *)
Lemma fixture_hashOutputInverse (before : Buffer) (size : nat) (after : Buffer)
  (decode : BitcoinJSNetwork.t -> string -> result Buffer)
  (encode : BitcoinJSNetwork.t -> Buffer -> string) :
  hashOutputInverse (Fixture.payment before size after decode encode).
Proof.
  intros h network p o Hp Ho. unfold Fixture.payment in *.
  cbn [Payment.ofHash Payment.ofOutput Payment.network Payment.address Payment.hash
       Payment.output] in *.
  destruct (List.length h =? size)%nat eqn:Hlen; cbn [bind] in Hp; [|discriminate].
  injection Hp as <-. cbn [Payment.output] in Ho. injection Ho as <-.
  apply Nat.eqb_eq in Hlen. subst size.
  unfold Fixture.templateOf.
  rewrite skipn_app, skipn_all, Nat.sub_diag. cbn [skipn app].
  rewrite firstn_app, firstn_all, Nat.sub_diag. cbn [firstn]. rewrite app_nil_r.
  unfold Fixture.bufEqb. rewrite String.eqb_refl, Nat.eqb_refl. cbn.
  eexists. split; reflexivity.
Qed.

(** With the type left out, [addressToScriptPubkey] does what it does for
    the type it guesses. *)
Lemma addressToScriptPubkey_guessed (C : Collaborators)
  (t : AddressTypeEnum.t) (address : string)
  (networkType : NetworkEnum.t) (coinString : string) (network : BitcoinJSNetwork.t) :
  bip32NetworkFromCoin networkType coinString BIP43PurposeTypeEnum.Legacy = Ok network ->
  guessAddressTypeFromAddress address network None = Ok t ->
  addressToScriptPubkey (AddressToScriptPubkeyArgs.mk address networkType None coinString)
  = addressToScriptPubkey (AddressToScriptPubkeyArgs.mk address networkType (Some t) coinString).
Proof.
  intros Hnet Hguess. unfold addressToScriptPubkey.
  cbn [AddressToScriptPubkeyArgs.address AddressToScriptPubkeyArgs.network
       AddressToScriptPubkeyArgs.addressType AddressToScriptPubkeyArgs.coin].
  bind_ok Hnet. rewrite Hguess. reflexivity.
Qed.

(** C6 (amended).  For every address type but [p2wshp2sh], every coin and
    network the coin table knows and every valid address of the type,
    [scriptPubkeyToAddress] of the script [addressToScriptPubkey] returns for
    the address, both called with that type, is the address; so it is with
    the type left out in [addressToScriptPubkey] when the type guessed is that
    type.  The payment library is taken to read back from a script the hash
    it built it from. *)
Theorem address_script_roundtrip (C : Collaborators)
  (t : AddressTypeEnum.t) (address : string)
  (networkType : NetworkEnum.t) (coinString : string) (network : BitcoinJSNetwork.t) :
  hashOutputInverse payments_p2pkh ->
  hashOutputInverse payments_p2sh ->
  bip32NetworkFromCoin networkType coinString BIP43PurposeTypeEnum.Legacy = Ok network ->
  t <> AddressTypeEnum.p2wshp2sh ->
  validAddress t address network networkType ->
  exists scriptPubkey,
    addressToScriptPubkey (AddressToScriptPubkeyArgs.mk address networkType (Some t) coinString)
    = Ok scriptPubkey
    /\ scriptPubkeyToAddress (ScriptPubkeyToAddressArgs.mk scriptPubkey t networkType coinString)
       = Ok address
    /\ (guessAddressTypeFromAddress address network None = Ok t ->
        addressToScriptPubkey (AddressToScriptPubkeyArgs.mk address networkType None coinString)
        = Ok scriptPubkey).
Proof.
  intros Hpkh Hsh Hnet Hnot Hvalid.
  destruct (roundtrip_valid networkType coinString network Hnet t address Hpkh Hsh Hnot Hvalid)
    as (scriptPubkey & Hto & Hfrom).
  exists scriptPubkey. split; [exact Hto|]. split; [exact Hfrom|].
  intros Hguess.
  now rewrite (addressToScriptPubkey_guessed C t address networkType coinString network Hnet Hguess).
Qed.

(** C6, on a checksummed pubkeyhash address of the test network and on a
    witness-scripthash address. *)
Lemma address_script_roundtrip_witness :
  (exists scriptPubkey,
      addressToScriptPubkey (C := Fixture.collaborators)
        (AddressToScriptPubkeyArgs.mk "bchtest:q000102030405060708090a0b0c0d0e0f10111213"
           NetworkEnum.Testnet (Some AddressTypeEnum.cashaddrP2PKH) "bitcoincash")
      = Ok scriptPubkey
      /\ scriptPubkeyToAddress (C := Fixture.collaborators)
           (ScriptPubkeyToAddressArgs.mk scriptPubkey AddressTypeEnum.cashaddrP2PKH
              NetworkEnum.Testnet "bitcoincash")
         = Ok "bchtest:q000102030405060708090a0b0c0d0e0f10111213"
      /\ addressToScriptPubkey (C := Fixture.collaborators)
           (AddressToScriptPubkeyArgs.mk "bchtest:q000102030405060708090a0b0c0d0e0f10111213"
              NetworkEnum.Testnet None "bitcoincash")
         = Ok scriptPubkey)
  /\ (exists scriptPubkey,
        addressToScriptPubkey (C := Fixture.collaborators)
          (AddressToScriptPubkeyArgs.mk
             "bc1000102030405060708090a0b0c0d0e0f101112131415161718191a1b1c1d1e1f"
             NetworkEnum.Mainnet (Some AddressTypeEnum.p2wsh) "bitcoin")
        = Ok scriptPubkey
        /\ scriptPubkeyToAddress (C := Fixture.collaborators)
             (ScriptPubkeyToAddressArgs.mk scriptPubkey AddressTypeEnum.p2wsh
                NetworkEnum.Mainnet "bitcoin")
           = Ok "bc1000102030405060708090a0b0c0d0e0f101112131415161718191a1b1c1d1e1f"
        /\ addressToScriptPubkey (C := Fixture.collaborators)
             (AddressToScriptPubkeyArgs.mk
                "bc1000102030405060708090a0b0c0d0e0f101112131415161718191a1b1c1d1e1f"
                NetworkEnum.Mainnet None "bitcoin")
           = Ok scriptPubkey).
Proof.
  split.
  - destruct (address_script_roundtrip Fixture.collaborators AddressTypeEnum.cashaddrP2PKH
                "bchtest:q000102030405060708090a0b0c0d0e0f10111213"
                NetworkEnum.Testnet "bitcoincash" _
                (fixture_hashOutputInverse _ _ _ _ _) (fixture_hashOutputInverse _ _ _ _ _)
                eq_refl ltac:(discriminate)
                ltac:(do 3 eexists; repeat split; vm_compute; reflexivity))
      as (scriptPubkey & Hto & Hfrom & Hguess).
    exists scriptPubkey. split; [exact Hto|]. split; [exact Hfrom|]. apply Hguess. reflexivity.
  - destruct (address_script_roundtrip Fixture.collaborators AddressTypeEnum.p2wsh
                "bc1000102030405060708090a0b0c0d0e0f101112131415161718191a1b1c1d1e1f"
                NetworkEnum.Mainnet "bitcoin" _
                (fixture_hashOutputInverse _ _ _ _ _) (fixture_hashOutputInverse _ _ _ _ _)
                eq_refl ltac:(discriminate)
                ltac:(do 3 eexists; repeat split; vm_compute; reflexivity))
      as (scriptPubkey & Hto & Hfrom & Hguess).
    exists scriptPubkey. split; [exact Hto|]. split; [exact Hfrom|]. apply Hguess. reflexivity.
Defined.

(** C6 as stated fails for [p2wshp2sh]: a script-hash address, which is what
    an address of that type is, is converted to its script only when the type
    is left out or given as another one, and no script is converted back
    under that type. *)
Lemma p2wshp2sh_does_not_round_trip :
  validAddress (C := Fixture.collaborators) AddressTypeEnum.p2wshp2sh
    "05000102030405060708090a0b0c0d0e0f10111213"
    (BitcoinJSNetwork.mk 0x80 (Bip32.mk 0x0488b21e 0x0488ade4) "Bitcoin Signed Message:"
       "bc" 0x00 0x05)
    NetworkEnum.Mainnet
  /\ addressToScriptPubkey (C := Fixture.collaborators)
       (AddressToScriptPubkeyArgs.mk "05000102030405060708090a0b0c0d0e0f10111213"
          NetworkEnum.Mainnet (Some AddressTypeEnum.p2wshp2sh) "bitcoin")
     = Throw "invalid address type in address to script pubkey"
  /\ addressToScriptPubkey (C := Fixture.collaborators)
       (AddressToScriptPubkeyArgs.mk "05000102030405060708090a0b0c0d0e0f10111213"
          NetworkEnum.Mainnet None "bitcoin")
     = Ok "a914000102030405060708090a0b0c0d0e0f1011121387"
  /\ scriptPubkeyToAddress (C := Fixture.collaborators)
       (ScriptPubkeyToAddressArgs.mk "a914000102030405060708090a0b0c0d0e0f1011121387"
          AddressTypeEnum.p2wshp2sh NetworkEnum.Mainnet "bitcoin")
     = Throw "invalid address type in address to script pubkey"
  /\ (forall (C : Collaborators) address scriptPubkey networkType coinString,
        isOk (addressToScriptPubkey
                (AddressToScriptPubkeyArgs.mk address networkType
                   (Some AddressTypeEnum.p2wshp2sh) coinString)) = false
        /\ isOk (scriptPubkeyToAddress
                   (ScriptPubkeyToAddressArgs.mk scriptPubkey AddressTypeEnum.p2wshp2sh
                      networkType coinString)) = false).
Proof.
  split; [do 3 eexists; repeat split; vm_compute; reflexivity|].
  split; [vm_compute; reflexivity|].
  split; [vm_compute; reflexivity|].
  split; [vm_compute; reflexivity|].
  intros C address scriptPubkey networkType coinString.
  unfold addressToScriptPubkey, scriptPubkeyToAddress. cbn.
  destruct (bip32NetworkFromCoin networkType coinString BIP43PurposeTypeEnum.Legacy);
    split; reflexivity.
Qed.

(** * Properties of ProcessorTransaction.ts *)

(** ** Receive addresses *)

Section ReceiveAddresses.
Context {I : Imports}.

Lemma path_markReplayProtection (scriptTemplate : option ScriptTemplate)
  (object : IAddress.t) (path : AddressPath.t) :
  IAddress.path object = Some path ->
  exists path',
    IAddress.path (markReplayProtection scriptTemplate object) = Some path'
    /\ AddressPath.format path' = displayFormat scriptTemplate path
    /\ AddressPath.changeIndex path' = AddressPath.changeIndex path
    /\ AddressPath.addressIndex path' = AddressPath.addressIndex path.
Proof.
  intros Hpath. unfold markReplayProtection, displayFormat. rewrite Hpath.
  destruct scriptTemplate as [template|].
  - destruct (isPathUsingDerivationLevelScriptHash template path).
    + eexists. cbn. repeat split.
    + exists path. repeat split. exact Hpath.
  - exists path. repeat split. exact Hpath.
Qed.

Lemma markReplayProtection_no_path (scriptTemplate : option ScriptTemplate) (object : IAddress.t) :
  IAddress.path object = None ->
  markReplayProtection scriptTemplate object = object.
Proof.
  intros Hpath. unfold markReplayProtection. rewrite Hpath. now destruct scriptTemplate.
Qed.

Lemma markReplayProtection_format (scriptTemplate : option ScriptTemplate)
  (object : IAddress.t) (path : AddressPath.t) :
  IAddress.path object = Some path ->
  markReplayProtection scriptTemplate object
  = IAddress.withPath object (AddressPath.withFormat path (displayFormat scriptTemplate path)).
Proof.
  intros Hpath. unfold markReplayProtection, displayFormat. rewrite Hpath.
  destruct object as [script p]; cbn in Hpath; subst p.
  destruct path as [format change index].
  destruct scriptTemplate as [template|]; [|reflexivity].
  now destruct (isPathUsingDerivationLevelScriptHash template _).
Qed.

Lemma replaceAt_same {A : Type} (l : list A) (i : nat) (x : A) :
  nth_error l i = Some x -> replaceAt l i x = l.
Proof.
  revert i. induction l as [|y l IH]; intros [|i]; cbn; try discriminate.
  - now intros [= ->].
  - intros Hin. now rewrite (IH i Hin).
Qed.

(** One turn of the loop for an output known with a path. *)
Lemma receiveAddress_shown (args : ToEdgeTransactionArgs.t ScriptTemplate)
  (heap heap' : Heap) (ourReceiveAddresses : list string) (out : string)
  (output : ProcessorOutput.t) (ref : nat) (object : IAddress.t) (path : AddressPath.t) :
  let scriptTemplate := PluginInfo.replayProtection (ToEdgeTransactionArgs.pluginInfo args) in
  let scriptPubkey := ProcessorOutput.scriptPubkey output in
  at_ (IProcessorTransaction.outputs (ToEdgeTransactionArgs.tx args)) (parseInt out)
  = Some output ->
  Processor.fetchAddress (ToEdgeTransactionArgs.processor args) heap scriptPubkey
  = Ok (Some ref, heap') ->
  nth_error heap' ref = Some object ->
  IAddress.path object = Some path ->
  receiveAddress args (heap, ourReceiveAddresses) out
  = (addrStr <- UTXOPluginWalletTools.scriptPubkeyToAddress
                  (ToEdgeTransactionArgs.walletTools args)
                  scriptPubkey (displayFormat scriptTemplate path) ;;
     Ok (replaceAt heap' ref
           (IAddress.withPath object
              (AddressPath.withFormat path (displayFormat scriptTemplate path))),
         (ourReceiveAddresses ++ [addrStr])%list)).
Proof.
  intros scriptTemplate scriptPubkey Hout Hfetch Hobject Hpath.
  unfold receiveAddress. rewrite Hout. fold scriptPubkey.
  rewrite Hfetch. cbn [bind]. fold scriptTemplate. rewrite Hobject.
  rewrite (markReplayProtection_format scriptTemplate object path Hpath).
  reflexivity.
Qed.

(** The loop of [toEdgeTransaction], when it ends, has told the receive
    addresses output by output. *)
Lemma receive_loop (args : ToEdgeTransactionArgs.t ScriptTemplate) (outs : list string) :
  forall (heap heap' : Heap) (before result : list string),
    forEach (receiveAddress args) outs (heap, before) = Ok (heap', result) ->
    exists addresses,
      result = (before ++ addresses)%list /\ ReceiveAddresses args heap outs heap' addresses.
Proof.
  induction outs as [|out outs IH]; intros heap heap' before result; cbn [forEach].
  - intros [= <- <-]. exists []. split; [now rewrite app_nil_r | constructor].
  - destruct (receiveAddress args (heap, before) out) as [[heap1 mid]|] eqn:Hstep;
      cbn [bind]; [|discriminate].
    intros Hrest. destruct (IH _ _ _ _ Hrest) as (addresses & -> & Hshown).
    unfold receiveAddress in Hstep.
    destruct (at_ _ (parseInt out)) as [output|] eqn:Hout; [|discriminate].
    destruct (Processor.fetchAddress _ heap _) as [[[ref|] heap2]|] eqn:Hfetch;
      cbn [bind] in Hstep; [| |discriminate].
    + destruct (nth_error heap2 ref) as [object|] eqn:Hobject; [|discriminate].
      destruct (IAddress.path object) as [path|] eqn:Hpath.
      * rewrite (markReplayProtection_format _ object path Hpath) in Hstep.
        cbn [IAddress.withPath IAddress.path AddressPath.withFormat AddressPath.format] in Hstep.
        destruct (UTXOPluginWalletTools.scriptPubkeyToAddress _ _ _) as [address|] eqn:Haddress;
          cbn [bind] in Hstep; [|discriminate].
        injection Hstep as <- <-.
        exists (address :: addresses). split; [now rewrite <- app_assoc|].
        eapply receive_shown; eauto.
      * rewrite (markReplayProtection_no_path _ object Hpath), Hpath in Hstep.
        injection Hstep as <- <-. rewrite (replaceAt_same _ _ _ Hobject) in Hshown.
        exists addresses. split; [reflexivity|].
        eapply receive_pathless; eauto.
    + injection Hstep as <- <-. exists addresses. split; [reflexivity|].
      eapply receive_unknown; eauto.
Qed.

(** And the loop ends that way whenever the receive addresses can be told. *)
Lemma receive_loop_runs (args : ToEdgeTransactionArgs.t ScriptTemplate)
  (heap heap' : Heap) (outs addresses : list string) :
  ReceiveAddresses args heap outs heap' addresses ->
  forall before,
    forEach (receiveAddress args) outs (heap, before) = Ok (heap', (before ++ addresses)%list).
Proof.
  induction 1 as [heap
                 | heap heap1 heap' out outs output addresses Hout Hfetch _ IH
                 | heap heap1 heap' out outs output ref object addresses Hout Hfetch Hobject Hpath _ IH
                 | heap heap1 heap' out outs output ref object path address addresses format
                     Hout Hfetch Hobject Hpath Haddress _ IH];
    intros before; cbn [forEach].
  - now rewrite app_nil_r.
  - unfold receiveAddress at 1. rewrite Hout, Hfetch. cbn [bind]. apply IH.
  - unfold receiveAddress at 1. rewrite Hout, Hfetch. cbn [bind]. rewrite Hobject.
    rewrite (markReplayProtection_no_path _ object Hpath), Hpath.
    rewrite (replaceAt_same _ _ _ Hobject). cbn [bind]. apply IH.
  - rewrite (receiveAddress_shown args heap heap1 before out output ref object path
               Hout Hfetch Hobject Hpath).
    fold format. rewrite Haddress. cbn [bind].
    rewrite IH. now rewrite <- app_assoc.
Qed.

End ReceiveAddresses.

(** C7.  The receive addresses [toEdgeTransaction] returns are, for the
    outputs of ours in their order, the addresses the wallet tools render for
    the scripts of the outputs the processor knows with a path, each in the
    display format of its path: ['bip49'] when the coin has a replay
    protection template and the path uses it, the format recorded on the path
    otherwise.  [toEdgeTransaction] returns them whenever they can be told. *)
Theorem replay_protection_is_shown_as_bip49 (I : Imports)
  (args : ToEdgeTransactionArgs.t ScriptTemplate) (heap : Heap) :
  let tx := ToEdgeTransactionArgs.tx args in
  let scriptTemplate := PluginInfo.replayProtection (ToEdgeTransactionArgs.pluginInfo args) in
  (forall heap' e,
      toEdgeTransaction args heap = Ok (e, heap') ->
      ReceiveAddresses args heap (IProcessorTransaction.ourOuts tx) heap'
        (EdgeTransaction.ourReceiveAddresses e))
  /\ (forall heap' addresses,
        ReceiveAddresses args heap (IProcessorTransaction.ourOuts tx) heap' addresses ->
        exists e,
          toEdgeTransaction args heap = Ok (e, heap')
          /\ EdgeTransaction.ourReceiveAddresses e = addresses)
  /\ (forall template path,
        scriptTemplate = Some template ->
        isPathUsingDerivationLevelScriptHash template path = true ->
        displayFormat scriptTemplate path = "bip49")
  /\ (forall path,
        (scriptTemplate = None
         \/ exists template,
              scriptTemplate = Some template
              /\ isPathUsingDerivationLevelScriptHash template path = false) ->
        displayFormat scriptTemplate path = AddressPath.format path).
Proof.
  intros tx scriptTemplate. split; [|split; [|split]].
  - intros heap' e Hrun. unfold toEdgeTransaction in Hrun. fold tx in Hrun.
    destruct (forEach (receiveAddress args) (IProcessorTransaction.ourOuts tx) (heap, []))
      as [[heap1 addresses]|] eqn:Hloop; cbn [bind] in Hrun; [|discriminate].
    injection Hrun as <- <-. cbn [EdgeTransaction.ourReceiveAddresses].
    destruct (receive_loop args _ _ _ _ _ Hloop) as (shown & -> & Hshown). exact Hshown.
  - intros heap' addresses Hshown.
    pose proof (receive_loop_runs args heap heap' _ addresses Hshown []) as Hloop.
    cbn [app] in Hloop. eexists. split.
    + unfold toEdgeTransaction. fold tx. rewrite Hloop. cbn [bind]. reflexivity.
    + reflexivity.
  - intros template path -> Hmatch. unfold displayFormat. now rewrite Hmatch.
  - intros path [-> | (template & -> & Hmatch)]; unfold displayFormat; [reflexivity|].
    now rewrite Hmatch.
Qed.

(** C7, on a transaction with two outputs of ours: the first is on the bip44
    chain at the change index of the replay protection template, the other is
    an ordinary bip44 one. *)
Lemma replay_protection_is_shown_as_bip49_witness :
  let args := ExampleWallet.args "8200" ExampleWallet.hex in
  option_map (fun r => EdgeTransaction.ourReceiveAddresses (fst r))
    (tryCatch (toEdgeTransaction (I := Fixture.imports) args ExampleWallet.heap))
  = Some ["bip49:a914000102030405060708090a0b0c0d0e0f1011121387";
          "bip44:76a914000102030405060708090a0b0c0d0e0f1011121388ac"]
  /\ ReceiveAddresses (I := Fixture.imports) args ExampleWallet.heap ["0"; "2"]
       [ IAddress.mk ExampleWallet.legacySpk (Some (AddressPath.mk "bip44" 0 7));
         IAddress.mk ExampleWallet.replaySpk (Some (AddressPath.mk "bip49" 2 3)) ]
       ["bip49:a914000102030405060708090a0b0c0d0e0f1011121387";
        "bip44:76a914000102030405060708090a0b0c0d0e0f1011121388ac"].
Proof.
  cbv zeta. split; [vm_compute; reflexivity|].
  destruct (toEdgeTransaction (I := Fixture.imports)
              (ExampleWallet.args "8200" ExampleWallet.hex) ExampleWallet.heap)
    as [[e heap']|msg] eqn:Hrun; [|vm_compute in Hrun; discriminate].
  pose proof (proj1 (replay_protection_is_shown_as_bip49 Fixture.imports
                       (ExampleWallet.args "8200" ExampleWallet.hex) ExampleWallet.heap)
                heap' e Hrun) as Hshown.
  vm_compute in Hrun. injection Hrun as <- <-. exact Hshown.
Defined.

(** ** The fee rate *)

Section FeeRate.
Context {I : Imports}.

Lemma virtualSize_bounds (t : Transaction) :
  0 < weight t < 2 ^ 53 -> 0 < virtualSize t < 2 ^ 53.
Proof.
  intros [Hlow Hhigh]. unfold virtualSize.
  pose proof (Z.div_mod (weight t + 3) 4 ltac:(lia)) as Hdiv.
  pose proof (Z.mod_pos_bound (weight t + 3) 4 ltac:(lia)) as Hmod.
  change (2 ^ 53) with 9007199254740992 in *. lia.
Qed.

(** The fee rate of a transaction that parses, with fees that parse and a
    quotient a number can hold. *)
Lemma feeRateOf_quotient (tx : IProcessorTransaction.t) (t : Transaction) (fees : Z) :
  Transaction_fromHex (IProcessorTransaction.hex tx) = Ok t ->
  BN_ofString (IProcessorTransaction.fees tx) = Ok fees ->
  0 < weight t < 2 ^ 53 ->
  Z.abs (Z.quot fees (virtualSize t)) < 2 ^ 53 ->
  feeRateOf tx = Ok (Z.quot fees (virtualSize t)).
Proof.
  intros Hparse Hfees Hweight Hquot. apply virtualSize_bounds in Hweight.
  unfold feeRateOf. rewrite Hparse; cbn [bind]. rewrite Hfees; cbn [bind].
  unfold BN_ofNumber, BN_div, BN_toNumber.
  replace (Z.abs (virtualSize t) <? 2 ^ 53) with true
    by (symmetry; apply Z.ltb_lt; rewrite Z.abs_eq; lia).
  cbn [bind].
  replace (virtualSize t =? 0) with false by (symmetry; apply Z.eqb_neq; lia).
  cbn [bind].
  now replace (Z.abs (Z.quot fees (virtualSize t)) <? 2 ^ 53) with true
    by (symmetry; now apply Z.ltb_lt).
Qed.

(** What [toEdgeTransaction] returns when its loop has run. *)
Lemma toEdgeTransaction_after_loop (args : ToEdgeTransactionArgs.t ScriptTemplate)
  (heap heap' : Heap) (addresses : list string) :
  let tx := ToEdgeTransactionArgs.tx args in
  forEach (receiveAddress args) (IProcessorTransaction.ourOuts tx) (heap, []) = Ok (heap', addresses) ->
  toEdgeTransaction args heap
  = Ok ({| EdgeTransaction.currencyCode :=
             PluginInfo.currencyCode (ToEdgeTransactionArgs.pluginInfo args);
           EdgeTransaction.txid := IProcessorTransaction.txid tx;
           EdgeTransaction.blockHeight := IProcessorTransaction.blockHeight tx;
           EdgeTransaction.date := IProcessorTransaction.date tx;
           EdgeTransaction.nativeAmount := IProcessorTransaction.ourAmount tx;
           EdgeTransaction.networkFee := IProcessorTransaction.fees tx;
           EdgeTransaction.signedTx := IProcessorTransaction.hex tx;
           EdgeTransaction.ourReceiveAddresses := addresses;
           EdgeTransaction.feeRateUsed := feeResOf tx |}, heap').
Proof. intros tx Hloop. unfold toEdgeTransaction. fold tx. now rewrite Hloop. Qed.

Lemma toEdgeTransaction_feeRateUsed (args : ToEdgeTransactionArgs.t ScriptTemplate)
  (heap heap' : Heap) (e : EdgeTransaction.t) :
  toEdgeTransaction args heap = Ok (e, heap') ->
  EdgeTransaction.feeRateUsed e = feeResOf (ToEdgeTransactionArgs.tx args).
Proof.
  unfold toEdgeTransaction.
  destruct (forEach _ _ _) as [[h addresses]|]; cbn [bind]; [|discriminate].
  now intros [= <- _].
Qed.

End FeeRate.

(** C8 (amended).  When the stored hex parses (to a transaction of a weight a
    number holds), the fee string parses and the quotient is below 2^53 in
    size, [feeRateUsed.satPerVByte] of the returned transaction is the integer
    quotient, rounded toward zero, of [tx.fees] by the virtual size of the
    parsed transaction, which is its weight over four, rounded up. *)
Theorem fee_rate_is_fees_over_virtual_size (I : Imports)
  (args : ToEdgeTransactionArgs.t ScriptTemplate) (heap heap' : Heap) (e : EdgeTransaction.t)
  (t : Transaction) (fees : Z) :
  let tx := ToEdgeTransactionArgs.tx args in
  toEdgeTransaction args heap = Ok (e, heap') ->
  Transaction_fromHex (IProcessorTransaction.hex tx) = Ok t ->
  BN_ofString (IProcessorTransaction.fees tx) = Ok fees ->
  0 < weight t < 2 ^ 53 ->
  Z.abs (Z.quot fees (virtualSize t)) < 2 ^ 53 ->
  EdgeTransaction.feeRateUsed e = Some (FeeRateUsed.mk (Z.quot fees ((weight t + 3) / 4))).
Proof.
  intros tx Hok Hparse Hfees Hweight Hquot.
  rewrite (toEdgeTransaction_feeRateUsed args heap heap' e Hok). fold tx.
  unfold feeResOf. now rewrite (feeRateOf_quotient tx t fees Hparse Hfees Hweight Hquot).
Qed.

(** C8, on a transaction of 82 bytes (weight 328) with fees 8250. *)
Lemma fee_rate_is_fees_over_virtual_size_witness :
  option_map (fun r => EdgeTransaction.feeRateUsed (fst r))
    (tryCatch (toEdgeTransaction (I := Fixture.imports)
                 (ExampleWallet.args "8250" ExampleWallet.hex) ExampleWallet.heap))
  = Some (Some (FeeRateUsed.mk 100)).
Proof.
  destruct (toEdgeTransaction (I := Fixture.imports)
              (ExampleWallet.args "8250" ExampleWallet.hex) ExampleWallet.heap)
    as [[e heap']|msg] eqn:Hrun; [|vm_compute in Hrun; discriminate].
  cbn [tryCatch option_map fst].
  rewrite (fee_rate_is_fees_over_virtual_size Fixture.imports
             (ExampleWallet.args "8250" ExampleWallet.hex) ExampleWallet.heap heap' e
             (fromHex ExampleWallet.hex) 8250 Hrun eq_refl eq_refl).
  - reflexivity.
  - vm_compute. split; reflexivity.
  - vm_compute. reflexivity.
Defined.

(** C8 as stated fails: the divisor is the virtual size and not the weight
    (fees 8200 over a weight of 328 and a virtual size of 82 give 100, not
    25), and a hex that parses does not ensure a fee rate (fees of 2^53 * 82
    give none). *)
Lemma fee_rate_is_not_fees_over_weight :
  (option_map (weight (Imports := Fixture.imports))
     (tryCatch (Transaction_fromHex (Imports := Fixture.imports) ExampleWallet.hex))
   = Some 328
   /\ option_map (fun r => EdgeTransaction.feeRateUsed (fst r))
        (tryCatch (toEdgeTransaction (I := Fixture.imports)
                     (ExampleWallet.args "8200" ExampleWallet.hex) ExampleWallet.heap))
      = Some (Some (FeeRateUsed.mk 100))
   /\ Z.quot 8200 328 = 25)
  /\ (isOk (Transaction_fromHex (Imports := Fixture.imports) ExampleWallet.hex) = true
      /\ option_map (fun r => EdgeTransaction.feeRateUsed (fst r))
           (tryCatch (toEdgeTransaction (I := Fixture.imports)
                        (ExampleWallet.args "738590338888761344" ExampleWallet.hex)
                        ExampleWallet.heap))
         = Some None).
Proof. repeat split; vm_compute; reflexivity. Qed.

(** C10.  [toEdgeTransaction] fails exactly when its loop over [tx.ourOuts]
    does.  When the loop has run, the transaction is returned, with [txid],
    [blockHeight], [date], [nativeAmount], [networkFee], [signedTx] and
    [ourReceiveAddresses] taken from the stored transaction and the loop
    whatever the fee rate computation does, without [feeRateUsed] when that
    computation throws and with its value when it does not. *)
Theorem fee_rate_failure_is_swallowed (I : Imports)
  (args : ToEdgeTransactionArgs.t ScriptTemplate) (heap : Heap) :
  let tx := ToEdgeTransactionArgs.tx args in
  match forEach (receiveAddress args) (IProcessorTransaction.ourOuts tx) (heap, []) with
  | Throw msg => toEdgeTransaction args heap = Throw msg
  | Ok (heap', addresses) =>
      exists e,
        toEdgeTransaction args heap = Ok (e, heap')
        /\ EdgeTransaction.txid e = IProcessorTransaction.txid tx
        /\ EdgeTransaction.blockHeight e = IProcessorTransaction.blockHeight tx
        /\ EdgeTransaction.date e = IProcessorTransaction.date tx
        /\ EdgeTransaction.nativeAmount e = IProcessorTransaction.ourAmount tx
        /\ EdgeTransaction.networkFee e = IProcessorTransaction.fees tx
        /\ EdgeTransaction.signedTx e = IProcessorTransaction.hex tx
        /\ EdgeTransaction.ourReceiveAddresses e = addresses
        /\ (forall msg, Transaction_fromHex (IProcessorTransaction.hex tx) = Throw msg ->
                        EdgeTransaction.feeRateUsed e = None)
        /\ (forall msg, feeRateOf tx = Throw msg -> EdgeTransaction.feeRateUsed e = None)
        /\ (forall feeRate, feeRateOf tx = Ok feeRate ->
                            EdgeTransaction.feeRateUsed e = Some (FeeRateUsed.mk feeRate))
  end.
Proof.
  intros tx.
  destruct (forEach (receiveAddress args) (IProcessorTransaction.ourOuts tx) (heap, []))
    as [[heap' addresses]|msg] eqn:Hloop.
  - eexists. split; [exact (toEdgeTransaction_after_loop args heap heap' addresses Hloop)|].
    cbn. fold tx. repeat split.
    + intros msg Hparse. unfold feeResOf, feeRateOf. now rewrite Hparse.
    + intros msg Hfee. unfold feeResOf. now rewrite Hfee.
    + intros feeRate Hfee. unfold feeResOf. now rewrite Hfee.
  - unfold toEdgeTransaction. fold tx. now rewrite Hloop.
Qed.

(** C10, on a stored transaction whose hex does not parse and on one whose
    fees are no number. *)
Lemma fee_rate_failure_is_swallowed_witness :
  (exists e,
      toEdgeTransaction (I := Fixture.imports)
        (ExampleWallet.args "1000" "not hex") ExampleWallet.heap
      = Ok (e, [ IAddress.mk ExampleWallet.legacySpk (Some (AddressPath.mk "bip44" 0 7));
                 IAddress.mk ExampleWallet.replaySpk (Some (AddressPath.mk "bip49" 2 3)) ])
      /\ EdgeTransaction.txid e = "txid"
      /\ EdgeTransaction.signedTx e = "not hex"
      /\ EdgeTransaction.ourReceiveAddresses e
         = ["bip49:a914000102030405060708090a0b0c0d0e0f1011121387";
            "bip44:76a914000102030405060708090a0b0c0d0e0f1011121388ac"]
      /\ EdgeTransaction.feeRateUsed e = None)
  /\ option_map (fun r => EdgeTransaction.feeRateUsed (fst r))
       (tryCatch (toEdgeTransaction (I := Fixture.imports)
                    (ExampleWallet.args "a lot" ExampleWallet.hex) ExampleWallet.heap))
     = Some None.
Proof.
  split; [|vm_compute; reflexivity].
  destruct (fee_rate_failure_is_swallowed Fixture.imports
              (ExampleWallet.args "1000" "not hex") ExampleWallet.heap)
    as (e & Hrun & Htxid & _ & _ & _ & _ & Hsigned & Haddresses & Hparse & _).
  exists e. split; [exact Hrun|]. split; [exact Htxid|]. split; [exact Hsigned|].
  split; [exact Haddresses|]. apply (Hparse "Transaction has unexpected data"). reflexivity.
Defined.

(** ** signTx *)

Lemma length_replaceAt {A : Type} (l : list A) (i : nat) (x : A) :
  List.length (replaceAt l i x) = List.length l.
Proof.
  revert i. induction l as [|y l IH]; intros [|i]; cbn; auto.
Qed.

Lemma nth_error_replaceAt_same {A : Type} (l : list A) (i : nat) (x : A) :
  (i < List.length l)%nat -> nth_error (replaceAt l i x) i = Some x.
Proof.
  revert i. induction l as [|y l IH]; intros [|i]; cbn; intros Hlt; try lia; auto.
  apply IH. lia.
Qed.

Lemma nth_error_replaceAt_other {A : Type} (l : list A) (i j : nat) (x : A) :
  i <> j -> nth_error (replaceAt l i x) j = nth_error l j.
Proof.
  revert i j. induction l as [|y l IH]; intros [|i] [|j]; cbn; intros Hne; auto; try lia.
Qed.

Section SignTx.
Context {C : Collaborators}.

Lemma signInput_ok (psbt psbt' : Psbt.t) (i : nat) (keyPair : ECPairInterface) :
  signInput psbt i keyPair = Ok psbt' ->
  exists input sig,
    nth_error (Psbt.inputs psbt) i = Some input
    /\ signatureFor psbt i keyPair = Ok sig
    /\ psbt' = Psbt.mk
                 (replaceAt (Psbt.inputs psbt) i
                    (PsbtInput.withPartialSig input (PsbtInput.partialSig input ++ [sig])))
                 (Psbt.outputs psbt).
Proof.
  unfold signInput.
  destruct (nth_error (Psbt.inputs psbt) i) as [input|]; [|discriminate].
  destruct (signatureFor psbt i keyPair) as [sig|]; cbn [bind]; [|discriminate].
  intros [= <-]. now exists input, sig.
Qed.

(** What the loop of [signTx] has done when it ends: it has given the input
    at the position of each key one more signature, made with that key, and
    has left the other inputs and the outputs as they were. *)
Lemma signFrom_ok (keys : list string) :
  forall (i : nat) (psbt signed : Psbt.t),
    signFrom i keys psbt = Ok signed ->
    List.length (Psbt.inputs signed) = List.length (Psbt.inputs psbt)
    /\ Psbt.outputs signed = Psbt.outputs psbt
    /\ (keys = [] \/ i + List.length keys <= List.length (Psbt.inputs psbt))%nat
    /\ (forall j, (j < i \/ i + List.length keys <= j)%nat ->
                  nth_error (Psbt.inputs signed) j = nth_error (Psbt.inputs psbt) j)
    /\ (forall j key,
          nth_error keys j = Some key ->
          exists input keyPair sig before after valid,
            nth_error (Psbt.inputs psbt) (i + j) = Some input
            /\ fromPrivateKey (fromHex key) = Ok keyPair
            /\ signatureFor before (i + j) keyPair = Ok sig
            /\ signInput before (i + j) keyPair = Ok after
            /\ validateSignaturesOfInput after (i + j) = Ok valid
            /\ nth_error (Psbt.inputs signed) (i + j)
               = Some (PsbtInput.withPartialSig input (PsbtInput.partialSig input ++ [sig]))).
Proof.
  induction keys as [|key rest IH]; intros i psbt signed; cbn [signFrom].
  - intros [= <-]. cbn [List.length].
    split; [reflexivity|]. split; [reflexivity|]. split; [now left|]. split; [reflexivity|].
    intros [|j] key; discriminate.
  - destruct (fromPrivateKey (fromHex key)) as [keyPair|] eqn:Hkey; cbn [bind]; [|discriminate].
    destruct (signInput psbt i keyPair) as [after|] eqn:Hsign; cbn [bind]; [|discriminate].
    destruct (validateSignaturesOfInput after i) as [valid|] eqn:Hvalid; cbn [bind];
      [|discriminate].
    intros Hrest.
    destruct (signInput_ok _ _ _ _ Hsign) as (input & sig & Hinput & Hsig & Hafter).
    destruct (IH _ _ _ Hrest) as (Hlen & Hout & Hbound & Hother & Hsigned).
    assert (Hlen' : List.length (Psbt.inputs after) = List.length (Psbt.inputs psbt))
      by (subst after; apply length_replaceAt).
    assert (Hi : (i < List.length (Psbt.inputs psbt))%nat)
      by (apply nth_error_Some; congruence).
    assert (Hkeep : forall j, j <> i ->
              nth_error (Psbt.inputs after) j = nth_error (Psbt.inputs psbt) j)
      by (intros j Hne; subst after; cbn [Psbt.inputs];
          apply nth_error_replaceAt_other; congruence).
    cbn [List.length]. split; [|split; [|split; [|split]]].
    + congruence.
    + rewrite Hout. now subst after.
    + right. destruct Hbound as [-> | Hbound]; cbn [List.length]; lia.
    + intros j Hj. rewrite Hother by lia. apply Hkeep. lia.
    + intros [|j] key'; cbn [nth_error].
      * intros [= <-]. rewrite Nat.add_0_r.
        exists input, keyPair, sig, psbt, after, valid. repeat split; auto.
        rewrite Hother by lia. subst after. cbn [Psbt.inputs].
        now apply nth_error_replaceAt_same.
      * intros Hkey'. destruct (Hsigned j key' Hkey')
          as (input' & keyPair' & sig' & before' & after' & valid' & H1 & H2 & H3 & H4 & H5 & H6).
        replace (i + S j)%nat with (S i + j)%nat by lia.
        exists input', keyPair', sig', before', after', valid'. repeat split; auto.
        rewrite <- Hkeep by lia. exact H1.
Qed.





Lemma finalizeFrom_unsigned (inputs : list PsbtInput.t) :
  forall (i j : nat) (input : PsbtInput.t),
    nth_error inputs j = Some input ->
    PsbtInput.partialSig input = [] ->
    isOk (finalizeFrom i inputs) = false.
Proof.
  induction inputs as [|first rest IH]; intros i [|j] input; cbn [nth_error finalizeFrom];
    try discriminate.
  - intros [= ->] Hnone. unfold finalizeInput. now rewrite Hnone.
  - intros Hin Hnone. destruct (finalizeInput i first); cbn [bind]; [|reflexivity].
    pose proof (IH (S i) j input Hin Hnone) as Hrest.
    now destruct (finalizeFrom (S i) rest).
Qed.

Lemma finalizeAllInputs_unsigned (psbt : Psbt.t) (j : nat) (input : PsbtInput.t) :
  nth_error (Psbt.inputs psbt) j = Some input ->
  PsbtInput.partialSig input = [] ->
  isOk (finalizeAllInputs psbt) = false.
Proof.
  intros Hin Hnone. unfold finalizeAllInputs.
  pose proof (finalizeFrom_unsigned (Psbt.inputs psbt) 0 j input Hin Hnone) as Hfinal.
  destruct (Psbt.inputs psbt); [reflexivity|].
  now destruct (finalizeFrom 0 (t :: l)).
Qed.

(** [signTx] fails when an input past the keys has no signature. *)
Lemma signTx_unsigned_rest (args : SignTxArgs.t) (psbt : Psbt.t) (j : nat) (input : PsbtInput.t) :
  fromBase64 (SignTxArgs.tx args) = Ok psbt ->
  (List.length (SignTxArgs.privateKeys args) <= j)%nat ->
  nth_error (Psbt.inputs psbt) j = Some input ->
  PsbtInput.partialSig input = [] ->
  isOk (signTx args) = false.
Proof.
  intros Hpsbt Hj Hin Hnone. unfold signTx. bind_ok Hpsbt.
  destruct (signFrom 0 (SignTxArgs.privateKeys args) psbt) as [signed|] eqn:Hloop;
    cbn [bind]; [|reflexivity].
  destruct (signFrom_ok _ _ _ _ Hloop) as (_ & _ & _ & Hother & _).
  assert (Hin' : nth_error (Psbt.inputs signed) j = Some input)
    by (rewrite Hother by (right; cbn; lia); exact Hin).
  pose proof (finalizeAllInputs_unsigned signed j input Hin' Hnone) as Hfinal.
  now destruct (finalizeAllInputs signed).
Qed.

(** [signTx] fails when there are more keys than inputs. *)
Lemma signTx_more_keys (args : SignTxArgs.t) (psbt : Psbt.t) :
  fromBase64 (SignTxArgs.tx args) = Ok psbt ->
  (List.length (Psbt.inputs psbt) < List.length (SignTxArgs.privateKeys args))%nat ->
  isOk (signTx args) = false.
Proof.
  intros Hpsbt Hmore. unfold signTx. bind_ok Hpsbt.
  destruct (signFrom 0 (SignTxArgs.privateKeys args) psbt) as [signed|] eqn:Hloop;
    cbn [bind]; [|reflexivity].
  destruct (signFrom_ok _ _ _ _ Hloop) as (_ & _ & [Hnone | Hbound] & _);
    [rewrite Hnone in Hmore; cbn in Hmore | cbn in Hbound]; lia.
Qed.

End SignTx.




(** * Further properties of keymanager.ts *)

(** ** Drafts *)

Section Drafts.
Context {C : Collaborators}.

Lemma fresh_psbtInputOf (sequence : Z) (input : TxInput.t) :
  missingInputData input = None -> freshInput (psbtInputOf sequence input).
Proof.
  unfold missingInputData, psbtInputOf, freshInput.
  destruct (TxInput.type input); cbn.
  - destruct (TxInput.prevTx input) as [prevTx|]; [|discriminate]. intros _.
    repeat split. left. exists (fromHex prevTx). cbn. auto.
  - destruct (TxInput.prevScriptPubkey input) as [script|], (TxInput.value input) as [value|];
      try discriminate.
    intros _. repeat split. right. eexists. cbn. split; reflexivity.
Qed.

Lemma createTxPsbt_fresh (args : CreateTxArgs.t) (psbt : Psbt.t) :
  createTxPsbt args = Ok psbt -> Forall freshInput (Psbt.inputs psbt).
Proof.
  intros Hok. apply createTxPsbt_ok in Hok as [-> Hall]. cbn [Psbt.inputs].
  induction Hall as [|input rest Hin _ IH]; cbn; constructor; auto.
  now apply fresh_psbtInputOf.
Qed.

Lemma sequences_lowered (inputs : list TxInput.t) :
  Forall2 (fun replaceable final =>
             PsbtInput.sequence replaceable < 0xfffffffe
             /\ PsbtInput.sequence final = 0xffffffff
             /\ PsbtInput.hash replaceable = PsbtInput.hash final
             /\ PsbtInput.index replaceable = PsbtInput.index final
             /\ PsbtInput.nonWitnessUtxo replaceable = PsbtInput.nonWitnessUtxo final
             /\ PsbtInput.witnessUtxo replaceable = PsbtInput.witnessUtxo final
             /\ PsbtInput.redeemScript replaceable = PsbtInput.redeemScript final)
    (map (psbtInputOf (sequenceOf true)) inputs)
    (map (psbtInputOf (sequenceOf false)) inputs).
Proof.
  induction inputs as [|input rest IH]; cbn [map]; constructor; [|exact IH].
  unfold psbtInputOf. destruct (TxInput.type input); cbn; repeat split; reflexivity.
Qed.

(** A draft with no inputs cannot be signed. *)
Lemma signTx_no_inputs (args : SignTxArgs.t) (psbt : Psbt.t) :
  fromBase64 (SignTxArgs.tx args) = Ok psbt ->
  Psbt.inputs psbt = [] ->
  isOk (signTx args) = false
  /\ (SignTxArgs.privateKeys args = [] -> signTx args = Throw "No input #0").
Proof.
  intros Hpsbt Hnone. unfold signTx. bind_ok Hpsbt.
  destruct (SignTxArgs.privateKeys args) as [|key rest]; cbn [signFrom bind].
  - unfold finalizeAllInputs. rewrite Hnone. cbn. split; [reflexivity | reflexivity].
  - split; [|discriminate].
    destruct (fromPrivateKey (fromHex key)) as [keyPair|]; cbn [bind]; [|reflexivity].
    unfold signInput. rewrite Hnone. reflexivity.
Qed.

Lemma sameButSignatures_withPartialSig (input : PsbtInput.t) (sigs : list PartialSig.t) :
  sameButSignatures input (PsbtInput.withPartialSig input sigs).
Proof. unfold sameButSignatures. cbn. repeat split. Qed.

Lemma sameButSignatures_refl (input : PsbtInput.t) : sameButSignatures input input.
Proof. unfold sameButSignatures. repeat split. Qed.

(** The loop of [signTx] changes the signatures of the inputs only, and only
    by adding one to each input a key stands for. *)
Lemma signFrom_frame (keys : list string) (psbt signed : Psbt.t) :
  signFrom 0 keys psbt = Ok signed ->
  Psbt.outputs signed = Psbt.outputs psbt
  /\ List.length (Psbt.inputs signed) = List.length (Psbt.inputs psbt)
  /\ (forall j after,
        nth_error (Psbt.inputs signed) j = Some after ->
        exists before added,
          nth_error (Psbt.inputs psbt) j = Some before
          /\ sameButSignatures before after
          /\ PsbtInput.partialSig after = (PsbtInput.partialSig before ++ added)%list
          /\ List.length added = (if (j <? List.length keys)%nat then 1 else 0)%nat).
Proof.
  intros Hloop.
  destruct (signFrom_ok _ _ _ _ Hloop) as (Hlen & Hout & _ & Hother & Hsigned).
  split; [exact Hout|]. split; [exact Hlen|].
  intros j after Hafter.
  destruct (Nat.ltb_spec j (List.length keys)) as [Hlt | Hge].
  - destruct (nth_error keys j) as [key|] eqn:Hkey;
      [|apply nth_error_None in Hkey; lia].
    destruct (Hsigned j key Hkey)
      as (input & keyPair & sig & _ & _ & _ & Hin & _ & _ & _ & _ & Hnew).
    cbn [Nat.add] in Hin, Hnew. rewrite Hnew in Hafter. injection Hafter as <-.
    exists input, [sig]. split; [exact Hin|].
    split; [apply sameButSignatures_withPartialSig|]. split; reflexivity.
  - rewrite Hother in Hafter by (right; cbn; exact Hge).
    exists after, []. split; [exact Hafter|].
    split; [apply sameButSignatures_refl|]. split; [now rewrite app_nil_r | reflexivity].
Qed.

End Drafts.

(** X1.  For the same inputs and outputs, the draft [createTx] builds with
    [rbf] and the one it builds without differ in the sequence numbers only:
    every input of the first has a sequence number below 0xfffffffe, the
    input at its place in the second has 0xffffffff, and hash, index,
    previous data, redeem script and outputs are the same. *)
Theorem createTx_rbf_changes_sequences_only (C : Collaborators)
  (network : NetworkEnum.t) (inputs : list TxInput.t) (outputs : list TxOutput.t)
  (replaceable final : Psbt.t) :
  createTxPsbt (CreateTxArgs.mk network inputs outputs true) = Ok replaceable ->
  createTxPsbt (CreateTxArgs.mk network inputs outputs false) = Ok final ->
  Psbt.outputs replaceable = Psbt.outputs final
  /\ Forall2 (fun a b =>
                PsbtInput.sequence a < 0xfffffffe
                /\ PsbtInput.sequence b = 0xffffffff
                /\ PsbtInput.hash a = PsbtInput.hash b
                /\ PsbtInput.index a = PsbtInput.index b
                /\ PsbtInput.nonWitnessUtxo a = PsbtInput.nonWitnessUtxo b
                /\ PsbtInput.witnessUtxo a = PsbtInput.witnessUtxo b
                /\ PsbtInput.redeemScript a = PsbtInput.redeemScript b)
       (Psbt.inputs replaceable) (Psbt.inputs final).
Proof.
  intros Hrbf Hfinal.
  apply createTxPsbt_ok in Hrbf as [-> _]. apply createTxPsbt_ok in Hfinal as [-> _].
  cbn [Psbt.inputs Psbt.outputs CreateTxArgs.inputs CreateTxArgs.outputs CreateTxArgs.rbf].
  split; [reflexivity | apply sequences_lowered].
Qed.

(** X1, on two witness inputs. *)
Lemma createTx_rbf_changes_sequences_only_witness :
  Forall2 (fun a b => PsbtInput.sequence a < PsbtInput.sequence b
                      /\ PsbtInput.hash a = PsbtInput.hash b)
    (Psbt.inputs (draftOf (MoreExamples.twoInputs true)))
    (Psbt.inputs (draftOf (MoreExamples.twoInputs false))).
Proof.
  destruct (createTx_rbf_changes_sequences_only Fixture.collaborators NetworkEnum.Mainnet
              (CreateTxArgs.inputs (MoreExamples.twoInputs true))
              [Examples.payment]
              (draftOf (MoreExamples.twoInputs true)) (draftOf (MoreExamples.twoInputs false))
              eq_refl eq_refl) as [_ Hall].
  refine (Forall2_impl _ _ Hall). intros a b (Hlow & Hmax & Hhash & _).
  split; [rewrite Hmax; lia | exact Hhash].
Defined.

(** X2.  Every input of a draft [createTx] returns is unsigned and not
    finalized, and carries either the previous transaction (a legacy input,
    without redeem script) or the spent output (a segwit input), never both. *)
Theorem createTx_inputs_are_fresh (C : Collaborators) (args : CreateTxArgs.t) (psbt : Psbt.t) :
  createTxPsbt args = Ok psbt ->
  Forall freshInput (Psbt.inputs psbt)
  /\ Forall2 (fun source input =>
                PsbtInput.nonWitnessUtxo input <> None
                <-> TxInput.type source = TransactionInputTypeEnum.Legacy)
       (CreateTxArgs.inputs args) (Psbt.inputs psbt).
Proof.
  intros Hok. split; [exact (createTxPsbt_fresh args psbt Hok)|].
  apply createTxPsbt_ok in Hok as [-> Hall]. cbn [Psbt.inputs].
  induction Hall as [|input rest Hin _ IH]; cbn [map]; constructor; [|exact IH].
  unfold missingInputData in Hin. unfold psbtInputOf.
  destruct (TxInput.type input); cbn.
  - destruct (TxInput.prevTx input); [|discriminate]. cbn. split; [reflexivity | discriminate].
  - split; [intros Hne; now contradiction Hne | discriminate].
Qed.

(** X2, on a legacy and a witness input. *)
Lemma createTx_inputs_are_fresh_witness :
  Forall freshInput
    (Psbt.inputs (draftOf (CreateTxArgs.mk NetworkEnum.Mainnet
                             [Examples.legacyInput; Examples.witnessInput]
                             [Examples.payment] false))).
Proof.
  exact (proj1 (createTx_inputs_are_fresh Fixture.collaborators
                  (CreateTxArgs.mk NetworkEnum.Mainnet
                     [Examples.legacyInput; Examples.witnessInput] [Examples.payment] false)
                  _ eq_refl)).
Defined.

(** X3.  Signing what [createTx] returned: when the codec reads the draft
    back, [signTx] succeeds only with exactly as many keys as the draft has
    inputs, and only for a draft that has an input. *)
Theorem signTx_of_createTx_needs_a_key_per_input (C : Collaborators)
  (args : CreateTxArgs.t) (psbt : Psbt.t) (keys : list string) :
  createTxPsbt args = Ok psbt ->
  fromBase64 (toBase64 psbt) = Ok psbt ->
  isOk (signTx (SignTxArgs.mk keys (toBase64 psbt))) = true ->
  createTx args = Ok (toBase64 psbt)
  /\ List.length keys = List.length (CreateTxArgs.inputs args)
  /\ CreateTxArgs.inputs args <> [].
Proof.
  intros Hdraft Hcodec Hok.
  split; [unfold createTx; now rewrite Hdraft|].
  pose proof (createTxPsbt_fresh args psbt Hdraft) as Hfresh.
  apply createTxPsbt_ok in Hdraft as [Hshape _].
  assert (Hlen : List.length (Psbt.inputs psbt) = List.length (CreateTxArgs.inputs args))
    by (subst psbt; apply length_map).
  split.
  - rewrite <- Hlen.
    destruct (Nat.lt_trichotomy (List.length keys) (List.length (Psbt.inputs psbt)))
      as [Hless | [Heq | Hmore]]; [exfalso | exact Heq | exfalso].
    + destruct (nth_error (Psbt.inputs psbt) (List.length keys)) as [input|] eqn:Hin;
        [|apply nth_error_None in Hin; lia].
      assert (Hnone : PsbtInput.partialSig input = [])
        by (exact (proj1 (proj1 (Forall_forall _ _) Hfresh input (nth_error_In _ _ Hin)))).
      rewrite (signTx_unsigned_rest (SignTxArgs.mk keys (toBase64 psbt)) psbt _ input
                 Hcodec (Nat.le_refl _) Hin Hnone) in Hok.
      discriminate.
    + rewrite (signTx_more_keys (SignTxArgs.mk keys (toBase64 psbt)) psbt Hcodec Hmore) in Hok.
      discriminate.
  - intros Hnone.
    assert (Hempty : Psbt.inputs psbt = [])
      by (apply length_zero_iff_nil; rewrite Hlen, Hnone; reflexivity).
    rewrite (proj1 (signTx_no_inputs (SignTxArgs.mk keys (toBase64 psbt)) psbt Hcodec Hempty))
      in Hok.
    discriminate.
Qed.

(** X3, on a draft of two witness inputs signed with their two keys. *)
Lemma signTx_of_createTx_needs_a_key_per_input_witness :
  let C := FixtureKeys.withDraft (draftOf (MoreExamples.twoInputs true)) in
  createTx (C := C) (MoreExamples.twoInputs true) = Ok "psbt:2:1"
  /\ isOk (signTx (C := C) (SignTxArgs.mk [toHex Fixture.key0; toHex Fixture.key1] "psbt:2:1"))
     = true
  /\ List.length [toHex Fixture.key0; toHex Fixture.key1] = 2%nat.
Proof.
  cbv zeta.
  destruct (signTx_of_createTx_needs_a_key_per_input
              (FixtureKeys.withDraft (draftOf (MoreExamples.twoInputs true)))
              (MoreExamples.twoInputs true) (draftOf (MoreExamples.twoInputs true))
              [toHex Fixture.key0; toHex Fixture.key1]
              eq_refl eq_refl ltac:(vm_compute; reflexivity)) as (Hcreate & Hlen & _).
  split; [exact Hcreate|]. split; [vm_compute; reflexivity | exact Hlen].
Defined.

(** X4.  A PSBT without inputs is never signed: [signTx] fails on it whatever
    the keys, and with no keys it throws that there is no input 0. *)
Theorem signTx_needs_an_input (C : Collaborators) (args : SignTxArgs.t) (psbt : Psbt.t) :
  fromBase64 (SignTxArgs.tx args) = Ok psbt ->
  Psbt.inputs psbt = [] ->
  isOk (signTx args) = false
  /\ (SignTxArgs.privateKeys args = [] -> signTx args = Throw "No input #0").
Proof. exact (signTx_no_inputs args psbt). Qed.

(** X4, on the draft [createTx] returns for no inputs and one output. *)
Lemma signTx_needs_an_input_witness :
  let draft := draftOf (CreateTxArgs.mk NetworkEnum.Mainnet [] [Examples.payment] false) in
  createTx (C := FixtureKeys.withDraft draft)
    (CreateTxArgs.mk NetworkEnum.Mainnet [] [Examples.payment] false) = Ok "psbt:0:1"
  /\ signTx (C := FixtureKeys.withDraft draft) (SignTxArgs.mk [] "psbt:0:1")
     = Throw "No input #0"
  /\ isOk (signTx (C := FixtureKeys.withDraft draft)
             (SignTxArgs.mk [toHex Fixture.key0] "psbt:0:1")) = false.
Proof.
  cbv zeta. split; [vm_compute; reflexivity|]. split.
  - apply (signTx_needs_an_input
             (FixtureKeys.withDraft
                (draftOf (CreateTxArgs.mk NetworkEnum.Mainnet [] [Examples.payment] false)))
             (SignTxArgs.mk [] "psbt:0:1") _ eq_refl eq_refl). reflexivity.
  - vm_compute; reflexivity.
Defined.

(** X5.  The signing loop of [signTx], when it ends, has left the outputs and
    the number of inputs as they were; every input has its hash, index,
    sequence number, previous data and scripts unchanged and its earlier
    signatures kept in place, with one signature added after them exactly for
    the inputs a key stands for. *)
Theorem signTx_changes_signatures_only (C : Collaborators)
  (keys : list string) (psbt signed : Psbt.t) :
  signFrom 0 keys psbt = Ok signed ->
  Psbt.outputs signed = Psbt.outputs psbt
  /\ List.length (Psbt.inputs signed) = List.length (Psbt.inputs psbt)
  /\ (forall j after,
        nth_error (Psbt.inputs signed) j = Some after ->
        exists before added,
          nth_error (Psbt.inputs psbt) j = Some before
          /\ sameButSignatures before after
          /\ PsbtInput.partialSig after = (PsbtInput.partialSig before ++ added)%list
          /\ List.length added = (if (j <? List.length keys)%nat then 1 else 0)%nat).
Proof. exact (signFrom_frame keys psbt signed). Qed.

(** X5, on the draft whose second input another party has signed. *)
Lemma signTx_changes_signatures_only_witness :
  exists signed,
    signFrom (C := Fixture.collaborators) 0 [toHex Fixture.key0] Fixture.halfSignedDraft
    = Ok signed
    /\ Psbt.outputs signed = [Fixture.payTo]
    /\ map (fun input => List.length (PsbtInput.partialSig input)) (Psbt.inputs signed)
       = [1%nat; 1%nat].
Proof.
  destruct (signFrom (C := Fixture.collaborators) 0 [toHex Fixture.key0] Fixture.halfSignedDraft)
    as [signed|] eqn:Hloop; [|vm_compute in Hloop; discriminate].
  exists signed. split; [reflexivity|].
  destruct (signTx_changes_signatures_only Fixture.collaborators _ _ _ Hloop) as (Hout & _ & _).
  split; [exact Hout|].
  vm_compute in Hloop. injection Hloop as <-. reflexivity.
Defined.

(** ** Script hashes and address types *)

Section ScriptHashes.
Context {C : Collaborators}.

Lemma scriptHash_roundtrip (t : AddressTypeEnum.t) (payment : PaymentCreator)
  (scriptHash scriptPubkey : string) (networkType : NetworkEnum.t) (coinString : string) :
  hashPayment t = Some payment ->
  hashOutputInverse payment ->
  scriptHashToScriptPubkey
    (ScriptHashToScriptPubkeyArgs.mk scriptHash t networkType coinString) = Ok scriptPubkey ->
  scriptPubkeyToScriptHash
    (ScriptPubkeyToScriptHashArgs.mk scriptPubkey t networkType coinString)
  = Ok (toHex (fromHex scriptHash)).
Proof.
  intros Hpayment Hinverse.
  unfold scriptHashToScriptPubkey, scriptPubkeyToScriptHash.
  cbn [ScriptHashToScriptPubkeyArgs.scriptHash ScriptHashToScriptPubkeyArgs.network
       ScriptHashToScriptPubkeyArgs.addressType ScriptHashToScriptPubkeyArgs.coin
       ScriptPubkeyToScriptHashArgs.scriptPubkey ScriptPubkeyToScriptHashArgs.network
       ScriptPubkeyToScriptHashArgs.addressType ScriptPubkeyToScriptHashArgs.coin].
  destruct (bip32NetworkFromCoin networkType coinString BIP43PurposeTypeEnum.Legacy)
    as [network|]; cbn [bind]; [|discriminate].
  assert (Hrun :
    forall p o,
      payment (Payment.ofHash (fromHex scriptHash) network) = Ok p ->
      Payment.output p = Some o ->
      (q <- payment (Payment.ofOutput (fromHex (toHex o)) network) ;;
       match Payment.hash q with
       | None => Throw "failed converting scriptPubkey to address"
       | Some h => Ok (toHex h)
       end) = Ok (toHex (fromHex scriptHash))).
  { intros p o Hp Ho. destruct (Hinverse _ _ _ _ Hp Ho) as (q & Hq & Hh).
    rewrite fromHex_toHex, Hq. cbn [bind]. now rewrite Hh. }
  destruct t; cbn [hashPayment] in Hpayment; try discriminate;
    injection Hpayment as Heq; cbn [bind]; rewrite Heq;
    (destruct (payment (Payment.ofHash (fromHex scriptHash) network)) as [p|] eqn:Hp;
     cbn [bind]; [|discriminate];
     destruct (Payment.output p) as [o|] eqn:Ho; [|discriminate];
     intros [= <-]; exact (Hrun p o eq_refl Ho)).
Qed.

(** The types a conversion can succeed for. *)
Lemma scriptHashToScriptPubkey_types (args : ScriptHashToScriptPubkeyArgs.t) :
  isOk (scriptHashToScriptPubkey args) = true ->
  hashPayment (ScriptHashToScriptPubkeyArgs.addressType args) <> None.
Proof.
  unfold scriptHashToScriptPubkey.
  destruct (bip32NetworkFromCoin _ _ _); cbn [bind]; [|discriminate].
  destruct (ScriptHashToScriptPubkeyArgs.addressType args); cbn; discriminate.
Qed.

Lemma scriptPubkeyToScriptHash_types (args : ScriptPubkeyToScriptHashArgs.t) :
  isOk (scriptPubkeyToScriptHash args) = true ->
  ScriptPubkeyToScriptHashArgs.addressType args <> AddressTypeEnum.p2wshp2sh.
Proof.
  unfold scriptPubkeyToScriptHash.
  destruct (bip32NetworkFromCoin _ _ _); cbn [bind]; [|discriminate].
  destruct (ScriptPubkeyToScriptHashArgs.addressType args); cbn; discriminate.
Qed.

Lemma guess_types (address : string) (network : BitcoinJSNetwork.t) (t : AddressTypeEnum.t) :
  guessAddressTypeFromAddress address network None = Ok t ->
  In t [AddressTypeEnum.p2pkh; AddressTypeEnum.p2sh; AddressTypeEnum.p2wsh;
        AddressTypeEnum.p2wpkh; AddressTypeEnum.cashaddrP2PKH; AddressTypeEnum.cashaddrP2SH].
Proof.
  unfold guessAddressTypeFromAddress.
  destruct (payments_p2pkh _); [intros [= <-]; cbn; tauto|].
  destruct (payments_p2sh _); [intros [= <-]; cbn; tauto|].
  destruct (payments_p2wsh _); [intros [= <-]; cbn; tauto|].
  destruct (payments_p2wpkh _); [intros [= <-]; cbn; tauto|].
  destruct (cashAddressToHash address) as [info|]; [|discriminate].
  destruct (CashAddressInfo.type info); intros [= <-]; cbn; tauto.
Qed.

Lemma network_of_unknown_coin (networkType : NetworkEnum.t) (coinString msg : string)
  (sigType : BIP43PurposeTypeEnum.t) :
  getCoinFromString coinString = Throw msg ->
  bip32NetworkFromCoin networkType coinString sigType = Throw msg.
Proof. intros Hcoin. unfold bip32NetworkFromCoin. now rewrite Hcoin. Qed.

End ScriptHashes.

(** X6.  For the five types both conversions accept, the hash
    [scriptPubkeyToScriptHash] reads from the script [scriptHashToScriptPubkey]
    built is the hash it was built from, in lower-case hexadecimal text of
    whole bytes (the text given, when it is written that way); the payment
    library is taken to read back from a script the hash it built it from. *)
Theorem script_hash_roundtrip (C : Collaborators)
  (t : AddressTypeEnum.t) (payment : PaymentCreator)
  (scriptHash scriptPubkey : string) (networkType : NetworkEnum.t) (coinString : string) :
  hashPayment t = Some payment ->
  hashOutputInverse payment ->
  scriptHashToScriptPubkey
    (ScriptHashToScriptPubkeyArgs.mk scriptHash t networkType coinString) = Ok scriptPubkey ->
  scriptPubkeyToScriptHash
    (ScriptPubkeyToScriptHashArgs.mk scriptPubkey t networkType coinString)
  = Ok (toHex (fromHex scriptHash))
  /\ (toHex (fromHex scriptHash) = scriptHash ->
      scriptPubkeyToScriptHash
        (ScriptPubkeyToScriptHashArgs.mk scriptPubkey t networkType coinString)
      = Ok scriptHash).
Proof.
  intros Hpayment Hinverse Hbuilt.
  pose proof (scriptHash_roundtrip t payment scriptHash scriptPubkey networkType coinString
                Hpayment Hinverse Hbuilt) as Hread.
  split; [exact Hread|]. intros Hcanonical. now rewrite Hread, Hcanonical.
Qed.

(** X6, on a hash written in upper case, for a wrapped witness script. *)
Lemma script_hash_roundtrip_witness :
  scriptHashToScriptPubkey (C := Fixture.collaborators)
    (ScriptHashToScriptPubkeyArgs.mk "000102030405060708090A0B0C0D0E0F10111213"
       AddressTypeEnum.p2wpkhp2sh NetworkEnum.Mainnet "bitcoin")
  = Ok "a914000102030405060708090a0b0c0d0e0f1011121387"
  /\ scriptPubkeyToScriptHash (C := Fixture.collaborators)
       (ScriptPubkeyToScriptHashArgs.mk "a914000102030405060708090a0b0c0d0e0f1011121387"
          AddressTypeEnum.p2wpkhp2sh NetworkEnum.Mainnet "bitcoin")
     = Ok "000102030405060708090a0b0c0d0e0f10111213".
Proof.
  split; [vm_compute; reflexivity|].
  exact (proj1 (script_hash_roundtrip Fixture.collaborators AddressTypeEnum.p2wpkhp2sh _
                  "000102030405060708090A0B0C0D0E0F10111213"
                  "a914000102030405060708090a0b0c0d0e0f1011121387"
                  NetworkEnum.Mainnet "bitcoin" eq_refl
                  (fixture_hashOutputInverse _ _ _ _ _) eq_refl)).
Defined.

(** X7.  With the type given as [cashaddrP2PKH] or [cashaddrP2SH],
    [addressToScriptPubkey] does not look at the type tag of the address: two
    addresses that the codec decodes to the same hash get the same result,
    whatever their tags. *)
Theorem cashaddr_type_tag_is_not_checked (C : Collaborators)
  (address1 address2 : string) (info1 info2 : CashAddressInfo.t)
  (networkType : NetworkEnum.t) (coinString : string) :
  cashAddressToHash address1 = Ok info1 ->
  cashAddressToHash address2 = Ok info2 ->
  CashAddressInfo.scriptHash info1 = CashAddressInfo.scriptHash info2 ->
  addressToScriptPubkey
    (AddressToScriptPubkeyArgs.mk address1 networkType (Some AddressTypeEnum.cashaddrP2PKH)
       coinString)
  = addressToScriptPubkey
      (AddressToScriptPubkeyArgs.mk address2 networkType (Some AddressTypeEnum.cashaddrP2PKH)
         coinString)
  /\ addressToScriptPubkey
       (AddressToScriptPubkeyArgs.mk address1 networkType (Some AddressTypeEnum.cashaddrP2SH)
          coinString)
     = addressToScriptPubkey
         (AddressToScriptPubkeyArgs.mk address2 networkType (Some AddressTypeEnum.cashaddrP2SH)
            coinString).
Proof.
  intros H1 H2 Hsame. unfold addressToScriptPubkey.
  cbn [AddressToScriptPubkeyArgs.address AddressToScriptPubkeyArgs.network
       AddressToScriptPubkeyArgs.addressType AddressToScriptPubkeyArgs.coin
       guessAddressTypeFromAddress].
  destruct (bip32NetworkFromCoin networkType coinString BIP43PurposeTypeEnum.Legacy);
    cbn [bind]; [|split; reflexivity].
  rewrite H1, H2. cbn [bind]. rewrite Hsame. split; reflexivity.
Qed.

(** X7, on the pubkeyhash and the scripthash address of one hash: given as
    [cashaddrP2PKH], both become the pubkeyhash script, and the scripthash
    address does not come back from it. *)
Lemma cashaddr_type_tag_is_not_checked_witness :
  addressToScriptPubkey (C := Fixture.collaborators)
    (AddressToScriptPubkeyArgs.mk "bitcoincash:p000102030405060708090a0b0c0d0e0f10111213"
       NetworkEnum.Mainnet (Some AddressTypeEnum.cashaddrP2PKH) "bitcoincash")
  = addressToScriptPubkey (C := Fixture.collaborators)
      (AddressToScriptPubkeyArgs.mk "bitcoincash:q000102030405060708090a0b0c0d0e0f10111213"
         NetworkEnum.Mainnet (Some AddressTypeEnum.cashaddrP2PKH) "bitcoincash")
  /\ addressToScriptPubkey (C := Fixture.collaborators)
       (AddressToScriptPubkeyArgs.mk "bitcoincash:p000102030405060708090a0b0c0d0e0f10111213"
          NetworkEnum.Mainnet (Some AddressTypeEnum.cashaddrP2PKH) "bitcoincash")
     = Ok "76a914000102030405060708090a0b0c0d0e0f1011121388ac"
  /\ scriptPubkeyToAddress (C := Fixture.collaborators)
       (ScriptPubkeyToAddressArgs.mk "76a914000102030405060708090a0b0c0d0e0f1011121388ac"
          AddressTypeEnum.cashaddrP2PKH NetworkEnum.Mainnet "bitcoincash")
     = Ok "bitcoincash:q000102030405060708090a0b0c0d0e0f10111213".
Proof.
  split; [|split; vm_compute; reflexivity].
  exact (proj1 (cashaddr_type_tag_is_not_checked Fixture.collaborators
                  "bitcoincash:p000102030405060708090a0b0c0d0e0f10111213"
                  "bitcoincash:q000102030405060708090a0b0c0d0e0f10111213"
                  _ _ NetworkEnum.Mainnet "bitcoincash" eq_refl eq_refl eq_refl)).
Defined.

(** X8.  The type [addressToScriptPubkey] guesses for an address is never a
    wrapped one: it is one of [p2pkh], [p2sh], [p2wsh], [p2wpkh],
    [cashaddrP2PKH] and [cashaddrP2SH], and [p2sh] is the guess for every
    address the script-hash decoder accepts and the pubkeyhash decoder does
    not. *)
Theorem guessed_type_is_never_wrapped (C : Collaborators)
  (address : string) (network : BitcoinJSNetwork.t) (t : AddressTypeEnum.t) :
  guessAddressTypeFromAddress address network None = Ok t ->
  In t [AddressTypeEnum.p2pkh; AddressTypeEnum.p2sh; AddressTypeEnum.p2wsh;
        AddressTypeEnum.p2wpkh; AddressTypeEnum.cashaddrP2PKH; AddressTypeEnum.cashaddrP2SH]
  /\ t <> AddressTypeEnum.p2wpkhp2sh
  /\ t <> AddressTypeEnum.p2wshp2sh
  /\ (isOk (payments_p2pkh (Payment.ofAddress address network)) = false ->
      isOk (payments_p2sh (Payment.ofAddress address network)) = true ->
      t = AddressTypeEnum.p2sh).
Proof.
  intros Hguess. pose proof (guess_types address network t Hguess) as Hin.
  split; [exact Hin|].
  split; [intros ->; cbn in Hin; intuition discriminate|].
  split; [intros ->; cbn in Hin; intuition discriminate|].
  intros Hpkh Hsh. unfold guessAddressTypeFromAddress in Hguess.
  destruct (payments_p2pkh _); [discriminate|].
  destruct (payments_p2sh _); [congruence | discriminate].
Qed.

(** X8, on a script-hash address. *)
Lemma guessed_type_is_never_wrapped_witness :
  guessAddressTypeFromAddress (C := Fixture.collaborators)
    "05000102030405060708090a0b0c0d0e0f10111213"
    (BitcoinJSNetwork.mk 0x80 (Bip32.mk 0x0488b21e 0x0488ade4) "Bitcoin Signed Message:"
       "bc" 0x00 0x05) None
  = Ok AddressTypeEnum.p2sh
  /\ AddressTypeEnum.p2sh <> AddressTypeEnum.p2wpkhp2sh.
Proof.
  split; [reflexivity|].
  exact (proj1 (proj2 (guessed_type_is_never_wrapped Fixture.collaborators
                         "05000102030405060708090a0b0c0d0e0f10111213"
                         (BitcoinJSNetwork.mk 0x80 (Bip32.mk 0x0488b21e 0x0488ade4)
                            "Bitcoin Signed Message:" "bc" 0x00 0x05)
                         AddressTypeEnum.p2sh eq_refl))).
Defined.

(** ** Networks, keys and scripts from public keys *)

Lemma length_toHex (b : Buffer) : String.length (toHex b) = (2 * List.length b)%nat.
Proof. induction b as [|x rest IH]; cbn [toHex String.length List.length]; lia. Qed.

Section Keys.
Context {C : Collaborators} {K : KeyCollaborators C}.

Lemma network_fields (sigType : BIP43PurposeTypeEnum.t) (coinPrefixes : CoinPrefixes.t)
  (segwit : bool) (network : BitcoinJSNetwork.t) :
  bip32NetworkFromCoinPrefix sigType coinPrefixes segwit = Ok network ->
  BitcoinJSNetwork.wif network = CoinPrefixes.wif coinPrefixes
  /\ BitcoinJSNetwork.messagePrefix network = CoinPrefixes.messagePrefix coinPrefixes
  /\ BitcoinJSNetwork.pubKeyHash network = CoinPrefixes.pubkeyHash coinPrefixes
  /\ BitcoinJSNetwork.scriptHash network = CoinPrefixes.scriptHash coinPrefixes
  /\ BitcoinJSNetwork.bech32 network
     = match CoinPrefixes.bech32 coinPrefixes with Some prefix => prefix | None => "bc" end.
Proof.
  unfold bip32NetworkFromCoinPrefix.
  destruct sigType; cbn [bind].
  - intros [= <-]. cbn. repeat split.
  - destruct (CoinPrefixes.segwitXPub coinPrefixes), (CoinPrefixes.segwitXPriv coinPrefixes);
      cbn [bind]; try discriminate.
    intros [= <-]. cbn. repeat split.
  - destruct (CoinPrefixes.wrappedSegwitXPub coinPrefixes),
      (CoinPrefixes.wrappedSegwitXPriv coinPrefixes); cbn [bind]; try discriminate.
    intros [= <-]. cbn. repeat split.
Qed.

Lemma pubkeyToScriptPubkey_types (args : PubkeyToScriptPubkeyArgs.t) :
  isOk (pubkeyToScriptPubkey args) = true ->
  In (PubkeyToScriptPubkeyArgs.addressType args)
    [AddressTypeEnum.p2pkh; AddressTypeEnum.cashaddrP2PKH; AddressTypeEnum.p2wpkhp2sh;
     AddressTypeEnum.p2wpkh].
Proof.
  unfold pubkeyToScriptPubkey.
  destruct (PubkeyToScriptPubkeyArgs.addressType args); cbn; try discriminate; tauto.
Qed.

Lemma pubkeyToScriptPubkey_redeemScript (args : PubkeyToScriptPubkeyArgs.t)
  (scripts : PubkeyToScriptPubkeyReturn.t) :
  pubkeyToScriptPubkey args = Ok scripts ->
  (PubkeyToScriptPubkeyReturn.redeemScript scripts <> None
   <-> PubkeyToScriptPubkeyArgs.addressType args = AddressTypeEnum.p2wpkhp2sh).
Proof.
  unfold pubkeyToScriptPubkey.
  destruct (PubkeyToScriptPubkeyArgs.addressType args); try discriminate.
  - destruct (p2pkhOfPubkey _) as [p|]; cbn [bind]; [|discriminate].
    destruct (PubkeyPayment.output p); [|discriminate].
    intros [= <-]. cbn. split; [intros H; now contradiction H | discriminate].
  - destruct (p2wpkhOfPubkey _) as [r|]; cbn [bind]; [|discriminate].
    destruct (p2shOfRedeem r) as [p|]; cbn [bind]; [|discriminate].
    destruct (PubkeyPayment.output p); [|discriminate].
    destruct (PubkeyPayment.redeem p) as [r'|]; [|discriminate].
    destruct (PubkeyPayment.output r'); [|discriminate].
    intros [= <-]. cbn. split; [reflexivity | discriminate].
  - destruct (p2wpkhOfPubkey _) as [p|]; cbn [bind]; [|discriminate].
    destruct (PubkeyPayment.output p); [|discriminate].
    intros [= <-]. cbn. split; [intros H; now contradiction H | discriminate].
  - destruct (p2pkhOfPubkey _) as [p|]; cbn [bind]; [|discriminate].
    destruct (PubkeyPayment.output p); [|discriminate].
    intros [= <-]. cbn. split; [intros H; now contradiction H | discriminate].
Qed.

Lemma wrapped_redeemScript (pubkey : string) (scripts : PubkeyToScriptPubkeyReturn.t) :
  (forall redeem p, p2shOfRedeem redeem = Ok p -> PubkeyPayment.redeem p = Some redeem) ->
  pubkeyToScriptPubkey (PubkeyToScriptPubkeyArgs.mk pubkey AddressTypeEnum.p2wpkhp2sh)
  = Ok scripts ->
  exists witnessScript,
    pubkeyToScriptPubkey (PubkeyToScriptPubkeyArgs.mk pubkey AddressTypeEnum.p2wpkh)
    = Ok (PubkeyToScriptPubkeyReturn.mk witnessScript None)
    /\ PubkeyToScriptPubkeyReturn.redeemScript scripts = Some witnessScript.
Proof.
  intros Hback. unfold pubkeyToScriptPubkey.
  cbn [PubkeyToScriptPubkeyArgs.pubkey PubkeyToScriptPubkeyArgs.addressType].
  destruct (p2wpkhOfPubkey (fromHex pubkey)) as [r|]; cbn [bind]; [|discriminate].
  destruct (p2shOfRedeem r) as [p|] eqn:Hp; cbn [bind]; [|discriminate].
  rewrite (Hback r p Hp).
  destruct (PubkeyPayment.output p); [|discriminate].
  destruct (PubkeyPayment.output r) as [o|]; [|discriminate].
  intros [= <-]. exists (toHex o). split; reflexivity.
Qed.

Lemma wif_roundtrip (privateKey wif : string) (networkType : NetworkEnum.t) (coinString : string) :
  (forall key network keyPair text,
      fromPrivateKeyOn key network = Ok keyPair ->
      toWIF keyPair = Ok text ->
      exists read, fromWIF text network = Ok read /\ ECPair_privateKey read = Some key) ->
  privateKeyToWIF (PrivateKeyToWIFArgs.mk privateKey networkType coinString) = Ok wif ->
  wifToPrivateKey (WIFToPrivateKeyArgs.mk wif networkType coinString)
  = Ok (toHex (fromHex privateKey)).
Proof.
  intros Hread. unfold privateKeyToWIF, wifToPrivateKey.
  cbn [PrivateKeyToWIFArgs.privateKey PrivateKeyToWIFArgs.network PrivateKeyToWIFArgs.coin
       WIFToPrivateKeyArgs.wifKey WIFToPrivateKeyArgs.network WIFToPrivateKeyArgs.coin].
  destruct (bip32NetworkFromCoin networkType coinString BIP43PurposeTypeEnum.Legacy)
    as [network|]; cbn [bind]; [|discriminate].
  destruct (fromPrivateKeyOn (fromHex privateKey) network) as [keyPair|] eqn:Hpair;
    cbn [bind]; [|discriminate].
  intros Hwif. destruct (Hread _ _ _ _ Hpair Hwif) as (read & Hfrom & Hkey).
  rewrite Hfrom. cbn [bind]. now rewrite Hkey.
Qed.

Lemma signTx_loads_keys (args : SignTxArgs.t) :
  isOk (signTx args) = true ->
  Forall (fun key => isOk (privateKeyToPubkey key) = true) (SignTxArgs.privateKeys args).
Proof.
  unfold signTx.
  destruct (fromBase64 (SignTxArgs.tx args)) as [psbt|]; cbn [bind]; [|discriminate].
  destruct (signFrom 0 (SignTxArgs.privateKeys args) psbt) as [signed|] eqn:Hloop;
    cbn [bind]; [|discriminate].
  intros _. destruct (signFrom_ok _ _ _ _ Hloop) as (_ & _ & _ & _ & Hsigned).
  apply Forall_forall. intros key Hin.
  destruct (In_nth_error _ _ Hin) as [j Hj].
  destruct (Hsigned j key Hj) as (_ & keyPair & _ & _ & _ & _ & _ & Hkey & _).
  unfold privateKeyToPubkey. now rewrite Hkey.
Qed.

End Keys.

(** X9.  The address types the conversions accept: [scriptHashToScriptPubkey]
    fails for every type but [p2pkh], [p2sh], [p2wpkhp2sh], [p2wpkh] and
    [p2wsh], so also for the alt-encoded types; [scriptPubkeyToScriptHash]
    fails for [p2wshp2sh] and takes the alt-encoded types as their plain
    ones; [pubkeyToScriptPubkey] fails for every type but [p2pkh],
    [cashaddrP2PKH], [p2wpkhp2sh] and [p2wpkh]. *)
Theorem conversions_accept_these_types (C : Collaborators) (K : KeyCollaborators C) :
  (forall args,
      ~ In (ScriptHashToScriptPubkeyArgs.addressType args)
          [AddressTypeEnum.p2pkh; AddressTypeEnum.p2sh; AddressTypeEnum.p2wpkhp2sh;
           AddressTypeEnum.p2wpkh; AddressTypeEnum.p2wsh] ->
      isOk (scriptHashToScriptPubkey args) = false)
  /\ (forall args,
        ScriptPubkeyToScriptHashArgs.addressType args = AddressTypeEnum.p2wshp2sh ->
        isOk (scriptPubkeyToScriptHash args) = false)
  /\ (forall scriptPubkey networkType coinString,
        scriptPubkeyToScriptHash
          (ScriptPubkeyToScriptHashArgs.mk scriptPubkey AddressTypeEnum.cashaddrP2PKH
             networkType coinString)
        = scriptPubkeyToScriptHash
            (ScriptPubkeyToScriptHashArgs.mk scriptPubkey AddressTypeEnum.p2pkh
               networkType coinString)
        /\ scriptPubkeyToScriptHash
             (ScriptPubkeyToScriptHashArgs.mk scriptPubkey AddressTypeEnum.cashaddrP2SH
                networkType coinString)
           = scriptPubkeyToScriptHash
               (ScriptPubkeyToScriptHashArgs.mk scriptPubkey AddressTypeEnum.p2sh
                  networkType coinString))
  /\ (forall args,
        ~ In (PubkeyToScriptPubkeyArgs.addressType args)
            [AddressTypeEnum.p2pkh; AddressTypeEnum.cashaddrP2PKH; AddressTypeEnum.p2wpkhp2sh;
             AddressTypeEnum.p2wpkh] ->
        isOk (pubkeyToScriptPubkey args) = false).
Proof.
  split; [|split; [|split]].
  - intros args Hnot.
    destruct (isOk (scriptHashToScriptPubkey args)) eqn:Hok; [|reflexivity].
    pose proof (scriptHashToScriptPubkey_types args Hok) as Hsome.
    contradiction Hnot.
    destruct (ScriptHashToScriptPubkeyArgs.addressType args); cbn in *; tauto.
  - intros args Htype.
    destruct (isOk (scriptPubkeyToScriptHash args)) eqn:Hok; [|reflexivity].
    now contradiction (scriptPubkeyToScriptHash_types args Hok).
  - intros scriptPubkey networkType coinString. split; reflexivity.
  - intros args Hnot.
    destruct (isOk (pubkeyToScriptPubkey args)) eqn:Hok; [|reflexivity].
    now contradiction Hnot; apply pubkeyToScriptPubkey_types.
Qed.

(** X9, on the hash and the script of one pubkeyhash output under the
    alt-encoded type, and on a public key under a script-hash type. *)
Lemma conversions_accept_these_types_witness :
  isOk (scriptHashToScriptPubkey (C := Fixture.collaborators)
          (ScriptHashToScriptPubkeyArgs.mk "000102030405060708090a0b0c0d0e0f10111213"
             AddressTypeEnum.cashaddrP2PKH NetworkEnum.Mainnet "bitcoincash")) = false
  /\ scriptPubkeyToScriptHash (C := Fixture.collaborators)
       (ScriptPubkeyToScriptHashArgs.mk "76a914000102030405060708090a0b0c0d0e0f1011121388ac"
          AddressTypeEnum.cashaddrP2PKH NetworkEnum.Mainnet "bitcoincash")
     = Ok "000102030405060708090a0b0c0d0e0f10111213"
  /\ isOk (scriptPubkeyToScriptHash (C := Fixture.collaborators)
             (ScriptPubkeyToScriptHashArgs.mk
                "a914000102030405060708090a0b0c0d0e0f1011121387"
                AddressTypeEnum.p2wshp2sh NetworkEnum.Mainnet "bitcoin")) = false
  /\ isOk (pubkeyToScriptPubkey (K := FixtureKeys.keys)
             (PubkeyToScriptPubkeyArgs.mk (toHex (x02 :: Fixture.key0)) AddressTypeEnum.p2sh))
     = false.
Proof.
  destruct (conversions_accept_these_types Fixture.collaborators FixtureKeys.keys)
    as (Hhash & Hscript & Hcash & Hpubkey).
  split; [|split; [|split]].
  - apply Hhash. cbn. intros [H|[H|[H|[H|[H|H]]]]]; try discriminate H. exact H.
  - rewrite (proj1 (Hcash _ _ _)). vm_compute; reflexivity.
  - apply Hscript. reflexivity.
  - apply Hpubkey. cbn. intros [H|[H|[H|[H|H]]]]; try discriminate H. exact H.
Defined.

(** X10.  For a coin the coin table does not know, every operation that asks
    for the network of a coin throws the error of the coin table, before any
    key, address or script is looked at; [mnemonicToXPriv] returns no key. *)
Theorem unknown_coin_is_refused (C : Collaborators) (K : KeyCollaborators C)
  (coinString msg : string) (networkType : NetworkEnum.t) (sigType : BIP43PurposeTypeEnum.t) :
  getCoinFromString coinString = Throw msg ->
  (forall xpriv, xprivToXPub (XPrivToXPubArgs.mk xpriv networkType sigType coinString)
                 = Throw msg)
  /\ (forall xpub change index,
        xpubToPubkey (XPubToPubkeyArgs.mk xpub networkType sigType change index coinString)
        = Throw msg)
  /\ (forall xpriv change index,
        xprivToPrivateKey
          (XPrivToPrivateKeyArgs.mk xpriv networkType sigType change index coinString)
        = Throw msg)
  /\ (forall address t,
        addressToScriptPubkey (AddressToScriptPubkeyArgs.mk address networkType t coinString)
        = Throw msg)
  /\ (forall script t,
        scriptPubkeyToAddress (ScriptPubkeyToAddressArgs.mk script t networkType coinString)
        = Throw msg)
  /\ (forall hash t,
        scriptHashToScriptPubkey (ScriptHashToScriptPubkeyArgs.mk hash t networkType coinString)
        = Throw msg)
  /\ (forall script t,
        scriptPubkeyToScriptHash
          (ScriptPubkeyToScriptHashArgs.mk script t networkType coinString)
        = Throw msg)
  /\ (forall key, privateKeyToWIF (PrivateKeyToWIFArgs.mk key networkType coinString)
                  = Throw msg)
  /\ (forall wif, wifToPrivateKey (WIFToPrivateKeyArgs.mk wif networkType coinString)
                  = Throw msg)
  /\ (forall mnemonic path,
        isOk (mnemonicToXPriv
                (MnemonicToXPrivArgs.mk mnemonic path networkType sigType coinString)) = false).
Proof.
  intros Hcoin.
  pose proof (fun t => network_of_unknown_coin networkType coinString msg t Hcoin) as Hnet.
  repeat split; intros;
    unfold xprivToXPub, xpubToPubkey, xprivToPrivateKey, addressToScriptPubkey,
      scriptPubkeyToAddress, scriptHashToScriptPubkey, scriptPubkeyToScriptHash,
      privateKeyToWIF, wifToPrivateKey, mnemonicToXPriv; cbn; rewrite ?Hnet; cbn;
    try reflexivity.
  destruct (fromSeed (mnemonicToSeedSync mnemonic)); cbn; rewrite ?Hnet; reflexivity.
Qed.

(** X10, on a coin name the table of [Fixture] does not have. *)
Lemma unknown_coin_is_refused_witness :
  scriptPubkeyToAddress (C := Fixture.collaborators)
    (ScriptPubkeyToAddressArgs.mk "76a914000102030405060708090a0b0c0d0e0f1011121388ac"
       AddressTypeEnum.p2pkh NetworkEnum.Mainnet "dogecoin")
  = Throw "coin not found"
  /\ wifToPrivateKey (C := Fixture.collaborators) (K := FixtureKeys.keys)
       (WIFToPrivateKeyArgs.mk "wif11" NetworkEnum.Testnet "dogecoin")
     = Throw "coin not found".
Proof.
  destruct (unknown_coin_is_refused Fixture.collaborators FixtureKeys.keys "dogecoin"
              "coin not found" NetworkEnum.Mainnet BIP43PurposeTypeEnum.Legacy eq_refl)
    as (_ & _ & _ & _ & Haddress & _).
  destruct (unknown_coin_is_refused Fixture.collaborators FixtureKeys.keys "dogecoin"
              "coin not found" NetworkEnum.Testnet BIP43PurposeTypeEnum.Legacy eq_refl)
    as (_ & _ & _ & _ & _ & _ & _ & _ & Hwif & _).
  split; [apply Haddress | apply Hwif].
Defined.

(** X11.  The purpose changes the bip32 version bytes of a coin's network and
    nothing else: the networks selected for two purposes have the same WIF
    byte, message prefix, pubkeyhash and scripthash bytes and witness prefix,
    those of the coin's prefixes, with the witness prefix [bc] when the coin
    has none. *)
Theorem purpose_changes_version_bytes_only (C : Collaborators)
  (networkType : NetworkEnum.t) (coinString : string) (coin : Coin.t)
  (sigType sigType' : BIP43PurposeTypeEnum.t) (network network' : BitcoinJSNetwork.t) :
  getCoinFromString coinString = Ok coin ->
  bip32NetworkFromCoin networkType coinString sigType = Ok network ->
  bip32NetworkFromCoin networkType coinString sigType' = Ok network' ->
  BitcoinJSNetwork.wif network = BitcoinJSNetwork.wif network'
  /\ BitcoinJSNetwork.messagePrefix network = BitcoinJSNetwork.messagePrefix network'
  /\ BitcoinJSNetwork.pubKeyHash network = BitcoinJSNetwork.pubKeyHash network'
  /\ BitcoinJSNetwork.scriptHash network = BitcoinJSNetwork.scriptHash network'
  /\ BitcoinJSNetwork.bech32 network = BitcoinJSNetwork.bech32 network'
  /\ BitcoinJSNetwork.pubKeyHash network = CoinPrefixes.pubkeyHash (constantsOf networkType coin)
  /\ BitcoinJSNetwork.scriptHash network = CoinPrefixes.scriptHash (constantsOf networkType coin)
  /\ BitcoinJSNetwork.bech32 network
     = match CoinPrefixes.bech32 (constantsOf networkType coin) with
       | Some prefix => prefix
       | None => "bc"
       end.
Proof.
  intros Hcoin. rewrite !bip32NetworkFromCoin_constants, Hcoin. cbn [bind].
  intros H1 H2.
  destruct (network_fields _ _ _ _ H1) as (Hw & Hm & Hp & Hs & Hb).
  destruct (network_fields _ _ _ _ H2) as (Hw' & Hm' & Hp' & Hs' & Hb').
  repeat split; congruence.
Qed.

(** X11, on the legacy and the segwit network of the test network of a coin,
    and on the witness prefix of a coin that has none. *)
Lemma purpose_changes_version_bytes_only_witness :
  (exists network network',
      bip32NetworkFromCoin (C := Fixture.collaborators) NetworkEnum.Testnet "bitcoin"
        BIP43PurposeTypeEnum.Legacy = Ok network
      /\ bip32NetworkFromCoin (C := Fixture.collaborators) NetworkEnum.Testnet "bitcoin"
           BIP43PurposeTypeEnum.Segwit = Ok network'
      /\ BitcoinJSNetwork.pubKeyHash network = BitcoinJSNetwork.pubKeyHash network'
      /\ BitcoinJSNetwork.bip32 network <> BitcoinJSNetwork.bip32 network')
  /\ option_map BitcoinJSNetwork.bech32
       (tryCatch (bip32NetworkFromCoin (C := Fixture.collaborators) NetworkEnum.Mainnet
                    "bitcoincash" BIP43PurposeTypeEnum.Legacy))
     = Some "bc".
Proof.
  split; [|reflexivity].
  do 2 eexists. split; [reflexivity|]. split; [reflexivity|]. split; [|discriminate].
  exact (proj1 (proj2 (proj2 (purpose_changes_version_bytes_only Fixture.collaborators
                                NetworkEnum.Testnet "bitcoin" _ BIP43PurposeTypeEnum.Legacy
                                BIP43PurposeTypeEnum.Segwit _ _ eq_refl eq_refl eq_refl)))).
Defined.

(** X12.  [pubkeyToScriptPubkey] returns a redeem script exactly for the
    wrapped segwit type [p2wpkhp2sh]; for the other types it accepts the
    result is the locking script alone. *)
Theorem redeem_script_only_for_wrapped_segwit (C : Collaborators) (K : KeyCollaborators C)
  (args : PubkeyToScriptPubkeyArgs.t) (scripts : PubkeyToScriptPubkeyReturn.t) :
  pubkeyToScriptPubkey args = Ok scripts ->
  (PubkeyToScriptPubkeyReturn.redeemScript scripts <> None
   <-> PubkeyToScriptPubkeyArgs.addressType args = AddressTypeEnum.p2wpkhp2sh).
Proof. exact (pubkeyToScriptPubkey_redeemScript args scripts). Qed.

(** X12, on a public key of 33 bytes under the wrapped and under the native
    segwit type. *)
Lemma redeem_script_only_for_wrapped_segwit_witness :
  option_map PubkeyToScriptPubkeyReturn.redeemScript
    (tryCatch (pubkeyToScriptPubkey (K := FixtureKeys.keys)
                 (PubkeyToScriptPubkeyArgs.mk (toHex (x02 :: Fixture.key0))
                    AddressTypeEnum.p2wpkh)))
  = Some None
  /\ exists scripts,
       pubkeyToScriptPubkey (K := FixtureKeys.keys)
         (PubkeyToScriptPubkeyArgs.mk (toHex (x02 :: Fixture.key0)) AddressTypeEnum.p2wpkhp2sh)
       = Ok scripts
       /\ PubkeyToScriptPubkeyReturn.redeemScript scripts <> None.
Proof.
  split; [vm_compute; reflexivity|].
  eexists. split; [vm_compute; reflexivity|].
  apply (redeem_script_only_for_wrapped_segwit Fixture.collaborators FixtureKeys.keys
           (PubkeyToScriptPubkeyArgs.mk (toHex (x02 :: Fixture.key0)) AddressTypeEnum.p2wpkhp2sh)
           _ ltac:(vm_compute; reflexivity)).
  reflexivity.
Defined.

(** X13.  With a library whose [p2sh] payment hands back the payment it is
    given to redeem, the redeem script [pubkeyToScriptPubkey] returns for the
    wrapped segwit type is the locking script it returns for the native
    segwit type [p2wpkh] of the same public key. *)
Theorem wrapped_redeem_script_is_the_witness_program (C : Collaborators)
  (K : KeyCollaborators C) (pubkey : string) (scripts : PubkeyToScriptPubkeyReturn.t) :
  (forall redeem p, p2shOfRedeem redeem = Ok p -> PubkeyPayment.redeem p = Some redeem) ->
  pubkeyToScriptPubkey (PubkeyToScriptPubkeyArgs.mk pubkey AddressTypeEnum.p2wpkhp2sh)
  = Ok scripts ->
  exists witnessScript,
    pubkeyToScriptPubkey (PubkeyToScriptPubkeyArgs.mk pubkey AddressTypeEnum.p2wpkh)
    = Ok (PubkeyToScriptPubkeyReturn.mk witnessScript None)
    /\ PubkeyToScriptPubkeyReturn.redeemScript scripts = Some witnessScript.
Proof. exact (wrapped_redeemScript pubkey scripts). Qed.

Lemma wrapped_hands_back (redeem p : PubkeyPayment.t) :
  FixtureKeys.wrapped redeem = Ok p -> PubkeyPayment.redeem p = Some redeem.
Proof.
  unfold FixtureKeys.wrapped. destruct (PubkeyPayment.output redeem); [|discriminate].
  now intros [= <-].
Qed.

(** X13, on a public key of 33 bytes. *)
Lemma wrapped_redeem_script_is_the_witness_program_witness :
  exists scripts witnessScript,
    pubkeyToScriptPubkey (K := FixtureKeys.keys)
      (PubkeyToScriptPubkeyArgs.mk (toHex (x02 :: Fixture.key0)) AddressTypeEnum.p2wpkhp2sh)
    = Ok scripts
    /\ pubkeyToScriptPubkey (K := FixtureKeys.keys)
         (PubkeyToScriptPubkeyArgs.mk (toHex (x02 :: Fixture.key0)) AddressTypeEnum.p2wpkh)
       = Ok (PubkeyToScriptPubkeyReturn.mk witnessScript None)
    /\ PubkeyToScriptPubkeyReturn.redeemScript scripts = Some witnessScript.
Proof.
  eexists.
  destruct (wrapped_redeem_script_is_the_witness_program Fixture.collaborators FixtureKeys.keys
              (toHex (x02 :: Fixture.key0)) _ wrapped_hands_back
              ltac:(vm_compute; reflexivity)) as (witnessScript & Hnative & Hredeem).
  exists witnessScript. split; [reflexivity|]. split; [exact Hnative | exact Hredeem].
Defined.

(** X14.  With a library whose [fromWIF] reads back the private key of the
    text [toWIF] writes for it on the same network, [wifToPrivateKey] undoes
    [privateKeyToWIF] for the same network type and coin: the key comes back
    as the hexadecimal text of the bytes that were read of it. *)
Theorem wif_of_private_key_reads_back (C : Collaborators) (K : KeyCollaborators C)
  (privateKey wif : string) (networkType : NetworkEnum.t) (coinString : string) :
  (forall key network keyPair text,
      fromPrivateKeyOn key network = Ok keyPair ->
      toWIF keyPair = Ok text ->
      exists read, fromWIF text network = Ok read /\ ECPair_privateKey read = Some key) ->
  privateKeyToWIF (PrivateKeyToWIFArgs.mk privateKey networkType coinString) = Ok wif ->
  wifToPrivateKey (WIFToPrivateKeyArgs.mk wif networkType coinString)
  = Ok (toHex (fromHex privateKey)).
Proof. exact (wif_roundtrip privateKey wif networkType coinString). Qed.

Lemma substring_all (s : string) : substring 0 (String.length s) s = s.
Proof. induction s as [|c s IH]; cbn; [reflexivity | now rewrite IH]. Qed.

Lemma keyPairOfWif_reads_back (key : Buffer) (network : BitcoinJSNetwork.t)
  (keyPair : FixtureKeys.KeyPair) (text : string) :
  FixtureKeys.keyPairOn key network = Ok keyPair ->
  FixtureKeys.wifOf keyPair = Ok text ->
  exists read,
    FixtureKeys.keyPairOfWif text network = Ok read /\ FixtureKeys.privateKeyOf read = Some key.
Proof.
  unfold FixtureKeys.keyPairOn, FixtureKeys.wifOf, Fixture.keyPairOf.
  destruct (List.length key =? 32)%nat eqn:Hlen; [|discriminate].
  intros [= <-] [= <-]. exists key. split; [|reflexivity].
  unfold FixtureKeys.keyPairOfWif. cbn [String.prefix append String.length Nat.sub].
  rewrite Nat.sub_0_r. cbn [substring]. rewrite substring_all, fromHex_toHex.
  unfold Fixture.keyPairOf. rewrite Hlen.
  repeat (destruct (ascii_dec _ _) as [_|Hne]; [|now contradiction Hne]).
  now destruct (toHex key).
Qed.

(** X14, on a private key written in capital letters: it comes back in small
    ones. *)
Lemma wif_of_private_key_reads_back_witness :
  exists wif,
    privateKeyToWIF (C := Fixture.collaborators) (K := FixtureKeys.keys)
      (PrivateKeyToWIFArgs.mk
         "AB11111111111111111111111111111111111111111111111111111111111111"
         NetworkEnum.Mainnet "bitcoin")
    = Ok wif
    /\ wifToPrivateKey (C := Fixture.collaborators) (K := FixtureKeys.keys)
         (WIFToPrivateKeyArgs.mk wif NetworkEnum.Mainnet "bitcoin")
       = Ok "ab11111111111111111111111111111111111111111111111111111111111111".
Proof.
  eexists. split; [vm_compute; reflexivity|].
  exact (wif_of_private_key_reads_back Fixture.collaborators FixtureKeys.keys
           "AB11111111111111111111111111111111111111111111111111111111111111" _
           NetworkEnum.Mainnet "bitcoin" keyPairOfWif_reads_back eq_refl).
Defined.

(** X15.  [signTx] loads every key it is given: when it returns a
    transaction, [privateKeyToPubkey] has a public key for each of the
    private keys. *)
Theorem signTx_keys_have_public_keys (C : Collaborators) (K : KeyCollaborators C)
  (args : SignTxArgs.t) :
  isOk (signTx args) = true ->
  Forall (fun key => isOk (privateKeyToPubkey key) = true) (SignTxArgs.privateKeys args).
Proof. exact (signTx_loads_keys args). Qed.

(** X15, on a draft of two inputs signed with their two keys. *)
Lemma signTx_keys_have_public_keys_witness :
  isOk (signTx (C := Fixture.collaborators)
          (SignTxArgs.mk [toHex Fixture.key0; toHex Fixture.key1] "unsigned")) = true
  /\ Forall (fun key => isOk (privateKeyToPubkey (K := FixtureKeys.keys) key) = true)
       [toHex Fixture.key0; toHex Fixture.key1].
Proof.
  split; [vm_compute; reflexivity|].
  exact (signTx_keys_have_public_keys Fixture.collaborators FixtureKeys.keys
           (SignTxArgs.mk [toHex Fixture.key0; toHex Fixture.key1] "unsigned")
           ltac:(vm_compute; reflexivity)).
Defined.

(** X16.  The Electrum script hash is the digest of the script's bytes read
    backwards: reversing its bytes gives the digest back, scripts written
    with the same bytes (whatever the case of the letters) have the same
    hash, and for a digest of 32 bytes it is a text of 64 characters. *)
Theorem electrum_script_hash_is_the_reversed_digest (C : Collaborators)
  (K : KeyCollaborators C) (scriptPubkey : string) :
  List.length (sha256 (fromHex scriptPubkey)) = 32%nat ->
  rev (fromHex (scriptPubkeyToElectrumScriptHash scriptPubkey)) = sha256 (fromHex scriptPubkey)
  /\ String.length (scriptPubkeyToElectrumScriptHash scriptPubkey) = 64%nat
  /\ (forall other, fromHex other = fromHex scriptPubkey ->
                    scriptPubkeyToElectrumScriptHash other
                    = scriptPubkeyToElectrumScriptHash scriptPubkey).
Proof.
  intros Hdigest. unfold scriptPubkeyToElectrumScriptHash. split; [|split].
  - now rewrite fromHex_toHex, rev_involutive.
  - now rewrite length_toHex, length_rev, Hdigest.
  - now intros other ->.
Qed.

(** X16, on a script of 34 bytes, in small and in capital letters. *)
Lemma electrum_script_hash_is_the_reversed_digest_witness :
  scriptPubkeyToElectrumScriptHash (K := FixtureKeys.keys)
    "0020aabbccddeeff00112233445566778899aabbccddeeff00112233445566778899"
  = "7766554433221100ffeeddccbbaa99887766554433221100ffeeddccbbaa2000"
  /\ scriptPubkeyToElectrumScriptHash (K := FixtureKeys.keys)
       "0020AABBCCDDEEFF00112233445566778899AABBCCDDEEFF00112233445566778899"
     = scriptPubkeyToElectrumScriptHash (K := FixtureKeys.keys)
         "0020aabbccddeeff00112233445566778899aabbccddeeff00112233445566778899".
Proof.
  destruct (electrum_script_hash_is_the_reversed_digest Fixture.collaborators FixtureKeys.keys
              "0020aabbccddeeff00112233445566778899aabbccddeeff00112233445566778899" eq_refl)
    as (_ & _ & Hsame).
  split; [vm_compute; reflexivity|].
  apply Hsame. vm_compute; reflexivity.
Defined.

(** ** Stored transactions *)

Lemma length_mapFrom {A B : Type} (f : A -> Z -> B) (l : list A) :
  forall n, List.length (mapFrom f n l) = List.length l.
Proof. induction l as [|x l IH]; intros n; cbn; [reflexivity | now rewrite IH]. Qed.

Lemma nth_error_mapFrom {A B : Type} (f : A -> Z -> B) (l : list A) :
  forall n i y,
    nth_error (mapFrom f n l) i = Some y ->
    exists x, nth_error l i = Some x /\ y = f x (n + Z.of_nat i).
Proof.
  induction l as [|x l IH]; intros n [|i] y; cbn [mapFrom nth_error]; try discriminate.
  - intros [= <-]. exists x. split; [reflexivity|]. now rewrite Z.add_0_r.
  - intros Hy. destruct (IH _ _ _ Hy) as (x' & Hx & ->). exists x'. split; [exact Hx|].
    f_equal. lia.
Qed.

Section StoredTransactions.
Context {I : Imports}.

Lemma receive_indexes (args : ToEdgeTransactionArgs.t ScriptTemplate)
  (heap heap' : Heap) (outs addresses : list string) :
  ReceiveAddresses args heap outs heap' addresses ->
  Forall (fun out =>
            at_ (IProcessorTransaction.outputs (ToEdgeTransactionArgs.tx args)) (parseInt out)
            <> None) outs
  /\ (List.length addresses <= List.length outs)%nat.
Proof.
  induction 1 as [heap
                 | heap heap1 heap' out outs output addresses Hout _ _ [IH Hlen]
                 | heap heap1 heap' out outs output ref object addresses Hout _ _ _ _ [IH Hlen]
                 | heap heap1 heap' out outs output ref object path address addresses format
                     Hout _ _ _ _ _ [IH Hlen]].
  - split; [constructor | reflexivity].
  - split; [constructor; [congruence | exact IH] | cbn [List.length]; lia].
  - split; [constructor; [congruence | exact IH] | cbn [List.length]; lia].
  - split; [constructor; [congruence | exact IH] | cbn [List.length]; lia].
Qed.

Lemma toEdgeTransaction_indexes (args : ToEdgeTransactionArgs.t ScriptTemplate)
  (heap heap' : Heap) (e : EdgeTransaction.t) :
  let tx := ToEdgeTransactionArgs.tx args in
  toEdgeTransaction args heap = Ok (e, heap') ->
  Forall (fun out => at_ (IProcessorTransaction.outputs tx) (parseInt out) <> None)
    (IProcessorTransaction.ourOuts tx)
  /\ (List.length (EdgeTransaction.ourReceiveAddresses e)
      <= List.length (IProcessorTransaction.ourOuts tx))%nat.
Proof.
  intros tx Hrun. unfold toEdgeTransaction in Hrun. fold tx in Hrun.
  destruct (forEach (receiveAddress args) (IProcessorTransaction.ourOuts tx) (heap, []))
    as [[heap1 addresses]|] eqn:Hloop; cbn [bind] in Hrun; [|discriminate].
  injection Hrun as <- <-. cbn [EdgeTransaction.ourReceiveAddresses].
  destruct (receive_loop args _ _ _ _ _ Hloop) as (shown & -> & Hshown).
  exact (receive_indexes args heap heap1 _ shown Hshown).
Qed.

Lemma feeRateOf_inverse (tx : IProcessorTransaction.t) (rate : Z) :
  feeRateOf tx = Ok rate ->
  exists t fees,
    Transaction_fromHex (IProcessorTransaction.hex tx) = Ok t
    /\ BN_ofString (IProcessorTransaction.fees tx) = Ok fees
    /\ virtualSize t <> 0
    /\ Z.abs (virtualSize t) < 2 ^ 53
    /\ Z.abs rate < 2 ^ 53
    /\ rate = Z.quot fees (virtualSize t).
Proof.
  unfold feeRateOf.
  destruct (Transaction_fromHex _) as [t|]; cbn [bind]; [|discriminate].
  destruct (BN_ofString _) as [fees|]; cbn [bind]; [|discriminate].
  unfold BN_ofNumber, BN_div, BN_toNumber.
  destruct (Z.abs (virtualSize t) <? 2 ^ 53) eqn:Hsize; cbn [bind]; [|discriminate].
  destruct (virtualSize t =? 0) eqn:Hzero; cbn [bind]; [discriminate|].
  destruct (Z.abs (Z.quot fees (virtualSize t)) <? 2 ^ 53) eqn:Hrate; [|discriminate].
  intros [= <-]. exists t, fees.
  apply Z.ltb_lt in Hsize, Hrate. apply Z.eqb_neq in Hzero. repeat split; assumption.
Qed.

Lemma quotient_rounds_down (fees w : Z) :
  0 <= fees -> 0 < w ->
  let size := (w + 3) / 4 in
  let rate := Z.quot fees size in
  0 <= rate /\ rate * size <= fees < (rate + 1) * size /\ rate * w <= 4 * fees.
Proof.
  intros Hfees Hw size rate.
  assert (Hsize : 0 < size /\ w <= 4 * size).
  { unfold size. pose proof (Z.div_mod (w + 3) 4 ltac:(lia)) as Hdiv.
    pose proof (Z.mod_pos_bound (w + 3) 4 ltac:(lia)) as Hmod. lia. }
  assert (Hrate : rate = fees / size) by (unfold rate; apply Z.quot_div_nonneg; lia).
  pose proof (Z.div_mod fees size ltac:(lia)) as Hdiv.
  pose proof (Z.mod_pos_bound fees size ltac:(lia)) as Hmod.
  assert (Hpos : 0 <= rate) by (rewrite Hrate; apply Z.div_pos; lia).
  rewrite <- Hrate in Hdiv. split; [exact Hpos|]. split; [nia|nia].
Qed.

End StoredTransactions.

(** X17.  The transaction [fromEdgeTransaction] returns lists the inputs and
    outputs of the psbt in their order: as many of each, each numbered by its
    position, with its script in hexadecimal text and its value, when that is
    a safe integer (below 2^53 in size), in decimal digits; an input names
    the transaction it spends by the bytes of its hash in reverse order, with
    the index of the output; nothing is marked as ours. *)
Theorem stored_transaction_follows_the_psbt (N : Numbers)
  (tx : EdgeTransactionData.t) (stored : IProcessorTransaction.t) :
  fromEdgeTransaction tx = Ok stored ->
  exists otherParams psbt,
    EdgeTransactionData.otherParams tx = Some otherParams
    /\ UtxoTxOtherParams.psbt otherParams = Some psbt
    /\ List.length (IProcessorTransaction.inputs stored)
       = List.length (PsbtParams.inputs psbt)
    /\ List.length (IProcessorTransaction.outputs stored)
       = List.length (PsbtParams.outputs psbt)
    /\ (forall i input,
          nth_error (IProcessorTransaction.inputs stored) i = Some input ->
          exists source,
            nth_error (PsbtParams.inputs psbt) i = Some source
            /\ ProcessorInput.n input = Z.of_nat i
            /\ rev (fromHex (ProcessorInput.txId input)) = PsbtInputParams.hash source
            /\ ProcessorInput.outputIndex input = PsbtInputParams.index source
            /\ fromHex (ProcessorInput.scriptPubkey input) = PsbtInputParams.scriptPubkey source
            /\ (Z.abs (PsbtInputParams.value source) < 2 ^ 53 ->
                ProcessorInput.amount input = decimalDigits (PsbtInputParams.value source)))
    /\ (forall i output,
          nth_error (IProcessorTransaction.outputs stored) i = Some output ->
          exists source,
            nth_error (PsbtParams.outputs psbt) i = Some source
            /\ ProcessorOutput.n output = Z.of_nat i
            /\ fromHex (ProcessorOutput.scriptPubkey output)
               = PsbtOutputParams.scriptPubkey source
            /\ (Z.abs (PsbtOutputParams.value source) < 2 ^ 53 ->
                ProcessorOutput.amount output = decimalDigits (PsbtOutputParams.value source)))
    /\ IProcessorTransaction.ourIns stored = []
    /\ IProcessorTransaction.ourOuts stored = [].
Proof.
  unfold fromEdgeTransaction.
  destruct (EdgeTransactionData.otherParams tx) as [otherParams|]; [|discriminate].
  destruct (UtxoTxOtherParams.psbt otherParams) as [psbt|] eqn:Hpsbt; [|discriminate].
  intros [= <-]. exists otherParams, psbt.
  cbn [IProcessorTransaction.inputs IProcessorTransaction.outputs IProcessorTransaction.ourIns
       IProcessorTransaction.ourOuts].
  split; [reflexivity|]. split; [exact Hpsbt|].
  split; [apply length_mapFrom|]. split; [apply length_mapFrom|].
  split; [|split; [|split; reflexivity]].
  - intros i input Hinput.
    destruct (nth_error_mapFrom _ _ _ _ _ Hinput) as (source & Hsource & ->).
    exists source. cbn. rewrite !fromHex_toHex, rev_involutive.
    split; [exact Hsource|]. do 4 (split; [reflexivity|]).
    intros Hsafe. unfold numberToString.
    now replace (Z.abs (PsbtInputParams.value source) <? 2 ^ 53) with true
      by (symmetry; apply Z.ltb_lt; exact Hsafe).
  - intros i output Houtput.
    destruct (nth_error_mapFrom _ _ _ _ _ Houtput) as (source & Hsource & ->).
    exists source. cbn. rewrite !fromHex_toHex.
    split; [exact Hsource|]. do 2 (split; [reflexivity|]).
    intros Hsafe. unfold numberToString.
    now replace (Z.abs (PsbtOutputParams.value source) <? 2 ^ 53) with true
      by (symmetry; apply Z.ltb_lt; exact Hsafe).
Qed.

(** X17, on an edge transaction with one input of 18000 and two outputs,
    whatever is written for the numbers that are no safe integers. *)
Lemma stored_transaction_follows_the_psbt_witness :
  exists stored,
    forall N : Numbers,
      fromEdgeTransaction MoreExamples.edgeTransaction = Ok stored
      /\ map ProcessorInput.txId (IProcessorTransaction.inputs stored)
         = ["201f1e1d1c1b1a191817161514131211100f0e0d0c0b0a090807060504030201"]
      /\ map ProcessorOutput.n (IProcessorTransaction.outputs stored) = [0; 1]
      /\ map ProcessorInput.amount (IProcessorTransaction.inputs stored) = ["18000"]
      /\ List.length (IProcessorTransaction.outputs stored) = 2%nat.
Proof.
  eexists. intros N.
  split; [vm_compute; reflexivity|].
  split; [reflexivity|]. split; [reflexivity|].
  destruct (stored_transaction_follows_the_psbt N MoreExamples.edgeTransaction _
              ltac:(vm_compute; reflexivity))
    as (otherParams & psbt & Hother & Hpsbt & _ & Hlen & Hinputs & _).
  injection Hother as <-. injection Hpsbt as <-.
  split; [|exact Hlen].
  destruct (Hinputs 0%nat _ eq_refl) as (source & Hsource & _ & _ & _ & _ & Hamount).
  injection Hsource as <-.
  refine (f_equal (fun amount => [amount]) (Hamount _)). cbn. lia.
Defined.

(** X18.  An edge transaction that is stored and shown again keeps its txid,
    block height, date, signed transaction and network fee; its native amount
    is kept, or ['0'] when it had none.  Showing it asks the processor and
    the wallet tools for nothing: whatever they are it does not fail, leaves
    the address objects alone and lists no receive address. *)
Theorem stored_edge_transaction_is_shown_again (I : Imports) (N : Numbers)
  (tx : EdgeTransactionData.t) (stored : IProcessorTransaction.t)
  (walletTools : UTXOPluginWalletTools.t) (processor : Processor.t)
  (pluginInfo : PluginInfo.t ScriptTemplate) (heap : Heap) :
  fromEdgeTransaction tx = Ok stored ->
  exists e,
    toEdgeTransaction (ToEdgeTransactionArgs.mk stored walletTools processor pluginInfo) heap
    = Ok (e, heap)
    /\ EdgeTransaction.txid e = EdgeTransactionData.txid tx
    /\ EdgeTransaction.blockHeight e = EdgeTransactionData.blockHeight tx
    /\ EdgeTransaction.date e = EdgeTransactionData.date tx
    /\ EdgeTransaction.signedTx e = EdgeTransactionData.signedTx tx
    /\ EdgeTransaction.networkFee e = EdgeTransactionData.networkFee tx
    /\ EdgeTransaction.nativeAmount e
       = match EdgeTransactionData.nativeAmount tx with Some amount => amount | None => "0" end
    /\ EdgeTransaction.currencyCode e = PluginInfo.currencyCode pluginInfo
    /\ EdgeTransaction.ourReceiveAddresses e = [].
Proof.
  unfold fromEdgeTransaction.
  destruct (EdgeTransactionData.otherParams tx) as [otherParams|]; [|discriminate].
  destruct (UtxoTxOtherParams.psbt otherParams) as [psbt|]; [|discriminate].
  intros [= <-]. eexists. split; [reflexivity|]. cbn. now repeat split.
Qed.

(** X18, on an edge transaction shown by a wallet with two address objects,
    whatever is written for the numbers that are no safe integers. *)
Lemma stored_edge_transaction_is_shown_again_witness :
  exists stored e,
    forall N : Numbers,
      fromEdgeTransaction MoreExamples.edgeTransaction = Ok stored
      /\ toEdgeTransaction (I := Fixture.imports)
           (ToEdgeTransactionArgs.mk stored Fixture.walletTools Fixture.cachingProcessor
              ExampleWallet.pluginInfo) ExampleWallet.heap
         = Ok (e, ExampleWallet.heap)
      /\ EdgeTransaction.nativeAmount e = "-13000"
      /\ EdgeTransaction.feeRateUsed e = Some (FeeRateUsed.mk 100).
Proof.
  do 2 eexists. intros N.
  split; [vm_compute; reflexivity|].
  destruct (stored_edge_transaction_is_shown_again Fixture.imports N
              MoreExamples.edgeTransaction _ Fixture.walletTools Fixture.cachingProcessor
              ExampleWallet.pluginInfo ExampleWallet.heap ltac:(vm_compute; reflexivity))
    as (e & Hshown & _ & _ & _ & _ & _ & Hamount & _).
  assert (Hrun := Hshown). vm_compute in Hrun.
  split; [vm_compute; reflexivity|].
  injection Hrun as <-. split; reflexivity.
Defined.

(** X19.  When [toEdgeTransaction] returns, every entry of [tx.ourOuts] is
    read by [parseInt] as the position of an output of the transaction, and
    there are at most as many receive addresses as entries. *)
Theorem our_outputs_index_outputs (I : Imports)
  (args : ToEdgeTransactionArgs.t ScriptTemplate) (heap heap' : Heap) (e : EdgeTransaction.t) :
  let tx := ToEdgeTransactionArgs.tx args in
  toEdgeTransaction args heap = Ok (e, heap') ->
  Forall (fun out => at_ (IProcessorTransaction.outputs tx) (parseInt out) <> None)
    (IProcessorTransaction.ourOuts tx)
  /\ (List.length (EdgeTransaction.ourReceiveAddresses e)
      <= List.length (IProcessorTransaction.ourOuts tx))%nat.
Proof. exact (toEdgeTransaction_indexes args heap heap' e). Qed.

(** X19, on a transaction with outputs 0 and 2 of ours, and on one that names
    an output it does not have. *)
Lemma our_outputs_index_outputs_witness :
  (exists e heap',
      toEdgeTransaction (I := Fixture.imports)
        (ExampleWallet.args "8200" ExampleWallet.hex) ExampleWallet.heap = Ok (e, heap')
      /\ (List.length (EdgeTransaction.ourReceiveAddresses e) <= 2)%nat)
  /\ toEdgeTransaction (I := Fixture.imports)
       (ToEdgeTransactionArgs.mk
          (IProcessorTransaction.mk "txid" ExampleWallet.hex 650000 1600000000 "8200" []
             [ProcessorOutput.mk "5000" ExampleWallet.replaySpk 0] [] ["0"; "1"] "5000")
          Fixture.walletTools Fixture.cachingProcessor ExampleWallet.pluginInfo)
       ExampleWallet.heap
     = Throw "Cannot destructure property 'scriptPubkey' of undefined".
Proof.
  split; [|vm_compute; reflexivity].
  destruct (toEdgeTransaction (I := Fixture.imports)
              (ExampleWallet.args "8200" ExampleWallet.hex) ExampleWallet.heap)
    as [[e heap']|msg] eqn:Hrun; [|vm_compute in Hrun; discriminate].
  exists e, heap'. split; [reflexivity|].
  exact (proj2 (our_outputs_index_outputs Fixture.imports
                  (ExampleWallet.args "8200" ExampleWallet.hex) ExampleWallet.heap heap' e Hrun)).
Defined.

(** X20.  A fee rate [toEdgeTransaction] reports is never made up: the stored
    hex parsed, the fee text was a number, the virtual size was not zero, and
    the rate is the quotient of the fees by the virtual size, below 2^53 in
    size.  For fees that are not negative and a positive weight it is rounded
    down: the rate times the virtual size is at most the fees and misses them
    by less than one virtual size, and the rate times the weight is at most
    four times the fees. *)
Theorem reported_fee_rate_is_rounded_down (I : Imports)
  (args : ToEdgeTransactionArgs.t ScriptTemplate) (heap heap' : Heap) (e : EdgeTransaction.t)
  (rate : Z) :
  let tx := ToEdgeTransactionArgs.tx args in
  toEdgeTransaction args heap = Ok (e, heap') ->
  EdgeTransaction.feeRateUsed e = Some (FeeRateUsed.mk rate) ->
  exists t fees,
    Transaction_fromHex (IProcessorTransaction.hex tx) = Ok t
    /\ BN_ofString (IProcessorTransaction.fees tx) = Ok fees
    /\ virtualSize t <> 0
    /\ Z.abs rate < 2 ^ 53
    /\ rate = Z.quot fees (virtualSize t)
    /\ (0 <= fees -> 0 < weight t ->
        0 <= rate
        /\ rate * virtualSize t <= fees < (rate + 1) * virtualSize t
        /\ rate * weight t <= 4 * fees).
Proof.
  intros tx Hrun Hrate.
  rewrite (toEdgeTransaction_feeRateUsed args heap heap' e Hrun) in Hrate. fold tx in Hrate.
  unfold feeResOf in Hrate.
  destruct (feeRateOf tx) as [r|] eqn:Hfee; cbn in Hrate; [|discriminate].
  injection Hrate as ->.
  destruct (feeRateOf_inverse tx rate Hfee) as (t & fees & Hparse & Hfees & Hsize & _ & Hbound & Heq).
  exists t, fees. split; [exact Hparse|]. split; [exact Hfees|]. split; [exact Hsize|].
  split; [exact Hbound|]. split; [exact Heq|].
  intros Hpos Hweight. rewrite Heq. exact (quotient_rounds_down fees (weight t) Hpos Hweight).
Qed.

(** X20, on a transaction of 82 bytes (weight 328) with fees 8250: the rate
    is 100, and 100 * 82 <= 8250 < 101 * 82. *)
Lemma reported_fee_rate_is_rounded_down_witness :
  exists e heap',
    toEdgeTransaction (I := Fixture.imports)
      (ExampleWallet.args "8250" ExampleWallet.hex) ExampleWallet.heap = Ok (e, heap')
    /\ EdgeTransaction.feeRateUsed e = Some (FeeRateUsed.mk 100)
    /\ exists t fees,
         Transaction_fromHex (Imports := Fixture.imports) ExampleWallet.hex = Ok t
         /\ Fixture.decimal "8250" = Ok fees
         /\ 100 = Z.quot fees (virtualSize (I := Fixture.imports) t).
Proof.
  destruct (toEdgeTransaction (I := Fixture.imports)
              (ExampleWallet.args "8250" ExampleWallet.hex) ExampleWallet.heap)
    as [[e heap']|msg] eqn:Hrun; [|vm_compute in Hrun; discriminate].
  exists e, heap'. split; [reflexivity|].
  assert (Hrate : EdgeTransaction.feeRateUsed e = Some (FeeRateUsed.mk 100))
    by (vm_compute in Hrun; injection Hrun as <- _; reflexivity).
  split; [exact Hrate|].
  destruct (reported_fee_rate_is_rounded_down Fixture.imports
              (ExampleWallet.args "8250" ExampleWallet.hex) ExampleWallet.heap heap' e 100
              Hrun Hrate) as (t & fees & Hparse & Hfees & _ & _ & Heq & _).
  exists t, fees. split; [exact Hparse|]. split; [exact Hfees | exact Heq].
Defined.

(** ** Extended keys *)

Section ExtendedKeys.
Context {C : Collaborators}.

Lemma first_key_pair (xpriv xpub priv : string) (networkType : NetworkEnum.t)
  (sigType : BIP43PurposeTypeEnum.t) (coinString : string) (change : ZeroOrOne.t) (index : Z) :
  (forall text network node,
      fromBase58 text network = Ok node ->
      fromBase58 (toBase58 (neutered node)) network = Ok (neutered node)) ->
  (forall node child, derive node 0 = Ok child -> derive (neutered node) 0 = Ok (neutered child)) ->
  (forall node, publicKey (neutered node) = publicKey node) ->
  xprivToXPub (XPrivToXPubArgs.mk xpriv networkType sigType coinString) = Ok xpub ->
  xprivToPrivateKey
    (XPrivToPrivateKeyArgs.mk xpriv networkType sigType change index coinString) = Ok priv ->
  exists leaf key,
    privateKey leaf = Some key
    /\ priv = toHex key
    /\ xpubToPubkey
         (XPubToPubkeyArgs.mk xpub networkType sigType ZeroOrOne.zero 0 coinString)
       = Ok (toHex (publicKey leaf)).
Proof.
  intros Hread Hneuter Hpub. unfold xprivToXPub, xprivToPrivateKey, xpubToPubkey.
  cbn [XPrivToXPubArgs.xpriv XPrivToXPubArgs.network XPrivToXPubArgs.type XPrivToXPubArgs.coin
       XPrivToPrivateKeyArgs.xpriv XPrivToPrivateKeyArgs.network XPrivToPrivateKeyArgs.type
       XPrivToPrivateKeyArgs.coin XPubToPubkeyArgs.xpub XPubToPubkeyArgs.network
       XPubToPubkeyArgs.type XPubToPubkeyArgs.coin XPubToPubkeyArgs.bip44ChangeIndex
       XPubToPubkeyArgs.bip44AddressIndex ZeroOrOne.toZ].
  destruct (bip32NetworkFromCoin networkType coinString sigType) as [network|];
    cbn [bind]; [|discriminate].
  destruct (fromBase58 xpriv network) as [node|] eqn:Hnode; cbn [bind]; [|discriminate].
  intros [= <-].
  destruct (derive node 0) as [child|] eqn:Hchild; cbn [bind]; [|discriminate].
  destruct (derive child 0) as [leaf|] eqn:Hleaf; cbn [bind]; [|discriminate].
  destruct (privateKey leaf) as [key|] eqn:Hkey; [|discriminate].
  intros [= <-]. exists leaf, key. split; [exact Hkey|]. split; [reflexivity|].
  rewrite (Hread _ _ _ Hnode). cbn [bind].
  rewrite (Hneuter _ _ Hchild). cbn [bind].
  rewrite (Hneuter _ _ Hleaf). cbn [bind].
  now rewrite Hpub.
Qed.

End ExtendedKeys.

(** X21.  With a bip32 library in which a key read from text, neutered and
    written is read back on the same network, deriving child 0 commutes with
    neutering, and neutering keeps the public key: the private key
    [xprivToPrivateKey] returns, whatever change and address index it is
    asked for, is the private key of the key pair whose public key
    [xpubToPubkey] returns for the extended public key of [xprivToXPub] at
    change 0 and address index 0. *)
Theorem private_key_pairs_with_the_first_public_key (C : Collaborators)
  (xpriv xpub priv : string) (networkType : NetworkEnum.t)
  (sigType : BIP43PurposeTypeEnum.t) (coinString : string) (change : ZeroOrOne.t) (index : Z) :
  (forall text network node,
      fromBase58 text network = Ok node ->
      fromBase58 (toBase58 (neutered node)) network = Ok (neutered node)) ->
  (forall node child, derive node 0 = Ok child -> derive (neutered node) 0 = Ok (neutered child)) ->
  (forall node, publicKey (neutered node) = publicKey node) ->
  xprivToXPub (XPrivToXPubArgs.mk xpriv networkType sigType coinString) = Ok xpub ->
  xprivToPrivateKey
    (XPrivToPrivateKeyArgs.mk xpriv networkType sigType change index coinString) = Ok priv ->
  exists leaf key,
    privateKey leaf = Some key
    /\ priv = toHex key
    /\ xpubToPubkey
         (XPubToPubkeyArgs.mk xpub networkType sigType ZeroOrOne.zero 0 coinString)
       = Ok (toHex (publicKey leaf)).
Proof.
  exact (first_key_pair xpriv xpub priv networkType sigType coinString change index).
Qed.

Lemma append_empty (s : string) : (s ++ "")%string = s.
Proof. induction s as [|c s IH]; cbn; [reflexivity | now rewrite IH]. Qed.

Lemma nodeOfBase58_reads_back (text : string) (network : BitcoinJSNetwork.t)
  (node : Fixture.Node) :
  Fixture.nodeOfBase58 text network = Ok node ->
  Fixture.nodeOfBase58
    (Fixture.base58OfNode (Fixture.mkNode (Fixture.label node) (Fixture.indices node) false))
    network
  = Ok (Fixture.mkNode (Fixture.label node) (Fixture.indices node) false).
Proof.
  unfold Fixture.nodeOfBase58 at 1.
  destruct (String.prefix "xprv" text); [|destruct (String.prefix "xpub" text); [|discriminate]];
    intros [= <-]; unfold Fixture.base58OfNode, Fixture.nodeOfBase58;
    cbn [Fixture.hasPrivateKey Fixture.label Fixture.indices map toHex append String.prefix
         String.length Nat.sub];
    rewrite Nat.sub_0_r;
    repeat match goal with
           | |- context [ascii_dec ?a ?b] => destruct (ascii_dec a b); try congruence
           end;
    rewrite append_empty;
    generalize (substring 4 (String.length text - 4) text); intros label;
    destruct label as [|c label]; cbn [String.prefix substring String.length];
    rewrite ?substring_all; reflexivity.
Qed.

Lemma child_of_neutered (node child : Fixture.Node) :
  Fixture.child node 0 = Ok child ->
  Fixture.child (Fixture.mkNode (Fixture.label node) (Fixture.indices node) false) 0
  = Ok (Fixture.mkNode (Fixture.label child) (Fixture.indices child) false).
Proof. unfold Fixture.child. cbn. now intros [= <-]. Qed.

(** X21, on an extended key asked for change 1 and address index 5. *)
Lemma private_key_pairs_with_the_first_public_key_witness :
  exists xpub priv leaf,
    xprivToXPub (C := Fixture.collaborators)
      (XPrivToXPubArgs.mk "xprvwallet" NetworkEnum.Mainnet BIP43PurposeTypeEnum.Legacy "bitcoin")
    = Ok xpub
    /\ xprivToPrivateKey (C := Fixture.collaborators)
         (XPrivToPrivateKeyArgs.mk "xprvwallet" NetworkEnum.Mainnet BIP43PurposeTypeEnum.Legacy
            ZeroOrOne.one 5 "bitcoin")
       = Ok priv
    /\ xpubToPubkey (C := Fixture.collaborators)
         (XPubToPubkeyArgs.mk xpub NetworkEnum.Mainnet BIP43PurposeTypeEnum.Legacy
            ZeroOrOne.zero 0 "bitcoin")
       = Ok (toHex (publicKey (Collaborators := Fixture.collaborators) leaf))
    /\ option_map toHex (privateKey (Collaborators := Fixture.collaborators) leaf) = Some priv.
Proof.
  do 2 eexists.
  destruct (private_key_pairs_with_the_first_public_key Fixture.collaborators
              "xprvwallet" _ _ NetworkEnum.Mainnet BIP43PurposeTypeEnum.Legacy "bitcoin"
              ZeroOrOne.one 5 nodeOfBase58_reads_back
              child_of_neutered (fun node => eq_refl)
              ltac:(vm_compute; reflexivity) ltac:(vm_compute; reflexivity))
    as (leaf & key & Hkey & Hpriv & Hpub).
  exists leaf. split; [reflexivity|]. split; [reflexivity|]. split; [exact Hpub|].
  rewrite Hkey. cbn [option_map]. now rewrite <- Hpriv.
Defined.

(** ** Address objects *)

Lemma Forall2_same {A : Type} (R : A -> A -> Prop) (l : list A) :
  (forall x, R x x) -> Forall2 R l l.
Proof. intros Hrefl. induction l; constructor; auto. Qed.

Lemma Forall2_chain {A : Type} (R : A -> A -> Prop) :
  (forall x y z, R x y -> R y z -> R x z) ->
  forall l1 l2 l3, Forall2 R l1 l2 -> Forall2 R l2 l3 -> Forall2 R l1 l3.
Proof.
  intros Htrans l1 l2 l3 H12. revert l3.
  induction H12 as [|x y l1 l2 Hxy _ IH]; intros l3 H23; inversion H23; subst; constructor.
  - eapply Htrans; eassumption.
  - now apply IH.
Qed.

Lemma Forall2_replaceAt {A : Type} (R : A -> A -> Prop) (l : list A) (i : nat) (x y : A) :
  (forall x, R x x) -> nth_error l i = Some x -> R x y -> Forall2 R l (replaceAt l i y).
Proof.
  intros Hrefl. revert i. induction l as [|z l IH]; intros [|i]; cbn; try discriminate.
  - intros [= ->] Hxy. constructor; [exact Hxy | now apply Forall2_same].
  - intros Hin Hxy. constructor; [apply Hrefl | now apply IH].
Qed.

Lemma sameButFormat_chain (a b c : IAddress.t) :
  sameButFormat a b -> sameButFormat b c -> sameButFormat a c.
Proof.
  intros [-> | (p & Hp & ->)]; [trivial|].
  intros [-> | (q & Hq & ->)].
  - right. now exists p.
  - right. exists p. split; [exact Hp|]. cbn in Hq. injection Hq as <-. reflexivity.
Qed.

Section AddressObjects.
Context {I : Imports}.

Lemma sameButFormat_shown (scriptTemplate : option ScriptTemplate) (object : IAddress.t)
  (path : AddressPath.t) :
  IAddress.path object = Some path ->
  sameButFormat object
    (IAddress.withPath object (AddressPath.withFormat path (displayFormat scriptTemplate path)))
  /\ (scriptTemplate = None ->
      IAddress.withPath object (AddressPath.withFormat path (displayFormat scriptTemplate path))
      = object).
Proof.
  intros Hpath.
  assert (Hsame : IAddress.withPath object (AddressPath.withFormat path (AddressPath.format path))
                  = object).
  { destruct object as [script p]; cbn in Hpath; subst p. now destruct path. }
  unfold displayFormat. destruct scriptTemplate as [template|].
  - split; [|discriminate].
    destruct (isPathUsingDerivationLevelScriptHash template path).
    + right. now exists path.
    + left. exact Hsame.
  - split; [left; exact Hsame | intros _; exact Hsame].
Qed.

Lemma receive_heap (args : ToEdgeTransactionArgs.t ScriptTemplate)
  (heap heap' : Heap) (outs addresses : list string) :
  readOnly (ToEdgeTransactionArgs.processor args) ->
  ReceiveAddresses args heap outs heap' addresses ->
  Forall2 sameButFormat heap heap'
  /\ (PluginInfo.replayProtection (ToEdgeTransactionArgs.pluginInfo args) = None ->
      heap' = heap).
Proof.
  intros Hread.
  induction 1 as [heap
                 | heap heap1 heap' out outs output addresses _ Hfetch _ [IH Hnone]
                 | heap heap1 heap' out outs output ref object addresses _ Hfetch _ _ _ [IH Hnone]
                 | heap heap1 heap' out outs output ref object path address addresses format
                     _ Hfetch Hobject Hpath _ _ [IH Hnone]].
  - split; [apply Forall2_same; now left | reflexivity].
  - rewrite (Hread _ _ _ _ Hfetch) in *. now split.
  - rewrite (Hread _ _ _ _ Hfetch) in *. now split.
  - rewrite (Hread _ _ _ _ Hfetch) in *.
    destruct (sameButFormat_shown
                (PluginInfo.replayProtection (ToEdgeTransactionArgs.pluginInfo args))
                object path Hpath) as [Hsame Hkeep].
    fold format in Hsame, Hkeep. split.
    + refine (Forall2_chain _ sameButFormat_chain _ _ _ _ IH).
      apply (Forall2_replaceAt sameButFormat heap ref object); [now left | exact Hobject | exact Hsame].
    + intros Htemplate. rewrite (Hnone Htemplate), (Hkeep Htemplate).
      now apply replaceAt_same.
Qed.

Lemma toEdgeTransaction_heap (args : ToEdgeTransactionArgs.t ScriptTemplate)
  (heap heap' : Heap) (e : EdgeTransaction.t) :
  readOnly (ToEdgeTransactionArgs.processor args) ->
  toEdgeTransaction args heap = Ok (e, heap') ->
  Forall2 sameButFormat heap heap'
  /\ (PluginInfo.replayProtection (ToEdgeTransactionArgs.pluginInfo args) = None ->
      heap' = heap).
Proof.
  intros Hread Hrun. unfold toEdgeTransaction in Hrun.
  destruct (forEach (receiveAddress args) _ (heap, [])) as [[heap1 addresses]|] eqn:Hloop;
    cbn [bind] in Hrun; [|discriminate].
  injection Hrun as _ <-.
  destruct (receive_loop args _ _ _ _ _ Hloop) as (shown & _ & Hshown).
  exact (receive_heap args heap heap1 _ shown Hread Hshown).
Qed.

End AddressObjects.

(** X22.  With a processor that hands out the address objects it has,
    [toEdgeTransaction] changes nothing of them but the format of a path,
    which it may overwrite with ['bip49']: the objects it leaves are the ones
    it found, one for one, each as it was or with that format; for a coin
    without a replay protection template they are all as they were. *)
Theorem address_objects_change_in_format_only (I : Imports)
  (args : ToEdgeTransactionArgs.t ScriptTemplate) (heap heap' : Heap) (e : EdgeTransaction.t) :
  readOnly (ToEdgeTransactionArgs.processor args) ->
  toEdgeTransaction args heap = Ok (e, heap') ->
  Forall2 sameButFormat heap heap'
  /\ (PluginInfo.replayProtection (ToEdgeTransactionArgs.pluginInfo args) = None ->
      heap' = heap).
Proof. exact (toEdgeTransaction_heap args heap heap' e). Qed.

(** X22, on a wallet with two address objects on the bip44 chain: showing a
    transaction that pays to both leaves the second one, which is at the
    change index of the replay protection template, with the format bip49. *)
Lemma address_objects_change_in_format_only_witness :
  exists e heap',
    toEdgeTransaction (I := Fixture.imports)
      (ExampleWallet.args "8200" ExampleWallet.hex) ExampleWallet.heap = Ok (e, heap')
    /\ Forall2 sameButFormat ExampleWallet.heap heap'
    /\ map (fun object => option_map AddressPath.format (IAddress.path object)) heap'
       = [Some "bip44"; Some "bip49"].
Proof.
  destruct (toEdgeTransaction (I := Fixture.imports)
              (ExampleWallet.args "8200" ExampleWallet.hex) ExampleWallet.heap)
    as [[e heap']|msg] eqn:Hrun; [|vm_compute in Hrun; discriminate].
  exists e, heap'. split; [reflexivity|]. split.
  - apply (address_objects_change_in_format_only Fixture.imports
             (ExampleWallet.args "8200" ExampleWallet.hex) ExampleWallet.heap heap' e);
      [|exact Hrun].
    intros heap scriptPubkey ref heap1 Hfetch. cbn in Hfetch. now injection Hfetch as _ <-.
  - vm_compute in Hrun. injection Hrun as _ <-. reflexivity.
Defined.
